(** * Federation and audit engine of the quantum memory orchestrator

    A shallow embedding of the parts of the repository that carry the
    algorithms: the hash-linked audit chain, the store and search fan-out
    and the result merger of [src/orchestrator/quantum_memory.py], the
    backend adapters and their factory, and the retrying request helper
    of [memoryplugin/memoryplugin_client.py] with the orchestrator built
    on it.

    Python dictionaries are association lists in insertion order, Python
    exceptions are the [Raises] case of [py_result], and everything the
    code reads from the outside world (the clock, [uuid4], the replies of
    the backends and of the network) is an explicit argument.

    A Python [str] is held as the bytes of its UTF-8 encoding. Python
    strings may hold a lone surrogate (the JSON text ["\ud800"] decodes
    to one), which UTF-8 refuses: such a character is held as the three
    bytes the same scheme gives it, [ED A0..BF 80..BF]. Lengths and
    slices count characters, not bytes, and [str.encode] fails on the
    strings that hold a surrogate. *)

From Stdlib Require Import ZArith QArith Lia Bool.
From stdpp Require Import strings list gmap pretty.
Close Scope Q_scope.
Local Open Scope string_scope.
Local Open Scope list_scope.

(** ** Python values and dictionaries *)

(** The JSON-like values the orchestrator stores and receives; [VEnum]
    is a member of one of the source's [Enum] classes, named as [str]
    prints it. *)
#[local] Unset Elimination Schemes.
Inductive pyval : Type :=
| VNone
| VBool (b : bool)
| VInt (n : Z)
| VStr (s : string)
| VEnum (name : string)
| VList (l : list pyval)
| VDict (d : list (string * pyval)).
#[local] Set Elimination Schemes.

Abbreviation pydict := (list (string * pyval)).

(** [d.get(k)]: [None] stands for an absent key. *)
Fixpoint dict_get (k : string) (d : pydict) : option pyval :=
  match d with
  | [] => None
  | (k', v) :: d' => if String.eqb k k' then Some v else dict_get k d'
  end.

(** [d[k] = v]: an existing key keeps its position, a new key goes last. *)
Fixpoint dict_set (k : string) (v : pyval) (d : pydict) : pydict :=
  match d with
  | [] => [(k, v)]
  | (k', v') :: d' =>
      if String.eqb k k' then (k', v) :: d' else (k', v') :: dict_set k v d'
  end.

(** [k in d] *)
Definition dict_mem (k : string) (d : pydict) : bool :=
  match dict_get k d with Some _ => true | None => false end.

(** [d.get(k, default)] *)
Definition dict_get_default (k : string) (default : pyval) (d : pydict) : pyval :=
  match dict_get k d with Some v => v | None => default end.

(** Python's [bool] is a subclass of [int]: [True == 1]. *)
Definition py_num (v : pyval) : option Z :=
  match v with
  | VBool b => Some (Z.b2z b)
  | VInt n => Some n
  | _ => None
  end.

(** [a == b] on these values: numbers by value, strings by content, lists
    element by element, dictionaries key by key whatever the order. *)
Fixpoint py_eq (a b : pyval) : bool :=
  match py_num a, py_num b with
  | Some m, Some n => Z.eqb m n
  | Some _, None | None, Some _ => false
  | None, None =>
      match a, b with
      | VNone, VNone => true
      | VStr s, VStr t => String.eqb s t
      | VEnum s, VEnum t => String.eqb s t
      | VList l, VList l' =>
          (fix list_eq (l l' : list pyval) : bool :=
             match l, l' with
             | [], [] => true
             | x :: l, y :: l' => py_eq x y && list_eq l l'
             | _, _ => false
             end) l l'
      | VDict d, VDict d' =>
          Nat.eqb (length d) (length d') &&
          (fix dict_le (d : pydict) : bool :=
             match d with
             | [] => true
             | (k, v) :: d =>
                 match dict_get k d' with
                 | Some v' => py_eq v v' && dict_le d
                 | None => false
                 end
             end) d
      | _, _ => false
      end
  end.

(** [bool(v)] *)
Definition py_truthy (v : pyval) : bool :=
  match v with
  | VNone => false
  | VBool b => b
  | VInt n => negb (Z.eqb n 0)
  | VStr s => negb (String.eqb s "")
  | VEnum _ => true
  | VList l => match l with [] => false | _ => true end
  | VDict d => match d with [] => false | _ => true end
  end.

(** ** Strings *)

(** A byte [10xxxxxx], which continues the character begun before it. *)
Definition is_continuation (c : Ascii.ascii) : bool :=
  (128 <=? Ascii.N_of_ascii c)%N && (Ascii.N_of_ascii c <? 192)%N.

(** The bytes [ED A0..BF] begin the encoding of a surrogate, U+D800 to
    U+DFFF. *)
Definition is_surrogate (c d : Ascii.ascii) : bool :=
  (Ascii.N_of_ascii c =? 237)%N && (160 <=? Ascii.N_of_ascii d)%N && (Ascii.N_of_ascii d <? 192)%N.

(** [s.encode('utf-8')] succeeds, and then gives the bytes of [s]: no
    character of [s] is a surrogate. *)
Fixpoint encodable (s : string) : bool :=
  match s with
  | EmptyString => true
  | String c s' =>
      match s' with
      | String d _ => negb (is_surrogate c d)
      | EmptyString => true
      end && encodable s'
  end.

(** [len(s)]: the number of characters. *)
Fixpoint py_len (s : string) : nat :=
  match s with
  | EmptyString => 0
  | String c s' => if is_continuation c then py_len s' else S (py_len s')
  end.

(** [s[:n]] for [n >= 0]: the first [n] characters. *)
Fixpoint str_take (n : nat) (s : string) : string :=
  match s with
  | EmptyString => EmptyString
  | String c s' =>
      if is_continuation c then String c (str_take n s')
      else
        match n with
        | O => EmptyString
        | S n' => String c (str_take n' s')
        end
  end.

(** The first surrogate of a string: the number of characters before
    it and the string from it on. *)
Fixpoint find_surrogate (pos : nat) (s : string) : option (nat * string) :=
  match s with
  | EmptyString => None
  | String c s' =>
      if is_continuation c then find_surrogate pos s'
      else
        match s' with
        | String d _ =>
            if is_surrogate c d then Some (pos, s) else find_surrogate (S pos) s'
        | EmptyString => None
        end
  end.

(** How many surrogates a string begins with. *)
Fixpoint surrogate_run (s : string) : nat :=
  match s with
  | String c (String d (String e rest)) =>
      if is_surrogate c d then S (surrogate_run rest) else O
  | _ => O
  end.

(** The code point of the surrogate held as the bytes [ED d e]. *)
Definition surrogate_code (d e : Ascii.ascii) : N :=
  (55296 + (Ascii.N_of_ascii d - 160) * 64 + (Ascii.N_of_ascii e - 128))%N.

Definition hex_digit (n : N) : Ascii.ascii :=
  Ascii.ascii_of_N (if (n <? 10)%N then 48 + n else 87 + n).

(** [n] as [%04x] prints it. *)
Definition hex4 (n : N) : string :=
  String (hex_digit (n / 4096 mod 16)) (String (hex_digit (n / 256 mod 16))
    (String (hex_digit (n / 16 mod 16)) (String (hex_digit (n mod 16)) EmptyString))).

(** [str(e)] for the [UnicodeEncodeError] that [s.encode('utf-8')]
    raises: it names the first surrogate and its position, or the
    positions of the first run of surrogates. *)
Definition encode_error_message (s : string) : string :=
  match find_surrogate 0 s with
  | Some (start, String c (String d (String e rest))) =>
      match surrogate_run rest with
      | O =>
          "'utf-8' codec can't encode character '\u" ++ hex4 (surrogate_code d e)
          ++ "' in position " ++ pretty (N.of_nat start) ++ ": surrogates not allowed"
      | S more =>
          "'utf-8' codec can't encode characters in position "
          ++ pretty (N.of_nat start) ++ "-" ++ pretty (N.of_nat (start + S more))
          ++ ": surrogates not allowed"
      end
  | _ => "surrogates not allowed"
  end.

(** [needle in hay] on strings. *)
Fixpoint str_contains (needle hay : string) : bool :=
  String.prefix needle hay
  || match hay with
     | EmptyString => false
     | String _ hay' => str_contains needle hay'
     end.

(** ** Exceptions *)

(** The exceptions the modelled code can meet; [BackendError] stands for
    whatever a backend client or the HTTP library raises and [PyTypeError]
    is Python's [TypeError]. *)
Inductive py_exn : Type :=
| KeyError (key : string)
| IndexError (msg : string)
| AttributeError (msg : string)
| RuntimeError (msg : string)
| BackendError (msg : string)
| HTTPException (status_code : Z) (detail : string)
| UnicodeEncodeError (msg : string)
| PyTypeError (msg : string)
| ValueError (msg : string)
| OverflowError (msg : string).

(** [str(e)] *)
Definition exn_str (e : py_exn) : string :=
  match e with
  | KeyError k => ("'" ++ k ++ "'")%string
  | IndexError m => m
  | AttributeError m => m
  | RuntimeError m => m
  | BackendError m => m
  | HTTPException _ d => d
  | UnicodeEncodeError m => m
  | PyTypeError m => m
  | ValueError m => m
  | OverflowError m => m
  end.

Inductive py_result (A : Type) : Type :=
| Returns (a : A)
| Raises (e : py_exn).
Arguments Returns {A} a.
Arguments Raises {A} e.

Definition py_bind {A B : Type} (m : py_result A) (f : A -> py_result B) : py_result B :=
  match m with
  | Returns a => f a
  | Raises e => Raises e
  end.

(** [try: m  except Exception as e: h e] *)
Definition try_except {A : Type} (m : py_result A) (h : py_exn -> py_result A) : py_result A :=
  match m with
  | Returns a => Returns a
  | Raises e => h e
  end.

Notation "'do' x <- m 'in' f" := (py_bind m (fun x => f))
  (at level 10, x name, m at level 100, f at level 200).

(** [d[k]] *)
Definition dict_getitem (k : string) (d : pydict) : py_result pyval :=
  match dict_get k d with
  | Some v => Returns v
  | None => Raises (KeyError k)
  end.

(** *** Operations on a value of any type

    A reply of a backend is whatever JSON value it sent. *)

(** The characters of a string, each a string of length one;
    [current] holds the bytes of the character being read. *)
Fixpoint str_chars_from (current : string) (s : string) : list pyval :=
  match s with
  | EmptyString =>
      match current with
      | EmptyString => []
      | _ => [VStr current]
      end
  | String c s' =>
      if is_continuation c
      then str_chars_from (current ++ String c EmptyString)%string s'
      else
        match current with
        | EmptyString => []
        | _ => [VStr current]
        end ++ str_chars_from (String c EmptyString) s'
  end.

Definition str_chars (s : string) : list pyval := str_chars_from EmptyString s.

(** The class of an [Enum] member named [Class.MEMBER]. *)
Fixpoint enum_class (name : string) : string :=
  match name with
  | EmptyString => EmptyString
  | String c name' =>
      if Ascii.eqb c (Ascii.ascii_of_N 46) then EmptyString else String c (enum_class name')
  end.

(** [type(v).__name__] *)
Definition type_name (v : pyval) : string :=
  match v with
  | VNone => "NoneType"
  | VBool _ => "bool"
  | VInt _ => "int"
  | VStr _ => "str"
  | VEnum name => enum_class name
  | VList _ => "list"
  | VDict _ => "dict"
  end.

(** [for x in v]: the values the loop goes through. *)
Definition py_iter (v : pyval) : py_result (list pyval) :=
  match v with
  | VList l => Returns l
  | VDict d => Returns (VStr <$> (fst <$> d))
  | VStr s => Returns (str_chars s)
  | _ => Raises (PyTypeError ("'" ++ type_name v ++ "' object is not iterable")%string)
  end.

(** [k in v] for a string [k] *)
Definition py_contains (k : string) (v : pyval) : py_result bool :=
  match v with
  | VDict d => Returns (dict_mem k d)
  | VList l => Returns (existsb (fun x => py_eq x (VStr k)) l)
  | VStr s => Returns (str_contains k s)
  | _ =>
      Raises (PyTypeError
        ("argument of type '" ++ type_name v ++ "' is not iterable")%string)
  end.

(** [v.get(k, default)] *)
Definition py_get (k : string) (default : pyval) (v : pyval) : py_result pyval :=
  match v with
  | VDict d => Returns (dict_get_default k default d)
  | _ =>
      Raises (AttributeError
        ("'" ++ type_name v ++ "' object has no attribute 'get'")%string)
  end.

(** [v[k]] for a string [k] *)
Definition py_getitem (k : string) (v : pyval) : py_result pyval :=
  match v with
  | VDict d => dict_getitem k d
  | VStr _ => Raises (PyTypeError "string indices must be integers, not 'str'")
  | VList _ => Raises (PyTypeError "list indices must be integers or slices, not str")
  | _ =>
      Raises (PyTypeError ("'" ++ type_name v ++ "' object is not subscriptable")%string)
  end.

(** What one read of the clock gives: the two display forms and the ISO form. *)
Record clock : Type := Clock {
  now_hst : string;
  now_utc : string;
  now_iso : string
}.

(** ** Library functions

    What the code takes from [hashlib], [json] and the built-in [repr]. *)
Class PyLib : Type := {
  (** [hashlib.sha256(b).hexdigest()] of the bytes [b] of an encoded
      string *)
  sha256_hexdigest : string -> string;
  (** [json.dumps(v, sort_keys=True, default=str)] *)
  json_dumps : pyval -> string;
  (** [repr(v)] *)
  py_repr : pyval -> string
}.

(** [str(v)]: a string is itself, any other value prints as its [repr]. *)
Definition py_str `{PyLib} (v : pyval) : string :=
  match v with
  | VStr s => s
  | _ => py_repr v
  end.

(** ** Audit chain *)

(** The [result] argument of [_create_audit_entry]. *)
Inductive audit_result : Type :=
| ResultNone
| ResultValue (v : pyval)
| ResultException (e : py_exn).

(** [result and not isinstance(result, Exception)] *)
Definition result_ok (r : audit_result) : bool :=
  match r with
  | ResultNone => false
  | ResultValue v => py_truthy v
  | ResultException _ => false
  end.

(** One call of [_create_audit_entry]: its arguments, the [uuid4] it draws
    and the clock it reads. *)
Record append_op : Type := AppendOp {
  op_uuid : string;
  op_clock : clock;
  op_operation : string;
  op_data : pyval;
  op_result : audit_result
}.

(** [self.audit_chain[-1]['entry_hash'] if self.audit_chain else '0'] *)
Definition previous_hash_of (chain : list pydict) : py_result pyval :=
  match last chain with
  | Some e => dict_getitem "entry_hash" e
  | None => Returns (VStr "0")
  end.

(** The entry as the dictionary display builds it, before its own hash is
    added. *)
Definition unhashed_entry `{PyLib} (case_id : string) (chain : list pydict)
    (op : append_op) (previous_hash : pyval) : pydict :=
  [ ("id", VStr (op_uuid op));
    ("case_id", VStr case_id);
    ("operation", VStr (op_operation op));
    ("data_hash", VStr (sha256_hexdigest (json_dumps (op_data op))));
    ("timestamp_hst", VStr (now_hst (op_clock op)));
    ("timestamp_utc", VStr (now_utc (op_clock op)));
    ("chain_index", VInt (Z.of_nat (length chain)));
    ("previous_hash", previous_hash);
    ("result_status",
      VStr (if result_ok (op_result op) then "success" else "pending")) ].

(** [_create_audit_entry]: the new entry and the chain after the append.
    The entry holds strings and one integer, for which [json.dumps] with
    and without [default=str] agree. *)
Definition _create_audit_entry `{PyLib} (case_id : string) (chain : list pydict)
    (op : append_op) : py_result (pydict * list pydict) :=
  do previous_hash <- previous_hash_of chain in
  let audit_entry := unhashed_entry case_id chain op previous_hash in
  let entry_string := json_dumps (VDict audit_entry) in
  let audit_entry :=
    dict_set "entry_hash" (VStr (sha256_hexdigest entry_string)) audit_entry in
  Returns (audit_entry, chain ++ [audit_entry]).

(** A sequence of appends, oldest first. *)
Fixpoint run_appends `{PyLib} (case_id : string) (ops : list append_op)
    (chain : list pydict) : py_result (list pydict) :=
  match ops with
  | [] => Returns chain
  | op :: ops' =>
      do r <- _create_audit_entry case_id chain op in
      run_appends case_id ops' (snd r)
  end.

(** The [for i, entry in enumerate(self.audit_chain)] loop of
    [_verify_audit_chain], from position [i] on. *)
Fixpoint verify_walk (chain : list pydict) (i : nat) (rest : list pydict)
    : py_result bool :=
  match rest with
  | [] => Returns true
  | entry :: rest' =>
      if Nat.eqb i 0 then verify_walk chain (S i) rest'
      else
        match chain !! (i - 1)%nat with
        | None => Raises (IndexError "list index out of range")
        | Some prev =>
            do expected_prev_hash <- dict_getitem "entry_hash" prev in
            do previous_hash <- dict_getitem "previous_hash" entry in
            if negb (py_eq previous_hash expected_prev_hash)
            then Returns false
            else verify_walk chain (S i) rest'
        end
  end.

(** [_verify_audit_chain]: any exception of the walk becomes [False]. *)
Definition _verify_audit_chain (chain : list pydict) : py_result bool :=
  try_except (verify_walk chain 0 chain) (fun _ => Returns false).

(** [self.audit_chain[i][k] = v], the mutation of an appended entry the
    claims speak of (no code of the repository performs it). *)
Definition mutate (chain : list pydict) (i : nat) (k : string) (v : pyval)
    : list pydict :=
  match chain !! i with
  | Some e => <[i := dict_set k v e]> chain
  | None => chain
  end.

(** The link from entry [e] back to its predecessor [p] holds: both
    hashes are there and [==] finds them equal. *)
Definition linked (p e : pydict) : bool :=
  match dict_get "entry_hash" p, dict_get "previous_hash" e with
  | Some h, Some h' => py_eq h' h
  | _, _ => false
  end.

(** Every entry after the first is linked to the one before it. *)
Fixpoint all_linked (chain : list pydict) : bool :=
  match chain with
  | [] => true
  | p :: rest =>
      match rest with
      | [] => true
      | e :: _ => linked p e && all_linked rest
      end
  end.

(** The keys [json.dumps(audit_entry)] covers when [entry_hash] is
    computed: every key of the entry but [entry_hash] itself. *)
Definition hashed_fields : list string :=
  [ "id"; "case_id"; "operation"; "data_hash"; "timestamp_hst";
    "timestamp_utc"; "chain_index"; "previous_hash"; "result_status" ].

(** ** Result merger *)

(** What [_search_mem0] and [_search_supermemory] return when the
    backend answered with JSON objects: the dictionary with the keys
    [status], [results], [provider] and, on failure, [error]. The merger
    on replies of any shape is [_merge_search_results_any] below. *)
Record search_outcome : Type := SearchOutcome {
  so_status : string;
  so_error : option pyval;
  so_results : list pydict;
  so_provider : string
}.

(** [str(result.get('content', result.get('text', '')))] *)
Definition content_str `{PyLib} (result : pydict) : string :=
  py_str (dict_get_default "content" (dict_get_default "text" (VStr "") result) result).

(** [{**result, 'source_provider': provider, 'content_hash': content_hash}] *)
Definition result_with_source (result : pydict) (provider content_hash : string) : pydict :=
  dict_set "content_hash" (VStr content_hash)
    (dict_set "source_provider" (VStr provider) result).

(** The body of the inner loop: [merged] and [seen_hashes] after one
    result of [provider]. *)
Definition merge_result `{PyLib} (provider : string)
    (acc : list pydict * gset string) (result : pydict) : list pydict * gset string :=
  let content_hash := sha256_hexdigest (content_str result) in
  if bool_decide (content_hash ∈ acc.2) then acc
  else (acc.1 ++ [result_with_source result provider content_hash],
        acc.2 ∪ {[content_hash]}).

(** The body of the outer loop: one item of [results.items()]. *)
Definition merge_provider `{PyLib} (acc : list pydict * gset string)
    (item : string * search_outcome) : list pydict * gset string :=
  if String.eqb (so_status item.2) "success"
  then foldl (merge_result item.1) acc (so_results item.2)
  else acc.

(** [_merge_search_results]; [results] lists the items of the dictionary
    in insertion order. *)
Definition _merge_search_results `{PyLib} (results : list (string * search_outcome))
    : list pydict :=
  (foldl merge_provider ([], ∅) results).1.

(** *** The merger on replies of any shape

    The per-provider dictionaries as [_search_mem0] and
    [_search_supermemory] build them hold under [results] whatever the
    backend sent. On them the loops of [_merge_search_results] can
    raise: [for result in ...] needs an iterable, [result.get] a
    dictionary, and [content_str.encode()] a string without surrogate. *)

Definition merge_result_any `{PyLib} (provider : string)
    (acc : list pydict * gset string) (result : pyval)
    : py_result (list pydict * gset string) :=
  match result with
  | VDict d =>
      if encodable (content_str d) then Returns (merge_result provider acc d)
      else Raises (UnicodeEncodeError (encode_error_message (content_str d)))
  | _ =>
      Raises (AttributeError
        ("'" ++ type_name result ++ "' object has no attribute 'get'")%string)
  end.

(** The inner loop. *)
Fixpoint merge_results_any `{PyLib} (provider : string)
    (acc : list pydict * gset string) (results : list pyval)
    : py_result (list pydict * gset string) :=
  match results with
  | [] => Returns acc
  | result :: rest =>
      do acc' <- merge_result_any provider acc result in
      merge_results_any provider acc' rest
  end.

(** The body of the outer loop: one item of [results.items()]. *)
Definition merge_provider_any `{PyLib} (acc : list pydict * gset string)
    (item : string * pydict) : py_result (list pydict * gset string) :=
  if py_eq (dict_get_default "status" VNone item.2) (VStr "success")
  then
    do results <- py_iter (dict_get_default "results" (VList []) item.2) in
    merge_results_any item.1 acc results
  else Returns acc.

(** The outer loop. *)
Fixpoint merge_providers_any `{PyLib} (acc : list pydict * gset string)
    (results : list (string * pydict)) : py_result (list pydict * gset string) :=
  match results with
  | [] => Returns acc
  | item :: rest =>
      do acc' <- merge_provider_any acc item in
      merge_providers_any acc' rest
  end.

(** [_merge_search_results] on the dictionaries as they come. *)
Definition _merge_search_results_any `{PyLib} (results : list (string * pydict))
    : py_result (list pydict) :=
  do acc <- merge_providers_any ([], ∅) results in
  Returns acc.1.

(** The dictionary of an outcome whose hits are JSON objects. *)
Definition outcome_dict (o : search_outcome) : pydict :=
  [ ("status", VStr (so_status o)) ]
  ++ match so_error o with
     | Some error => [ ("error", error) ]
     | None => []
     end
  ++ [ ("results", VList (VDict <$> so_results o));
       ("provider", VStr (so_provider o)) ].

(** [l[:limit]] *)
Definition py_slice_to {A : Type} (limit : Z) (l : list A) : list A :=
  if (0 <=? limit)%Z then take (Z.to_nat limit) l
  else take (length l - Z.to_nat (- limit)) l.

(** ** Federation engine *)

Inductive MemoryPriority : Type := CRITICAL | HIGH | MEDIUM | LOW.

Definition MemoryPriority_value (p : MemoryPriority) : string :=
  match p with
  | CRITICAL => "critical"
  | HIGH => "high"
  | MEDIUM => "medium"
  | LOW => "low"
  end.

Definition MemoryPriority_str (p : MemoryPriority) : string :=
  match p with
  | CRITICAL => "MemoryPriority.CRITICAL"
  | HIGH => "MemoryPriority.HIGH"
  | MEDIUM => "MemoryPriority.MEDIUM"
  | LOW => "MemoryPriority.LOW"
  end.

Inductive MemoryProvider : Type := MEM0 | SUPERMEMORY | MEMORY_PLUGIN | ALL.

Definition MemoryProvider_value (p : MemoryProvider) : string :=
  match p with
  | MEM0 => "mem0"
  | SUPERMEMORY => "supermemory"
  | MEMORY_PLUGIN => "memory_plugin"
  | ALL => "all"
  end.

Definition MemoryProvider_eqb (p q : MemoryProvider) : bool :=
  String.eqb (MemoryProvider_value p) (MemoryProvider_value q).

Record MemoryMetadata : Type := mkMemoryMetadata {
  md_case_id : string;
  md_priority : MemoryPriority;
  md_source : string;
  md_hash_sha256 : string;
  md_timestamp_hst : string;
  md_timestamp_utc : string;
  md_chain_of_custody : list string;
  md_tags : list string;
  md_relations : pydict
}.

(** [dataclasses.asdict(metadata)] *)
Definition asdict (m : MemoryMetadata) : pydict :=
  [ ("case_id", VStr (md_case_id m));
    ("priority", VEnum (MemoryPriority_str (md_priority m)));
    ("source", VStr (md_source m));
    ("hash_sha256", VStr (md_hash_sha256 m));
    ("timestamp_hst", VStr (md_timestamp_hst m));
    ("timestamp_utc", VStr (md_timestamp_utc m));
    ("chain_of_custody", VList (VStr <$> md_chain_of_custody m));
    ("tags", VList (VStr <$> md_tags m));
    ("relations", VDict (md_relations m)) ].

(** The counters of [self.metrics] the two operations touch. *)
Record metrics : Type := Metrics {
  total_memories_stored : Z;
  successful_operations : Z;
  failed_operations : Z;
  search_queries : Z
}.

(** The orchestrator object: which providers [self.providers] holds, the
    counters and the audit chain. *)
Record orchestrator : Type := Orchestrator {
  case_id : string;
  has_mem0 : bool;
  has_supermemory : bool;
  o_metrics : metrics;
  audit_chain : list pydict
}.

(** The orchestrator [__init__] leaves, for the providers it could set up. *)
Definition initial_orchestrator (cid : string) (mem0 supermemory : bool) : orchestrator :=
  Orchestrator cid mem0 supermemory (Metrics 0 0 0 0) [].

(** Code that runs on the orchestrator and may raise: the state survives an
    exception. *)
Definition run (A : Type) : Type := orchestrator -> py_result A * orchestrator.

Definition run_ret {A : Type} (a : A) : run A := fun self => (Returns a, self).

Definition run_bind {A B : Type} (m : run A) (f : A -> run B) : run B :=
  fun self =>
    match m self with
    | (Returns a, self') => f a self'
    | (Raises e, self') => (Raises e, self')
    end.

Definition run_lift {A : Type} (r : py_result A) : run A := fun self => (r, self).

Definition run_get : run orchestrator := fun self => (Returns self, self).

Definition run_modify (f : orchestrator -> orchestrator) : run unit :=
  fun self => (Returns tt, f self).

(** [try: m  except Exception as e: h e] *)
Definition run_try {A : Type} (m : run A) (h : py_exn -> run A) : run A :=
  fun self =>
    match m self with
    | (Returns a, self') => (Returns a, self')
    | (Raises e, self') => h e self'
    end.

Notation "'run!' x <- m 'in' f" := (run_bind m (fun x => f))
  (at level 10, x name, m at level 100, f at level 200).

Definition set_metrics (f : metrics -> metrics) (self : orchestrator) : orchestrator :=
  Orchestrator (case_id self) (has_mem0 self) (has_supermemory self)
    (f (o_metrics self)) (audit_chain self).

Definition set_audit_chain (chain : list pydict) (self : orchestrator) : orchestrator :=
  Orchestrator (case_id self) (has_mem0 self) (has_supermemory self)
    (o_metrics self) chain.

(** [self._create_audit_entry(operation, data)] on the orchestrator. *)
Definition create_audit_entry `{PyLib} (op : append_op) : run pydict :=
  fun self =>
    match _create_audit_entry (case_id self) (audit_chain self) op with
    | Returns (entry, chain') => (Returns entry, set_audit_chain chain' self)
    | Raises e => (Raises e, self)
    end.

(** [items[k] = v] on the items of a dictionary whose values are not
    [pyval]s. *)
Fixpoint items_set {A : Type} (k : string) (v : A) (items : list (string * A))
    : list (string * A) :=
  match items with
  | [] => [(k, v)]
  | (k', v') :: items' =>
      if String.eqb k k' then (k', v) :: items' else (k', v') :: items_set k v items'
  end.

(** *** Store *)

(** What one call of [store_memory_unified] reads from outside: the clock,
    the [uuid4] and clock of its audit entry, and the backends. *)
Record store_env : Type := StoreEnv {
  se_now : clock;
  se_audit_uuid : string;
  se_audit_now : clock;
  (** [self.providers[MEM0].add(content, user_id=..., metadata=...)] *)
  se_mem0_add : string -> string -> pydict -> py_result pyval;
  (** entering [async with self.providers[SUPERMEMORY] as client] *)
  se_sm_enter : py_result unit;
  (** sending the request of [session.post] for a payload the JSON encoder
      accepted, [raise_for_status] and [response.json()] *)
  se_sm_post : pydict -> py_result pyval
}.

Definition tenant_id : string := "case-1fdv-23-0001009".

(** The [mem0_metadata] dictionary [_store_mem0] sends along. *)
Definition mem0_metadata `{PyLib} (metadata : MemoryMetadata) : pydict :=
  [ ("case_id", VStr (md_case_id metadata));
    ("priority", VStr (MemoryPriority_value (md_priority metadata)));
    ("source", VStr (md_source metadata));
    ("hash_sha256", VStr (md_hash_sha256 metadata));
    ("timestamp_hst", VStr (md_timestamp_hst metadata));
    ("timestamp_utc", VStr (md_timestamp_utc metadata));
    ("tags", VStr (json_dumps (VList (VStr <$> md_tags metadata))));
    ("chain_of_custody",
      VStr (json_dumps (VList (VStr <$> md_chain_of_custody metadata)))) ].

(** [_store_mem0]; the line that logs the success evaluates
    [result.get('id', 'unknown')] before the record is built. *)
Definition _store_mem0 `{PyLib} (env : store_env) (content : string)
    (metadata : MemoryMetadata) : py_result pydict :=
  try_except
    (do result <-
       se_mem0_add env content (md_case_id metadata) (mem0_metadata metadata) in
     do _logged <- py_get "id" (VStr "unknown") result in
     do id <- py_get "id" VNone result in
     Returns [ ("status", VStr "success");
               ("id", id);
               ("provider", VStr "mem0") ])
    (fun e =>
       Returns [ ("status", VStr "failed");
                 ("error", VStr (exn_str e));
                 ("provider", VStr "mem0") ]).

(** The [payload] of [SuperMemoryClient.store_memory]. *)
Definition store_payload (content : string) (metadata : pydict) : pydict :=
  [ ("content", VStr content);
    ("metadata", VDict metadata);
    ("tenant_id", VStr tenant_id) ].

(** The first value of [v], in the order [json.dumps] goes through it,
    that the JSON encoder refuses: a member of an [Enum] class, by its
    name. *)
Fixpoint json_unserializable (v : pyval) : option string :=
  match v with
  | VEnum name => Some name
  | VList l =>
      (fix items (l : list pyval) : option string :=
         match l with
         | [] => None
         | x :: l =>
             match json_unserializable x with
             | Some name => Some name
             | None => items l
             end
         end) l
  | VDict d =>
      (fix items (d : pydict) : option string :=
         match d with
         | [] => None
         | (_, x) :: d =>
             match json_unserializable x with
             | Some name => Some name
             | None => items d
             end
         end) d
  | _ => None
  end.

(** [self.session.post(url, json=payload)] with what follows it: the
    payload is encoded with [json.dumps] before anything is sent. *)
Definition session_post (post : pydict -> py_result pyval) (payload : pydict)
    : py_result pyval :=
  match json_unserializable (VDict payload) with
  | Some name =>
      Raises (PyTypeError
        ("Object of type " ++ enum_class name ++ " is not JSON serializable")%string)
  | None => post payload
  end.

(** [SuperMemoryClient.store_memory] *)
Definition SuperMemoryClient_store_memory (post : pydict -> py_result pyval)
    (content : string) (metadata : pydict) : pyval :=
  match session_post post (store_payload content metadata) with
  | Returns json => json
  | Raises e => VDict [ ("error", VStr (exn_str e)); ("status", VStr "failed") ]
  end.

(** The [sm_metadata] dictionary of [_store_supermemory]:
    [{**asdict(metadata), "tenant_id": ...}]. *)
Definition sm_metadata (metadata : MemoryMetadata) : pydict :=
  dict_set "tenant_id" (VStr tenant_id) (asdict metadata).

(** [_store_supermemory] *)
Definition _store_supermemory (env : store_env) (content : string)
    (metadata : MemoryMetadata) : py_result pydict :=
  try_except
    (do client <- se_sm_enter env in
     let result :=
       SuperMemoryClient_store_memory (se_sm_post env) content (sm_metadata metadata) in
     do has_error <- py_contains "error" result in
     if negb has_error
     then Returns [ ("status", VStr "success");
                    ("result", result);
                    ("provider", VStr "supermemory") ]
     else
       do error <- py_getitem "error" result in
       Returns [ ("status", VStr "failed");
                 ("error", error);
                 ("provider", VStr "supermemory") ])
    (fun e =>
       Returns [ ("status", VStr "failed");
                 ("error", VStr (exn_str e));
                 ("provider", VStr "supermemory") ]).

(** [r.get('status') != 'failed'] *)
Definition not_failed (r : pydict) : bool :=
  negb (py_eq (dict_get_default "status" VNone r) (VStr "failed")).

(** [sum(1 for r in results.values() if r.get('status') != 'failed')] *)
Definition success_count (results : list (string * pydict)) : Z :=
  Z.of_nat (length (filter (fun r => not_failed r = true) (snd <$> results))).

(** The dictionary [store_memory_unified] returns. *)
Record store_result : Type := StoreResult {
  st_operation : string;
  st_status : string;
  st_content_hash : string;
  st_audit_chain_index : pyval;
  st_providers_used : list string;
  st_results : list (string * pydict);
  st_metadata : pydict;
  st_timestamp : string
}.

(** The metadata after the updates at the head of [store_memory_unified]. *)
Definition stamp_metadata (metadata : MemoryMetadata) (content_hash : string)
    (now : clock) : MemoryMetadata :=
  mkMemoryMetadata (md_case_id metadata) (md_priority metadata) (md_source metadata)
    content_hash (now_hst now) (now_utc now)
    (md_chain_of_custody metadata ++ [("stored_by_orchestrator_" ++ now_iso now)%string])
    (md_tags metadata) (md_relations metadata).

(** [_create_forensic_hash]: [content.encode('utf-8')] raises on a
    content that holds a surrogate. *)
Definition _create_forensic_hash `{PyLib} (content : string) : py_result string :=
  if encodable content then Returns (sha256_hexdigest content)
  else Raises (UnicodeEncodeError (encode_error_message content)).

(** The [try] block of [store_memory_unified]. *)
Definition store_memory_unified_body `{PyLib} (env : store_env) (content : string)
    (metadata : MemoryMetadata) (provider : MemoryProvider) : run store_result :=
  run! content_hash <- run_lift (_create_forensic_hash content) in
  let metadata := stamp_metadata metadata content_hash (se_now env) in
  let audit_data :=
    VDict [ ("content_length", VInt (Z.of_nat (py_len content)));
            ("content_hash", VStr content_hash);
            ("metadata", VDict (asdict metadata));
            ("provider", VStr (MemoryProvider_value provider)) ] in
  run! audit_entry <-
    create_audit_entry
      (AppendOp (se_audit_uuid env) (se_audit_now env) "store_memory_unified"
         audit_data ResultNone) in
  run! self <- run_get in
  let results : list (string * pydict) := [] in
  run! results <-
    (if (MemoryProvider_eqb provider ALL || MemoryProvider_eqb provider MEM0)
        && has_mem0 self
     then run! r <- run_lift (_store_mem0 env content metadata) in
          run_ret (items_set "mem0" r results)
     else run_ret results) in
  run! results <-
    (if (MemoryProvider_eqb provider ALL || MemoryProvider_eqb provider SUPERMEMORY)
        && has_supermemory self
     then run! r <- run_lift (_store_supermemory env content metadata) in
          run_ret (items_set "supermemory" r results)
     else run_ret results) in
  run! _u <- run_modify (set_metrics (fun m =>
    Metrics (total_memories_stored m + 1) (successful_operations m)
      (failed_operations m) (search_queries m))) in
  let success_count := success_count results in
  run! _u <- run_modify (set_metrics (fun m =>
    if (0 <? success_count)%Z
    then Metrics (total_memories_stored m) (successful_operations m + 1)
           (failed_operations m) (search_queries m)
    else Metrics (total_memories_stored m) (successful_operations m)
           (failed_operations m + 1) (search_queries m))) in
  run! chain_index <- run_lift (dict_getitem "chain_index" audit_entry) in
  run_ret
    (StoreResult "store_memory_unified"
       (if (0 <? success_count)%Z then "success" else "failed")
       content_hash chain_index (fst <$> results) results (asdict metadata)
       (now_iso (se_now env))).

(** [store_memory_unified]: any exception of the body is counted and
    comes out as an HTTP 500. *)
Definition store_memory_unified `{PyLib} (env : store_env) (content : string)
    (metadata : MemoryMetadata) (provider : MemoryProvider) : run store_result :=
  run_try (store_memory_unified_body env content metadata provider)
    (fun e =>
       run! _u <- run_modify (set_metrics (fun m =>
         Metrics (total_memories_stored m) (successful_operations m)
           (failed_operations m + 1) (search_queries m))) in
       run_lift (Raises (HTTPException 500
         ("Memory storage failed: " ++ exn_str e)%string))).

(** *** Search *)

(** What one call of [search_memory_unified] reads from outside. The
    backends answer with any value. *)
Record search_env : Type := SearchEnv {
  qe_audit_uuid : string;
  qe_audit_now : clock;
  (** [self.providers[MEM0].search(query=..., user_id=..., limit=...)] *)
  qe_mem0_search : string -> string -> Z -> py_result pyval;
  qe_sm_enter : py_result unit;
  (** [session.get], [raise_for_status] and [response.json()] on the params *)
  qe_sm_get : pydict -> py_result pyval;
  qe_now : clock
}.

(** [_search_mem0] *)
Definition _search_mem0 (env : search_env) (query search_case_id : string)
    (limit : Z) : py_result pydict :=
  try_except
    (do results <- qe_mem0_search env query search_case_id limit in
     let normalized :=
       match results with
       | VList hits => hits
       | _ => if py_truthy results then [results] else []
       end in
     Returns [ ("status", VStr "success");
               ("results", VList normalized);
               ("provider", VStr "mem0") ])
    (fun e =>
       Returns [ ("status", VStr "failed");
                 ("error", VStr (exn_str e));
                 ("results", VList []);
                 ("provider", VStr "mem0") ]).

(** The [params] of [SuperMemoryClient.search_memory]. *)
Definition search_params (query : string) (limit : Z) : pydict :=
  [ ("query", VStr query); ("limit", VInt limit); ("tenant_id", VStr tenant_id) ].

(** [SuperMemoryClient.search_memory] *)
Definition SuperMemoryClient_search_memory (get : pydict -> py_result pyval)
    (query : string) (limit : Z) : pyval :=
  match get (search_params query limit) with
  | Returns json => json
  | Raises e => VDict [ ("error", VStr (exn_str e)); ("results", VList []) ]
  end.

(** [_search_supermemory] *)
Definition _search_supermemory (env : search_env) (query : string) (limit : Z)
    : py_result pydict :=
  try_except
    (do client <- qe_sm_enter env in
     let result := SuperMemoryClient_search_memory (qe_sm_get env) query limit in
     do has_error <- py_contains "error" result in
     if negb has_error
     then
       do results <- py_get "results" (VList []) result in
       Returns [ ("status", VStr "success");
                 ("results", results);
                 ("provider", VStr "supermemory") ]
     else
       do error <- py_getitem "error" result in
       Returns [ ("status", VStr "failed");
                 ("error", error);
                 ("results", VList []);
                 ("provider", VStr "supermemory") ])
    (fun e =>
       Returns [ ("status", VStr "failed");
                 ("error", VStr (exn_str e));
                 ("results", VList []);
                 ("provider", VStr "supermemory") ]).

(** The dictionary [search_memory_unified] returns. *)
Record search_result : Type := SearchResult {
  sr_operation : string;
  sr_query : string;
  sr_case_id : string;
  sr_audit_chain_index : pyval;
  sr_providers_searched : list string;
  sr_results_by_provider : list (string * pydict);
  sr_merged_results : list pydict;
  sr_total_found : Z;
  sr_timestamp : string
}.

(** [case_id or self.case_id] *)
Definition case_id_or (arg : option string) (default : string) : string :=
  match arg with
  | Some c => if String.eqb c "" then default else c
  | None => default
  end.

(** The [try] block of [search_memory_unified]. *)
Definition search_memory_unified_body `{PyLib} (env : search_env) (query : string)
    (case_id_arg : option string) (limit : Z) (provider : MemoryProvider)
    : run search_result :=
  run! self <- run_get in
  let search_case_id := case_id_or case_id_arg (case_id self) in
  let audit_data :=
    VDict [ ("query", VStr query);
            ("case_id", VStr search_case_id);
            ("limit", VInt limit);
            ("provider", VStr (MemoryProvider_value provider)) ] in
  run! audit_entry <-
    create_audit_entry
      (AppendOp (qe_audit_uuid env) (qe_audit_now env) "search_memory_unified"
         audit_data ResultNone) in
  let results : list (string * pydict) := [] in
  run! results <-
    (if (MemoryProvider_eqb provider ALL || MemoryProvider_eqb provider MEM0)
        && has_mem0 self
     then run! r <- run_lift (_search_mem0 env query search_case_id limit) in
          run_ret (items_set "mem0" r results)
     else run_ret results) in
  run! results <-
    (if (MemoryProvider_eqb provider ALL || MemoryProvider_eqb provider SUPERMEMORY)
        && has_supermemory self
     then run! r <- run_lift (_search_supermemory env query limit) in
          run_ret (items_set "supermemory" r results)
     else run_ret results) in
  run! _u <- run_modify (set_metrics (fun m =>
    Metrics (total_memories_stored m) (successful_operations m)
      (failed_operations m) (search_queries m + 1))) in
  run! merged_results <- run_lift (_merge_search_results_any results) in
  run! chain_index <- run_lift (dict_getitem "chain_index" audit_entry) in
  run_ret
    (SearchResult "search_memory_unified" query search_case_id chain_index
       (fst <$> results) results (py_slice_to limit merged_results)
       (Z.of_nat (length merged_results)) (now_iso (qe_now env))).

(** [search_memory_unified] *)
Definition search_memory_unified `{PyLib} (env : search_env) (query : string)
    (case_id_arg : option string) (limit : Z) (provider : MemoryProvider)
    : run search_result :=
  run_try (search_memory_unified_body env query case_id_arg limit provider)
    (fun e =>
       run_lift (Raises (HTTPException 500
         ("Memory search failed: " ++ exn_str e)%string))).

(** ** Backend adapters *)

(** [MemoryRecord] of [adapters/memory_adapter.py]; [None] as
    [mr_legal_relevance_score] stands for the default [0.0]. *)
Record MemoryRecord : Type := mkMemoryRecord {
  mr_id : string;
  mr_content : string;
  mr_metadata : pydict;
  mr_timestamp : string;
  mr_source_system : string;
  mr_legal_relevance_score : option pyval;
  mr_cross_references : list string
}.

(** The [memories] dictionary of a mock client: keyed by whatever
    [metadata.get("id", ...)] gave. *)
Abbreviation memories := (list (pyval * pydict)).

(** [memories[k] = v] *)
Fixpoint memories_set (k : pyval) (v : pydict) (m : memories) : memories :=
  match m with
  | [] => [(k, v)]
  | (k', v') :: m' =>
      if py_eq k k' then (k', v) :: m' else (k', v') :: memories_set k v m'
  end.

(** [memories.get(k)] *)
Fixpoint memories_get (k : pyval) (m : memories) : option pydict :=
  match m with
  | [] => None
  | (k', v) :: m' => if py_eq k k' then Some v else memories_get k m'
  end.

(** [MockMem0Client.add] and [MockSuperMemoryClient.store], which have the
    same body: the reply and the [memories] after the call. [fresh] is the
    [str(uuid.uuid4())] evaluated for the default of [metadata.get]. *)
Definition mock_client_add (m : memories) (fresh now : string) (content : string)
    (metadata : pydict) : pydict * memories :=
  let record_id := dict_get_default "id" (VStr fresh) metadata in
  ( [ ("id", record_id); ("status", VStr "stored") ],
    memories_set record_id
      [ ("id", record_id);
        ("content", VStr content);
        ("metadata", VDict metadata);
        ("timestamp", VStr now) ] m ).

(** What one call of an adapter's [store] reads from outside: the
    [uuid4] and clock of [store] itself, and those of the client calls. *)
Record adapter_env : Type := AdapterEnv {
  ae_uuid : string;
  ae_now : string;
  ae_client_uuid : string;
  ae_client_now : string;
  ae_secondary_uuid : string;
  ae_secondary_now : string
}.

Record Mem0Adapter : Type := mkMem0Adapter {
  m0_is_initialized : bool;
  m0_client : option memories;
  m0_client_secondary : option memories
}.

(** [Mem0Adapter.initialize]: fresh mock clients, the secondary one only
    when the configuration has [api_key_secondary]. *)
Definition Mem0Adapter_initialize (has_secondary_key : bool) : Mem0Adapter :=
  mkMem0Adapter true (Some []) (if has_secondary_key then Some [] else None).

(** [Mem0Adapter.store] *)
Definition Mem0Adapter_store (self : Mem0Adapter) (env : adapter_env)
    (content : string) (metadata : pydict) : py_result (MemoryRecord * Mem0Adapter) :=
  if negb (m0_is_initialized self)
  then Raises (RuntimeError "Mem0 adapter not initialized")
  else
    let record_id := ae_uuid env in
    let timestamp := ae_now env in
    match m0_client self with
    | None => Raises (AttributeError "'NoneType' object has no attribute 'add'")
    | Some primary =>
        let '(primary_result, primary') :=
          mock_client_add primary (ae_client_uuid env) (ae_client_now env) content
            (dict_set "id" (VStr record_id) metadata) in
        let secondary' :=
          match m0_client_secondary self with
          | Some secondary =>
              Some (mock_client_add secondary (ae_secondary_uuid env)
                      (ae_secondary_now env) content
                      (dict_set "id" (VStr record_id) metadata)).2
          | None => None
          end in
        Returns
          ( mkMemoryRecord record_id content metadata timestamp "Mem0"
              (dict_get "legal_relevance" metadata) [],
            mkMem0Adapter true (Some primary') secondary' )
    end.

Record SuperMemoryAdapter : Type := mkSuperMemoryAdapter {
  sm_is_initialized : bool;
  sm_client : option memories
}.

(** [SuperMemoryAdapter.initialize] *)
Definition SuperMemoryAdapter_initialize : SuperMemoryAdapter :=
  mkSuperMemoryAdapter true (Some []).

(** [SuperMemoryAdapter.store] *)
Definition SuperMemoryAdapter_store (self : SuperMemoryAdapter) (env : adapter_env)
    (content : string) (metadata : pydict)
    : py_result (MemoryRecord * SuperMemoryAdapter) :=
  if negb (sm_is_initialized self)
  then Raises (RuntimeError "SuperMemory adapter not initialized")
  else
    let record_id := ae_uuid env in
    let timestamp := ae_now env in
    match sm_client self with
    | None => Raises (AttributeError "'NoneType' object has no attribute 'store'")
    | Some client =>
        let '(result, client') :=
          mock_client_add client (ae_client_uuid env) (ae_client_now env) content
            (dict_set "id" (VStr record_id) metadata) in
        Returns
          ( mkMemoryRecord record_id content metadata timestamp "SuperMemory"
              (dict_get "legal_relevance" metadata) [],
            mkSuperMemoryAdapter true (Some client') )
    end.

(** The ids under which a mock client holds its memories. *)
Definition stored_ids (m : option memories) : list pyval :=
  match m with
  | Some m => fst <$> m
  | None => []
  end.

(** ** Resilient request layer *)

(** The part of a [requests.Response] that [_request] reads; [None] as
    [resp_json] is a body that [resp.json()] refuses with [ValueError]. *)
Record response : Type := Response {
  resp_status_code : Z;
  resp_text : string;
  resp_json : option pyval
}.

(** [Response.ok] of the [requests] library: [raise_for_status] raises
    for a status from 400 to 599 and for no other. *)
Definition resp_ok (r : response) : bool :=
  negb ((400 <=? resp_status_code r)%Z && (resp_status_code r <? 600)%Z).

(** What one [requests.request] call does. *)
Inductive attempt_outcome : Type :=
| RequestException (msg : string)
| Responded (resp : response).

(** The numbers [_request] computes with: the value given as
    [backoff_factor], a [float] by its annotation, and the two library
    operations the loop applies to it. Both can raise. *)
Class PyFloat : Type := {
  pyfloat : Type;
  (** [x ** n] for an [int] [n]: the power as Python rounds it, or
      [OverflowError] when it is out of range *)
  float_pow : pyfloat -> Z -> py_result pyfloat;
  (** [time.sleep(x)]: [ValueError] for a negative length or a NaN,
      [OverflowError] for one too large *)
  time_sleep : pyfloat -> py_result unit
}.

(** The tuning of a [MemoryPluginClient]; the time unit is the second. *)
Record client_config `{PyFloat} : Type := ClientConfig {
  max_retries : Z;
  backoff_factor : pyfloat
}.

(** How [_request] ends when nothing it computes with raises.
    [MemoryPluginError] is raised both for a network error
    ([NetworkError], [Network error calling ...]) and for a refused status
    ([HttpError], [HTTP ... calling ...]); [MemoryPluginRateLimitError] is
    its subclass. *)
Inductive plugin_error_kind : Type :=
| NetworkError (msg : string)
| HttpError (status_code : Z).

Inductive request_result : Type :=
| ReturnsJson (v : pyval)
| ReturnsText (s : string)
| MemoryPluginError (kind : plugin_error_kind)
| MemoryPluginRateLimitError (status_code : Z).

(** How [_request] ends: as above, or with the exception that the power
    or [time.sleep] raised before a retry. *)
Inductive request_outcome : Type :=
| Settled (r : request_result)
| BackoffRaised (e : py_exn).

(** [resp.status_code == 429 or 500 <= resp.status_code < 600] *)
Definition retryable_status (code : Z) : bool :=
  (code =? 429)%Z || ((500 <=? code)%Z && (code <? 600)%Z).

(** [self.backoff_factor ** (attempt - 1)] *)
Definition sleep_s `{PyFloat} (cfg : client_config) (attempt : Z) : py_result pyfloat :=
  float_pow (backoff_factor cfg) (attempt - 1).

(** The lines both retry branches end with:
    [sleep_s = self.backoff_factor ** (attempt - 1)] and
    [time.sleep(sleep_s)]; the result is the time slept. *)
Definition backoff `{PyFloat} (cfg : client_config) (attempt : Z) : py_result pyfloat :=
  do s <- sleep_s cfg attempt in
  do _u <- time_sleep s in
  Returns s.

(** The [while True] loop of [_request], entered with the attempt counter
    at [attempt] and the sleeps made so far; [net] gives what the [n]-th
    [requests.request] call does. [None]: the loop is still running when
    [fuel] iterations are over. *)
Fixpoint request_loop `{PyFloat} (fuel : nat) (cfg : client_config)
    (net : Z -> attempt_outcome) (attempt : Z) (slept : list pyfloat)
    : option (request_outcome * list pyfloat) :=
  match fuel with
  | O => None
  | S fuel' =>
      let attempt := (attempt + 1)%Z in
      match net attempt with
      | RequestException e =>
          if (max_retries cfg <? attempt)%Z
          then Some (Settled (MemoryPluginError (NetworkError e)), slept)
          else
            match backoff cfg attempt with
            | Returns s => request_loop fuel' cfg net attempt (slept ++ [s])
            | Raises x => Some (BackoffRaised x, slept)
            end
      | Responded resp =>
          if retryable_status (resp_status_code resp)
          then
            if (max_retries cfg <? attempt)%Z
            then Some (Settled (MemoryPluginRateLimitError (resp_status_code resp)), slept)
            else
              match backoff cfg attempt with
              | Returns s => request_loop fuel' cfg net attempt (slept ++ [s])
              | Raises x => Some (BackoffRaised x, slept)
              end
          else if negb (resp_ok resp)
          then Some (Settled (MemoryPluginError (HttpError (resp_status_code resp))), slept)
          else
            match resp_json resp with
            | Some v => Some (Settled (ReturnsJson v), slept)
            | None => Some (Settled (ReturnsText (resp_text resp)), slept)
            end
      end
  end.

(** [_request]: how it ends and the sleeps it made, in order. The loop
    gives up at the first attempt beyond [max_retries], so these many
    iterations are all it can make. *)
Definition _request `{PyFloat} (cfg : client_config) (net : Z -> attempt_outcome)
    : option (request_outcome * list pyfloat) :=
  request_loop (S (Z.to_nat (max_retries cfg))) cfg net 0 [].

(** What the attempt numbered [attempt] leads to: a retry, or the end. *)
Definition retries `{PyFloat} (cfg : client_config) (o : attempt_outcome) (attempt : Z)
    : bool :=
  match o with
  | RequestException _ => (attempt <=? max_retries cfg)%Z
  | Responded resp =>
      retryable_status (resp_status_code resp) && (attempt <=? max_retries cfg)%Z
  end.

(** The result of the attempt at which the loop ends. *)
Definition final_result (o : attempt_outcome) : request_result :=
  match o with
  | RequestException e => MemoryPluginError (NetworkError e)
  | Responded resp =>
      if retryable_status (resp_status_code resp)
      then MemoryPluginRateLimitError (resp_status_code resp)
      else if (400 <=? resp_status_code resp)%Z && (resp_status_code resp <? 500)%Z
      then MemoryPluginError (HttpError (resp_status_code resp))
      else
        match resp_json resp with
        | Some v => ReturnsJson v
        | None => ReturnsText (resp_text resp)
        end
  end.

(** ** Notions the properties are stated with *)

(** The states the orchestrator can be in: the one [__init__] leaves, and
    those after any store or search, whatever the outside world does. *)
Inductive reachable `{PyLib} : orchestrator -> Prop :=
| reachable_init (cid : string) (mem0 supermemory : bool) :
    reachable (initial_orchestrator cid mem0 supermemory)
| reachable_store (self : orchestrator) (env : store_env) (content : string)
    (metadata : MemoryMetadata) (provider : MemoryProvider) :
    reachable self ->
    reachable (store_memory_unified env content metadata provider self).2
| reachable_search (self : orchestrator) (env : search_env) (query : string)
    (case_id_arg : option string) (limit : Z) (provider : MemoryProvider) :
    reachable self ->
    reachable (search_memory_unified env query case_id_arg limit provider self).2.

(** Every entry of the chain has the shape [_create_audit_entry] gives
    the entry at its position. *)
Definition entry_ok (chain : list pydict) (i : nat) (e : pydict) : Prop :=
  (exists h, dict_get "entry_hash" e = Some (VStr h)) /\
  dict_get "chain_index" e = Some (VInt (Z.of_nat i)) /\
  match i with
  | O => dict_get "previous_hash" e = Some (VStr "0")
  | S j => exists p, chain !! j = Some p /\
                     dict_get "previous_hash" e = dict_get "entry_hash" p
  end.

Definition chain_ok (chain : list pydict) : Prop :=
  forall i e, chain !! i = Some e -> entry_ok chain i e.

(** The results the merger looks at, in the order it meets them: those of
    the providers whose status is [success], each with its provider. *)
Definition successful_hits (results : list (string * search_outcome))
    : list (string * pydict) :=
  mjoin ((fun item : string * search_outcome =>
             if String.eqb (so_status item.2) "success"
             then (fun r => (item.1, r)) <$> so_results item.2
             else []) <$> results).

(** A value the inner loop of the merger takes without raising: a
    dictionary whose content string can be encoded. *)
Definition mergeable_hit `{PyLib} (result : pyval) : bool :=
  match result with
  | VDict d => encodable (content_str d)
  | _ => false
  end.

(** The dictionaries among some values. *)
Definition dicts_of (l : list pyval) : list pydict :=
  omap (fun v => match v with VDict d => Some d | _ => None end) l.

(** What the merger iterates over for one provider: nothing unless its
    status is [success], and [None] where the [for] loop raises. *)
Definition provider_hits (o : pydict) : option (list pyval) :=
  if py_eq (dict_get_default "status" VNone o) (VStr "success")
  then
    match py_iter (dict_get_default "results" (VList []) o) with
    | Returns l => Some l
    | Raises _ => None
    end
  else Some [].

(** A per-provider dictionary the merger goes through without raising. *)
Definition mergeable `{PyLib} (item : string * pydict) : bool :=
  match provider_hits item.2 with
  | Some l => forallb mergeable_hit l
  | None => false
  end.

(** The results the merger looks at on per-provider dictionaries of any
    shape, each with its provider. *)
Definition successful_hits_any (results : list (string * pydict))
    : list (string * pydict) :=
  mjoin ((fun item : string * pydict =>
             (fun r => (item.1, r)) <$> dicts_of (default [] (provider_hits item.2)))
           <$> results).

(** The deduplication key of a result. *)
Definition hit_hash `{PyLib} (hit : string * pydict) : string :=
  sha256_hexdigest (content_str hit.2).

(** First seen wins, in the words of the specification: a result is
    kept, and every later result with its key is dropped. *)
Fixpoint first_seen `{PyLib} (hits : list (string * pydict)) : list (string * pydict) :=
  match hits with
  | [] => []
  | hit :: rest => hit :: filter (fun later => hit_hash later <> hit_hash hit) (first_seen rest)
  end.

(** The entry the merger makes of a result it keeps. *)
Definition merged_entry `{PyLib} (hit : string * pydict) : pydict :=
  result_with_source hit.2 hit.1 (hit_hash hit).

(** The merged entry carries [h] as its [content_hash]. *)
Definition has_hash (h : string) (e : pydict) : bool :=
  match dict_get "content_hash" e with
  | Some (VStr h') => String.eqb h' h
  | _ => false
  end.

(** Which backends a store or search call dispatches to. *)
Definition dispatches_mem0 (provider : MemoryProvider) (self : orchestrator) : bool :=
  (MemoryProvider_eqb provider ALL || MemoryProvider_eqb provider MEM0) && has_mem0 self.

Definition dispatches_supermemory (provider : MemoryProvider) (self : orchestrator)
    : bool :=
  (MemoryProvider_eqb provider ALL || MemoryProvider_eqb provider SUPERMEMORY)
  && has_supermemory self.

(** The orchestrator after a store that raised: the handler of
    [store_memory_unified] counts a failed operation. *)
Definition count_failed (self : orchestrator) : orchestrator :=
  set_metrics (fun m =>
    Metrics (total_memories_stored m) (successful_operations m)
      (failed_operations m + 1) (search_queries m)) self.

(** The per-backend dictionaries of a search, in the order Mem0 then
    SuperMemory: each dispatched backend is asked with the caller's
    [limit]. *)
Definition search_outcomes (self : orchestrator) (env : search_env) (query : string)
    (cid : option string) (limit : Z) (provider : MemoryProvider)
    : list (string * pydict) :=
  (if dispatches_mem0 provider self
   then match _search_mem0 env query (case_id_or cid (case_id self)) limit with
        | Returns o => [("mem0", o)]
        | Raises _ => []
        end
   else [])
  ++ (if dispatches_supermemory provider self
      then match _search_supermemory env query limit with
           | Returns o => [("supermemory", o)]
           | Raises _ => []
           end
      else []).

(** The orchestrator after a search: one more entry, one more query. *)
Definition after_search (self : orchestrator) (e : pydict) : orchestrator :=
  Orchestrator (case_id self) (has_mem0 self) (has_supermemory self)
    (Metrics (total_memories_stored (o_metrics self))
       (successful_operations (o_metrics self))
       (failed_operations (o_metrics self))
       (search_queries (o_metrics self) + 1))
    (audit_chain self ++ [e]).

(** The per-backend record says [failed]. *)
Definition outcome_failed (o : pydict) : Prop :=
  dict_get "status" o = Some (VStr "failed").

(** A per-backend store record says [success] or [failed]. *)
Definition store_outcome_shape (o : pydict) : Prop :=
  dict_get "status" o = Some (VStr "success") \/ outcome_failed o.

(** ** Sample data

    Stand-ins for the library functions, to run the model on concrete
    inputs: values print in a fixed textual form and the digest wraps its
    argument, so different texts have different digests. *)

Fixpoint sample_repr (v : pyval) : string :=
  match v with
  | VNone => "None"
  | VBool b => if b then "True" else "False"
  | VInt n => pretty n
  | VStr s => ("'" ++ s ++ "'")%string
  | VEnum s => s
  | VList l =>
      ("[" ++ (fix items (l : list pyval) : string :=
                 match l with
                 | [] => ""
                 | x :: l => sample_repr x ++ "," ++ items l
                 end) l ++ "]")%string
  | VDict d =>
      ("{" ++ (fix items (d : pydict) : string :=
                 match d with
                 | [] => ""
                 | (k, x) :: d => k ++ ":" ++ sample_repr x ++ "," ++ items d
                 end) d ++ "}")%string
  end.

Definition sample_lib : PyLib :=
  {| sha256_hexdigest := fun s => ("sha256<" ++ s ++ ">")%string;
     json_dumps := sample_repr;
     py_repr := sample_repr |}.

(** Stand-ins for the floats, to run the loop on concrete inputs:
    rationals with the exact power, which is the float power where that
    is exact, and a sleep that refuses a negative length. *)
Definition sample_float : PyFloat :=
  {| pyfloat := Q;
     float_pow := fun x n => Returns (Qpower x n);
     time_sleep := fun x =>
       if Qle_bool 0 x then Returns tt
       else Raises (ValueError "sleep length must be non-negative") |}.

Definition sample_clock : clock :=
  Clock "2025-10-18 02:00:00 HST" "2025-10-18 12:00:00 UTC" "2025-10-18T12:00:00+00:00".

Definition sample_case : string := "1FDV-23-0001009".

(** Two appends, as a store followed by a search would make them. *)
Definition sample_ops : list append_op :=
  [ AppendOp "uuid-1" sample_clock "store_memory_unified"
      (VDict [("content_length", VInt 11)]) ResultNone;
    AppendOp "uuid-2" sample_clock "search_memory_unified"
      (VDict [("query", VStr "evidence")]) ResultNone ].

Definition sample_metadata : MemoryMetadata :=
  mkMemoryMetadata sample_case CRITICAL "api" "" "" "" [] [] [].

(** Mem0 stores the record under [m1]; the SuperMemory service is up. *)
Definition sample_store_env : store_env :=
  StoreEnv sample_clock "uuid-3" sample_clock
    (fun _ _ _ => Returns (VDict [("id", VStr "m1")]))
    (Returns tt)
    (fun _ => Returns (VDict [("id", VStr "r1")])).

(** Mem0 times out; the SuperMemory service is up. *)
Definition failing_store_env : store_env :=
  StoreEnv sample_clock "uuid-3" sample_clock
    (fun _ _ _ => Raises (BackendError "timed out"))
    (Returns tt)
    (fun _ => Returns (VDict [("id", VStr "r1")])).

(** A content that holds the surrogate U+D800 between [a] and [b]. *)
Definition surrogate_content : string :=
  ("a" ++ String (Ascii.ascii_of_N 237) (String (Ascii.ascii_of_N 160)
            (String (Ascii.ascii_of_N 128) "b")))%string.

(** Both backends return [evidence-17], SuperMemory also [evidence-22]. *)
Definition sample_search_env : search_env :=
  SearchEnv "uuid-4" sample_clock
    (fun _ _ _ => Returns (VList [VDict [("content", VStr "evidence-17")]]))
    (Returns tt)
    (fun _ => Returns (VDict
       [("results", VList [ VDict [("content", VStr "evidence-17")];
                            VDict [("content", VStr "evidence-22")] ])]))
    sample_clock.

(** Mem0 returns [evidence-17]; SuperMemory answers 200 with the body
    [{"results": null}]. *)
Definition null_results_search_env : search_env :=
  SearchEnv "uuid-4" sample_clock
    (fun _ _ _ => Returns (VList [VDict [("content", VStr "evidence-17")]]))
    (Returns tt)
    (fun _ => Returns (VDict [("results", VNone)]))
    sample_clock.

(** What the Mem0 backend of [limited_search_env] holds for the query:
    [evidence-17] under two ids, then [evidence-22] and [evidence-31]. *)
Definition held_hits : list pyval :=
  [ VDict [("id", VStr "m1"); ("content", VStr "evidence-17")];
    VDict [("id", VStr "m2"); ("content", VStr "evidence-17")];
    VDict [("id", VStr "m3"); ("content", VStr "evidence-22")];
    VDict [("id", VStr "m4"); ("content", VStr "evidence-31")] ].

(** A Mem0 backend that answers with the first [limit] of the results it
    holds, as the [limit] it is given asks. *)
Definition limited_search_env : search_env :=
  SearchEnv "uuid-4" sample_clock
    (fun _ _ limit => Returns (VList (py_slice_to limit held_hits)))
    (Returns tt)
    (fun _ => Returns (VDict [("results", VList [])]))
    sample_clock.

Definition sample_outcomes : list (string * search_outcome) :=
  [ ("mem0", SearchOutcome "success" None [[("content", VStr "evidence-17")]] "mem0");
    ("supermemory",
      SearchOutcome "success" None
        [[("content", VStr "evidence-17")]; [("content", VStr "evidence-22")]]
        "supermemory") ].

Definition sample_adapter_env (uuid : string) : adapter_env :=
  AdapterEnv uuid "2025-10-18T02:00:00" "unused-1" "2025-10-18T02:00:01"
    "unused-2" "2025-10-18T02:00:02".

(** ** Reports and lookups of the orchestrator *)

(** [l[start:]] *)
Definition py_slice_from {A : Type} (start : Z) (l : list A) : list A :=
  if (0 <=? start)%Z then drop (Z.to_nat start) l
  else drop (length l - Z.to_nat (- start)) l.

(** [list(self.providers.keys())]: Mem0 is set up before SuperMemory. *)
Definition providers_keys (self : orchestrator) : list MemoryProvider :=
  (if has_mem0 self then [MEM0] else [])
  ++ (if has_supermemory self then [SUPERMEMORY] else []).

(** The dictionary [get_forensic_report] returns, without its constant
    [compliance_standards]. *)
Record forensic_report : Type := ForensicReport {
  fr_case_id : string;
  fr_report_type : string;
  fr_generated_at : string;
  fr_system_version : string;
  fr_audit_chain_integrity : bool;
  fr_total_operations : Z;
  fr_audit_chain_sample : list pydict;
  fr_system_metrics : metrics;
  fr_providers_active : list MemoryProvider
}.

(** [get_forensic_report] *)
Definition get_forensic_report (self : orchestrator) (now : clock)
    : py_result forensic_report :=
  do integrity <- _verify_audit_chain (audit_chain self) in
  Returns
    (ForensicReport (case_id self) "forensic_audit_trail" (now_iso now)
       "1.0.0-PRODUCTION" integrity (Z.of_nat (length (audit_chain self)))
       (py_slice_from (-10) (audit_chain self)) (o_metrics self)
       (providers_keys self)).

(** The endpoint [get_audit_entry]: the first entry with the id asked
    for, or an HTTP 404. *)
Fixpoint get_audit_entry (chain : list pydict) (operation_id : string)
    : py_result pydict :=
  match chain with
  | [] => Raises (HTTPException 404 "Audit entry not found")
  | entry :: rest =>
      do id <- dict_getitem "id" entry in
      if py_eq id (VStr operation_id) then Returns entry
      else get_audit_entry rest operation_id
  end.

(** The entries [store_memory_unified] and [search_memory_unified] leave
    in the chain of an orchestrator for the case [cid]. *)
Definition operation_entry (cid : string) (e : pydict) : Prop :=
  dict_get "case_id" e = Some (VStr cid) /\
  dict_get "result_status" e = Some (VStr "pending") /\
  (dict_get "operation" e = Some (VStr "store_memory_unified") \/
   dict_get "operation" e = Some (VStr "search_memory_unified")) /\
  (exists uuid, dict_get "id" e = Some (VStr uuid)) /\
  (exists h, dict_get "data_hash" e = Some (VStr h)).

(** The orchestrator after the sample store and the sample search, on a
    new orchestrator with both providers. *)
Definition sample_state : orchestrator :=
  (@search_memory_unified sample_lib sample_search_env "evidence" None 10 ALL
     (@store_memory_unified sample_lib sample_store_env "evidence-17"
        sample_metadata ALL (initial_orchestrator sample_case true true)).2).2.

(** [sample_state] after a store of a content that holds a surrogate. *)
Definition raised_state : orchestrator :=
  (@store_memory_unified sample_lib sample_store_env surrogate_content
     sample_metadata ALL sample_state).2.

(** ** More of the backend adapters *)

(** [d.update(other)] *)
Definition dict_update (d other : pydict) : pydict :=
  foldl (fun acc kv => dict_set kv.1 kv.2 acc) d other.

(** [del memories[k]] when the key is there: no entry under [k] is left. *)
Fixpoint memories_delete (k : pyval) (m : memories) : memories :=
  match m with
  | [] => []
  | (k', v) :: m' =>
      if py_eq k k' then memories_delete k m' else (k', v) :: memories_delete k m'
  end.

(** A [MemoryRecord] as [get_by_id] and [search] build it from what a
    client holds: its fields are whatever values the client returned.
    [None] as [fetched_legal_relevance] stands for the default [0.0]. *)
Record fetched_record : Type := FetchedRecord {
  fetched_id : pyval;
  fetched_content : pyval;
  fetched_metadata : pyval;
  fetched_timestamp : pyval;
  fetched_source_system : string;
  fetched_legal_relevance : option pyval
}.

(** The record [get_by_id] makes of the memory a client holds. *)
Definition record_of_memory (memory_id now source_system : string)
    (result : pydict) : fetched_record :=
  FetchedRecord (VStr memory_id)
    (dict_get_default "content" (VStr "") result)
    (dict_get_default "metadata" (VDict []) result)
    (dict_get_default "timestamp" (VStr now) result)
    source_system None.

(** [get_by_id] of an adapter over a mock client; an exception of the
    client call is caught and gives [None]. *)
Definition adapter_get_by_id (is_initialized : bool) (client : option memories)
    (source_system now memory_id : string) : option fetched_record :=
  if negb is_initialized then None
  else
    match client with
    | None => None
    | Some m =>
        match memories_get (VStr memory_id) m with
        | Some result =>
            if py_truthy (VDict result)
            then Some (record_of_memory memory_id now source_system result)
            else None
        | None => None
        end
    end.

(** [Mem0Adapter.get_by_id] *)
Definition Mem0Adapter_get_by_id (self : Mem0Adapter) (now memory_id : string)
    : option fetched_record :=
  adapter_get_by_id (m0_is_initialized self) (m0_client self) "Mem0" now memory_id.

(** [SuperMemoryAdapter.get_by_id] *)
Definition SuperMemoryAdapter_get_by_id (self : SuperMemoryAdapter)
    (now memory_id : string) : option fetched_record :=
  adapter_get_by_id (sm_is_initialized self) (sm_client self) "SuperMemory" now
    memory_id.

(** [Mem0Adapter.delete]: the answer and the adapter afterwards. *)
Definition Mem0Adapter_delete (self : Mem0Adapter) (memory_id : string)
    : bool * Mem0Adapter :=
  if negb (m0_is_initialized self) then (false, self)
  else
    match m0_client self with
    | None => (false, self)
    | Some m =>
        (true, mkMem0Adapter (m0_is_initialized self)
                 (Some (memories_delete (VStr memory_id) m))
                 (m0_client_secondary self))
    end.

(** [SuperMemoryAdapter.delete] *)
Definition SuperMemoryAdapter_delete (self : SuperMemoryAdapter) (memory_id : string)
    : bool * SuperMemoryAdapter :=
  if negb (sm_is_initialized self) then (false, self)
  else
    match sm_client self with
    | None => (false, self)
    | Some m =>
        (true, mkSuperMemoryAdapter (sm_is_initialized self)
                 (Some (memories_delete (VStr memory_id) m)))
    end.

(** How an adapter's [update] ends: [ValueError] is what it raises for an
    id the client does not hold. *)
Inductive adapter_result (A : Type) : Type :=
| AdapterReturns (a : A)
| AdapterRaises (e : py_exn)
| AdapterValueError (msg : string).
Arguments AdapterReturns {A} a.
Arguments AdapterRaises {A} e.
Arguments AdapterValueError {A} msg.

(** [if content: existing.content = content] *)
Definition updated_content (existing : pyval) (content : option string) : pyval :=
  match content with
  | Some c => if String.eqb c "" then existing else VStr c
  | None => existing
  end.

(** [if metadata: existing.metadata.update(metadata)], where
    [existing.metadata] is what [stored.get("metadata", {})] gave: the
    very dictionary the client holds when [stored] has the key, so that
    the update shows in the stored memory too. The result is the
    record's metadata and the stored memory afterwards. *)
Definition update_metadata (stored : pydict) (metadata : option pydict)
    : py_result (pyval * pydict) :=
  let existing := dict_get_default "metadata" (VDict []) stored in
  match metadata with
  | Some (kv :: more) =>
      match existing with
      | VDict d =>
          let d' := VDict (dict_update d (kv :: more)) in
          Returns (d', if dict_mem "metadata" stored
                       then dict_set "metadata" d' stored else stored)
      | _ => Raises (AttributeError "object has no attribute 'update'")
      end
  | _ => Returns (existing, stored)
  end.

Definition not_found (memory_id : string) : string :=
  ("Memory " ++ memory_id ++ " not found")%string.

(** [Mem0Adapter.update]: the updated record is returned and nothing is
    written to the client. *)
Definition Mem0Adapter_update (self : Mem0Adapter) (now memory_id : string)
    (content : option string) (metadata : option pydict)
    : adapter_result fetched_record * Mem0Adapter :=
  if negb (m0_is_initialized self)
  then (AdapterRaises (RuntimeError "Mem0 adapter not initialized"), self)
  else
    match m0_client self, Mem0Adapter_get_by_id self now memory_id with
    | Some m, Some existing =>
        match memories_get (VStr memory_id) m with
        | Some stored =>
            match update_metadata stored metadata with
            | Returns (metadata', stored') =>
                (AdapterReturns
                   (FetchedRecord (fetched_id existing)
                      (updated_content (fetched_content existing) content)
                      metadata' (fetched_timestamp existing)
                      (fetched_source_system existing)
                      (fetched_legal_relevance existing)),
                 mkMem0Adapter (m0_is_initialized self)
                   (Some (memories_set (VStr memory_id) stored' m))
                   (m0_client_secondary self))
            | Raises e => (AdapterRaises e, self)
            end
        | None => (AdapterValueError (not_found memory_id), self)
        end
    | _, _ => (AdapterValueError (not_found memory_id), self)
    end.

(** [MockSuperMemoryClient.update] on the memory the client holds, with
    the record's own metadata as argument: the content is written first;
    the metadata, being the stored dictionary itself, stays as it is. *)
Definition mock_client_update (stored : pydict) (content : pyval)
    : py_result pydict * pydict :=
  let stored' := dict_set "content" content stored in
  match dict_get "metadata" stored' with
  | None => (Raises (KeyError "metadata"), stored')
  | Some (VDict _) => (Returns stored', stored')
  | Some _ => (Raises (AttributeError "object has no attribute 'update'"), stored')
  end.

(** [SuperMemoryAdapter.update]: the updated record is stored again. *)
Definition SuperMemoryAdapter_update (self : SuperMemoryAdapter)
    (now memory_id : string) (content : option string) (metadata : option pydict)
    : adapter_result fetched_record * SuperMemoryAdapter :=
  if negb (sm_is_initialized self)
  then (AdapterRaises (RuntimeError "SuperMemory adapter not initialized"), self)
  else
    match sm_client self, SuperMemoryAdapter_get_by_id self now memory_id with
    | Some m, Some existing =>
        match memories_get (VStr memory_id) m with
        | Some stored =>
            match update_metadata stored metadata with
            | Returns (metadata', stored') =>
                let content' := updated_content (fetched_content existing) content in
                let '(written, stored'') := mock_client_update stored' content' in
                let self' :=
                  mkSuperMemoryAdapter (sm_is_initialized self)
                    (Some (memories_set (VStr memory_id) stored'' m)) in
                match written with
                | Returns _ =>
                    (AdapterReturns
                       (FetchedRecord (fetched_id existing) content' metadata'
                          (fetched_timestamp existing)
                          (fetched_source_system existing)
                          (fetched_legal_relevance existing)),
                     self')
                | Raises e => (AdapterRaises e, self')
                end
            | Raises e => (AdapterRaises e, self)
            end
        | None => (AdapterValueError (not_found memory_id), self)
        end
    | _, _ => (AdapterValueError (not_found memory_id), self)
    end.

(** The loop of the mock clients' [search] over the memories it looks
    at; [lower] is [str.lower]. *)
Fixpoint search_scan (lower : string -> string) (query_lower : string)
    (values : list pydict) : py_result (list pydict) :=
  match values with
  | [] => Returns []
  | memory :: rest =>
      do content <- dict_getitem "content" memory in
      match content with
      | VStr c =>
          do found <- search_scan lower query_lower rest in
          Returns (if str_contains query_lower (lower c)
                   then memory :: found else found)
      | _ => Raises (AttributeError "object has no attribute 'lower'")
      end
  end.

(** [MockMem0Client.search] and [MockSuperMemoryClient.search]: the
    first [limit] memories are looked at. *)
Definition mock_client_search (lower : string -> string) (m : memories)
    (query : string) (limit : Z) : py_result (list pydict) :=
  search_scan lower (lower query) (py_slice_to limit (snd <$> m)).

(** The record [search] makes of the result numbered [i]; [fresh i] is
    the [uuid4] drawn for it and [now i] the clock read for it. *)
Definition record_of_result (source_system : string) (fresh now : nat -> string)
    (i : nat) (result : pydict) : fetched_record :=
  FetchedRecord (dict_get_default "id" (VStr (fresh i)) result)
    (dict_get_default "content" (VStr "") result)
    (dict_get_default "metadata" (VDict []) result)
    (dict_get_default "timestamp" (VStr (now i)) result)
    source_system (dict_get "legal_relevance" result).

(** [search] of an adapter over a mock client: any exception gives []. *)
Definition adapter_search (is_initialized : bool) (client : option memories)
    (source_system : string) (lower : string -> string) (fresh now : nat -> string)
    (query : string) (limit : Z) : list fetched_record :=
  if negb is_initialized then []
  else
    match client with
    | None => []
    | Some m =>
        match mock_client_search lower m query limit with
        | Returns results => imap (record_of_result source_system fresh now) results
        | Raises _ => []
        end
    end.

(** [Mem0Adapter.search] *)
Definition Mem0Adapter_search (self : Mem0Adapter) (lower : string -> string)
    (fresh now : nat -> string) (query : string) (limit : Z) : list fetched_record :=
  adapter_search (m0_is_initialized self) (m0_client self) "Mem0" lower fresh now
    query limit.

(** [SuperMemoryAdapter.search] *)
Definition SuperMemoryAdapter_search (self : SuperMemoryAdapter)
    (lower : string -> string) (fresh now : nat -> string) (query : string)
    (limit : Z) : list fetched_record :=
  adapter_search (sm_is_initialized self) (sm_client self) "SuperMemory" lower fresh
    now query limit.

(** The dictionary [sync_from_source] returns. *)
Record sync_report : Type := SyncReport {
  synced : Z;
  errors : Z;
  sync_message : option string
}.

(** The loop of [Mem0Adapter.sync_from_source]; [envs i] is what the
    store of the record numbered [i] reads from outside. *)
Fixpoint Mem0Adapter_sync_loop (self : Mem0Adapter) (envs : nat -> adapter_env)
    (i : nat) (records : list MemoryRecord) (n_synced n_errors : Z)
    : sync_report * Mem0Adapter :=
  match records with
  | [] => (SyncReport n_synced n_errors None, self)
  | record :: rest =>
      match Mem0Adapter_store self (envs i) (mr_content record) (mr_metadata record) with
      | Returns (_, self') =>
          Mem0Adapter_sync_loop self' envs (S i) rest (n_synced + 1) n_errors
      | Raises _ =>
          Mem0Adapter_sync_loop self envs (S i) rest n_synced (n_errors + 1)
      end
  end.

(** [Mem0Adapter.sync_from_source] *)
Definition Mem0Adapter_sync_from_source (self : Mem0Adapter)
    (envs : nat -> adapter_env) (source_records : list MemoryRecord)
    : sync_report * Mem0Adapter :=
  if negb (m0_is_initialized self)
  then (SyncReport 0 1 (Some "Not initialized"), self)
  else Mem0Adapter_sync_loop self envs 0 source_records 0 0.

(** A memory whose content is a string, as every memory written by
    [add] and [store] is. *)
Definition holds_text (memory : pydict) : Prop :=
  exists c : string, dict_get "content" memory = Some (VStr c).

(** The test of the mock clients' [search]:
    [query_lower in memory["content"].lower()]. *)
Definition matches_query (lower : string -> string) (query : string)
    (memory : pydict) : bool :=
  match dict_get "content" memory with
  | Some (VStr c) => str_contains (lower query) (lower c)
  | _ => false
  end.

(** ** Bulk storage endpoint *)

(** One element of the list [bulk_store_memories] receives. The items
    covered are those whose [content], [priority] and [source], when the
    key is there, are strings. *)
Record bulk_item : Type := BulkItem {
  bi_content : option string;
  bi_priority : option string;
  bi_source : option string
}.

(** [MemoryPriority(value)]: the member with that value, [None] where
    the call raises [ValueError]. *)
Definition MemoryPriority_of_value (value : string) : option MemoryPriority :=
  if String.eqb value "critical" then Some CRITICAL
  else if String.eqb value "high" then Some HIGH
  else if String.eqb value "medium" then Some MEDIUM
  else if String.eqb value "low" then Some LOW
  else None.

(** The exception an item of the bulk store ends with. *)
Inductive bulk_error : Type :=
| InvalidPriority (value : string)
| StoreFailed (e : py_exn).

(** One element of [results]: the dictionary [store_memory_unified]
    returned, or [{'status': 'failed', 'error': str(e), 'content_preview': ...}]
    with [e] the exception caught. *)
Inductive bulk_entry : Type :=
| BulkStored (r : store_result)
| BulkFailed (e : bulk_error) (content_preview : string).

(** [r.get('status')] *)
Definition bulk_entry_status (entry : bulk_entry) : string :=
  match entry with
  | BulkStored r => st_status r
  | BulkFailed _ _ => "failed"
  end.

(** [MemoryMetadata(priority=priority, source=source)] *)
Definition bulk_metadata (priority : MemoryPriority) (source : string) : MemoryMetadata :=
  mkMemoryMetadata "1FDV-23-0001009" priority source "" "" "" [] [] [].

(** The [for] loop of [bulk_store_memories]; [envs i] is what the store
    of the item numbered [i] reads from outside. *)
Fixpoint bulk_store_loop `{PyLib} (envs : nat -> store_env) (i : nat)
    (memories : list bulk_item) (results : list bulk_entry) : run (list bulk_entry) :=
  match memories with
  | [] => run_ret results
  | memory_data :: rest =>
      let content := default "" (bi_content memory_data) in
      let priority := default "medium" (bi_priority memory_data) in
      let source := default "bulk_import" (bi_source memory_data) in
      run! entry <-
        match MemoryPriority_of_value priority with
        | None => run_ret (BulkFailed (InvalidPriority priority) (str_take 100 content))
        | Some p =>
            run_try
              (run! result <-
                 store_memory_unified (envs i) content (bulk_metadata p source) ALL in
               run_ret (BulkStored result))
              (fun e => run_ret (BulkFailed (StoreFailed e) (str_take 100 content)))
        end in
      bulk_store_loop envs (S i) rest (results ++ [entry])
  end.

(** The dictionary [bulk_store_memories] returns. *)
Record bulk_report : Type := BulkReport {
  br_operation : string;
  br_total_processed : nat;
  br_successful : nat;
  br_failed : nat;
  br_results : list bulk_entry
}.

(** [len([r for r in results if r.get('status') == status])] *)
Definition count_status (status : string) (results : list bulk_entry) : nat :=
  length (filter (fun r => String.eqb (bulk_entry_status r) status = true) results).

(** [bulk_store_memories] *)
Definition bulk_store_memories `{PyLib} (envs : nat -> store_env)
    (memories : list bulk_item) : run bulk_report :=
  run! results <- bulk_store_loop envs 0 memories [] in
  run_ret (BulkReport "bulk_store" (length memories)
             (count_status "success" results) (count_status "failed" results) results).

(** The items whose priority names a [MemoryPriority]. *)
Definition valid_priority (memory_data : bulk_item) : bool :=
  match MemoryPriority_of_value (default "medium" (bi_priority memory_data)) with
  | Some _ => true
  | None => false
  end.

(** The items whose store gets as far as the audit entry: the priority
    names a [MemoryPriority] and the content can be encoded. *)
Definition is_stored (memory_data : bulk_item) : bool :=
  valid_priority memory_data && encodable (default "" (bi_content memory_data)).

(** ** Pinecone adapter *)

(** One value of [MockPineconeIndex.vectors]:
    [{"id": vector_id, "values": embedding, "metadata": metadata}]. The
    embedding is [_generate_embedding(text)], a function of the bytes of
    the text alone, and is kept as that text. *)
Record vector_data : Type := VectorData {
  vd_id : string;
  vd_embedded_text : string;
  vd_metadata : pydict
}.

(** [MockPineconeIndex.vectors], keyed by the vector id. *)
Abbreviation vectors := (list (string * vector_data)).

(** [vectors[k] = v] *)
Fixpoint vectors_set (k : string) (v : vector_data) (vs : vectors) : vectors :=
  match vs with
  | [] => [(k, v)]
  | (k', v') :: vs' =>
      if String.eqb k k' then (k', v) :: vs' else (k', v') :: vectors_set k v vs'
  end.

(** [vectors[k]] when [k in vectors] *)
Fixpoint vectors_get (k : string) (vs : vectors) : option vector_data :=
  match vs with
  | [] => None
  | (k', v) :: vs' => if String.eqb k k' then Some v else vectors_get k vs'
  end.

(** [del vectors[k]] when [k in vectors]: no entry under [k] is left. *)
Fixpoint vectors_delete (k : string) (vs : vectors) : vectors :=
  match vs with
  | [] => []
  | (k', v) :: vs' =>
      if String.eqb k k' then vectors_delete k vs' else (k', v) :: vectors_delete k vs'
  end.

(** [_generate_embedding(text)]: it starts with [text.encode()], which
    raises on a text that holds a surrogate. *)
Definition _generate_embedding (text : string) : py_result string :=
  if encodable text then Returns text
  else Raises (UnicodeEncodeError (encode_error_message text)).

(** [MockPineconeIndex.upsert] of one vector. *)
Definition MockPineconeIndex_upsert (vs : vectors) (vector_id embedded_text : string)
    (metadata : pydict) : vectors :=
  vectors_set vector_id (VectorData vector_id embedded_text metadata) vs.

(** [MockPineconeIndex.query]: the vector asked for plays no part. *)
Definition MockPineconeIndex_query (vs : vectors) (query_text : string) (top_k : Z)
    : list vector_data :=
  py_slice_to top_k (snd <$> vs).

Record PineconeAdapter : Type := mkPineconeAdapter {
  pc_is_initialized : bool;
  pc_index : option vectors
}.

(** [PineconeAdapter.initialize]: a new client and its new, empty index. *)
Definition PineconeAdapter_initialize : PineconeAdapter :=
  mkPineconeAdapter true (Some []).

(** The [pinecone_metadata] of [store]. *)
Definition pinecone_metadata (content timestamp : string) (metadata : pydict) : pydict :=
  dict_set "source_system" (VStr "Pinecone")
    (dict_set "timestamp" (VStr timestamp)
       (dict_set "content" (VStr (str_take 1000 content)) metadata)).

(** [PineconeAdapter.store]; [uuid] and [now] are the [uuid4] drawn and
    the clock read. *)
Definition PineconeAdapter_store (self : PineconeAdapter) (uuid now : string)
    (content : string) (metadata : pydict)
    : py_result (MemoryRecord * PineconeAdapter) :=
  if negb (pc_is_initialized self)
  then Raises (RuntimeError "Pinecone adapter not initialized")
  else
    let record_id := uuid in
    let timestamp := now in
    do embedding <- _generate_embedding content in
    match pc_index self with
    | None => Raises (AttributeError "'NoneType' object has no attribute 'upsert'")
    | Some vs =>
        Returns
          ( mkMemoryRecord record_id content metadata timestamp "Pinecone"
              (dict_get "legal_relevance" metadata) [],
            mkPineconeAdapter (pc_is_initialized self)
              (Some (MockPineconeIndex_upsert vs record_id embedding
                       (pinecone_metadata content timestamp metadata))) )
    end.

(** The record [get_by_id] and [search] make of a stored vector. *)
Definition record_of_vector (id : string) (now : string) (metadata : pydict)
    (legal_relevance : option pyval) : fetched_record :=
  FetchedRecord (VStr id)
    (dict_get_default "content" (VStr "") metadata)
    (VDict metadata)
    (dict_get_default "timestamp" (VStr now) metadata)
    "Pinecone" legal_relevance.

(** [PineconeAdapter.get_by_id] *)
Definition PineconeAdapter_get_by_id (self : PineconeAdapter) (now memory_id : string)
    : option fetched_record :=
  if negb (pc_is_initialized self) then None
  else
    match pc_index self with
    | None => None
    | Some vs =>
        match vectors_get memory_id vs with
        | Some vector_data => Some (record_of_vector memory_id now (vd_metadata vector_data) None)
        | None => None
        end
    end.

(** [PineconeAdapter.search]; [now i] is the clock read for the match
    numbered [i]. Whatever the [try] block raises is answered with the
    empty list. *)
Definition PineconeAdapter_search (self : PineconeAdapter) (now : nat -> string)
    (query : string) (limit : Z) : list fetched_record :=
  if negb (pc_is_initialized self) then []
  else
    match _generate_embedding query with
    | Raises e => []
    | Returns query_embedding =>
        match pc_index self with
        | None => []
        | Some vs =>
            imap (fun i m =>
                    record_of_vector (vd_id m) (now i) (vd_metadata m)
                      (dict_get "legal_relevance" (vd_metadata m)))
              (MockPineconeIndex_query vs query_embedding limit)
        end
    end.

(** [PineconeAdapter.delete] *)
Definition PineconeAdapter_delete (self : PineconeAdapter) (memory_id : string)
    : bool * PineconeAdapter :=
  if negb (pc_is_initialized self) then (false, self)
  else
    match pc_index self with
    | None => (false, self)
    | Some vs =>
        (true, mkPineconeAdapter (pc_is_initialized self)
                 (Some (vectors_delete memory_id vs)))
    end.

(** [PineconeAdapter.update]; [now] is the clock read by [get_by_id]
    and [now'] the one read for the new timestamp. The record's metadata
    is the dictionary the index holds, updated in place before the
    vector is stored again. *)
Definition PineconeAdapter_update (self : PineconeAdapter) (now now' memory_id : string)
    (content : option string) (metadata : option pydict)
    : adapter_result fetched_record * PineconeAdapter :=
  if negb (pc_is_initialized self)
  then (AdapterRaises (RuntimeError "Pinecone adapter not initialized"), self)
  else
    match pc_index self, PineconeAdapter_get_by_id self now memory_id with
    | Some vs, Some existing =>
        match vectors_get memory_id vs with
        | Some held =>
            let content' := updated_content (fetched_content existing) content in
            let metadata' :=
              match metadata with
              | Some (kv :: more) => dict_update (vd_metadata held) (kv :: more)
              | _ => vd_metadata held
              end in
            let vs' :=
              vectors_set memory_id
                (VectorData (vd_id held) (vd_embedded_text held) metadata') vs in
            match content' with
            | VStr c =>
                match _generate_embedding c with
                | Returns embedding =>
                    (AdapterReturns
                       (FetchedRecord (fetched_id existing) content' (VDict metadata')
                          (fetched_timestamp existing) (fetched_source_system existing)
                          (fetched_legal_relevance existing)),
                     mkPineconeAdapter (pc_is_initialized self)
                       (Some (MockPineconeIndex_upsert vs' memory_id embedding
                                (dict_set "timestamp" (VStr now')
                                   (dict_set "content" (VStr (str_take 1000 c))
                                      metadata')))))
                | Raises e =>
                    (AdapterRaises e,
                     mkPineconeAdapter (pc_is_initialized self) (Some vs'))
                end
            | _ =>
                (AdapterRaises
                   (AttributeError
                      ("'" ++ type_name content' ++ "' object has no attribute 'encode'")),
                 mkPineconeAdapter (pc_is_initialized self) (Some vs'))
            end
        | None => (AdapterValueError (not_found memory_id), self)
        end
    | _, _ => (AdapterValueError (not_found memory_id), self)
    end.

(** ** Adapter factory *)

(** [d.get(k)] and [d[k] = v] on a dictionary with string keys. *)
Fixpoint assoc_get {A : Type} (k : string) (d : list (string * A)) : option A :=
  match d with
  | [] => None
  | (k', v) :: d' => if String.eqb k k' then Some v else assoc_get k d'
  end.

Fixpoint assoc_set {A : Type} (k : string) (v : A) (d : list (string * A))
    : list (string * A) :=
  match d with
  | [] => [(k, v)]
  | (k', v') :: d' =>
      if String.eqb k k' then (k', v) :: d' else (k', v') :: assoc_set k v d'
  end.

(** The process environment, as [os.getenv] reads it. *)
Definition environ : Type := string -> option string.

(** [os.getenv(name)] *)
Definition getenv (env : environ) (name : string) : pyval :=
  match env name with
  | Some value => VStr value
  | None => VNone
  end.

(** [os.getenv(name, default)] *)
Definition getenv_default (env : environ) (name default_value : string) : pyval :=
  VStr (default default_value (env name)).

(** [MemoryAdapterFactory._get_adapter_config] *)
Definition _get_adapter_config (env : environ) (adapter_name : string) : option pydict :=
  let configs :=
    [ ("mem0",
        [ ("api_key", getenv env "MEM0_API_KEY");
          ("api_key_secondary", getenv env "MEM0_API_KEY_SECONDARY");
          ("base_url", getenv env "MEM0_BASE_URL") ]);
      ("pinecone",
        [ ("api_key", getenv env "PINECONE_API_KEY");
          ("environment", getenv_default env "PINECONE_ENVIRONMENT" "us-west1-gcp-free");
          ("index_name", getenv_default env "PINECONE_INDEX_NAME" "quantum-memory") ]);
      ("supermemory",
        [ ("api_key", getenv env "SUPERMEMORY_API_KEY");
          ("base_url", getenv env "SUPERMEMORY_BASE_URL") ]) ] in
  assoc_get adapter_name configs.

(** [MemoryAdapterFactory._check_required_config] *)
Definition _check_required_config (adapter_name : string) (config : pydict) : bool :=
  let required_keys :=
    [ ("mem0", ["api_key"]); ("pinecone", ["api_key"]); ("supermemory", ["api_key"]) ] in
  let required := default [] (assoc_get adapter_name required_keys) in
  forallb (fun key => py_truthy (dict_get_default key VNone config)) required.

(** An adapter object of one of the three classes. *)
Inductive adapter : Type :=
| AdapterMem0 (a : Mem0Adapter)
| AdapterPinecone (a : PineconeAdapter)
| AdapterSuperMemory (a : SuperMemoryAdapter).

(** [adapter = adapter_class(config); success = await adapter.initialize()]
    for the classes of [ADAPTER_CLASSES], in their order. With the mock
    clients [initialize] raises nothing and answers [True]. *)
Definition ADAPTER_CLASSES : list (string * (pydict -> bool * adapter)) :=
  [ ("mem0", fun config =>
       (true, AdapterMem0
                (Mem0Adapter_initialize
                   (py_truthy (dict_get_default "api_key_secondary" VNone config)))));
    ("pinecone", fun config => (true, AdapterPinecone PineconeAdapter_initialize));
    ("supermemory", fun config => (true, AdapterSuperMemory SuperMemoryAdapter_initialize)) ].

(** The factory: [self.adapters]. *)
Abbreviation adapters := (list (string * adapter)).

(** One round of the loop of [initialize_all_adapters]. *)
Definition initialize_one (env : environ) (adapter_name : string)
    (adapter_class : pydict -> bool * adapter)
    (state : list (string * pydict) * adapters) : list (string * pydict) * adapters :=
  let '(results, registered) := state in
  match _get_adapter_config env adapter_name with
  | Some config =>
      if py_truthy (VDict config) && _check_required_config adapter_name config
      then
        let '(success, adapter) := adapter_class config in
        if success
        then (assoc_set adapter_name
                [ ("status", VStr "initialized");
                  ("config_keys", VList (VStr <$> (fst <$> config))) ] results,
              assoc_set adapter_name adapter registered)
        else (assoc_set adapter_name [ ("status", VStr "failed_initialization") ] results,
              registered)
      else (assoc_set adapter_name [ ("status", VStr "missing_config") ] results,
            registered)
  | None => (assoc_set adapter_name [ ("status", VStr "missing_config") ] results,
             registered)
  end.

(** [MemoryAdapterFactory.initialize_all_adapters] on a new factory: the
    [results] it returns and the [self.adapters] it leaves. *)
Definition initialize_all_adapters (env : environ) : list (string * pydict) * adapters :=
  foldl (fun state class => initialize_one env class.1 class.2 state) ([], [])
    ADAPTER_CLASSES.

(** [adapter.is_initialized] *)
Definition adapter_is_initialized (a : adapter) : bool :=
  match a with
  | AdapterMem0 a => m0_is_initialized a
  | AdapterPinecone a => pc_is_initialized a
  | AdapterSuperMemory a => sm_is_initialized a
  end.

(** [adapter.system_name]: the class name without [Adapter]. *)
Definition adapter_system_name (a : adapter) : string :=
  match a with
  | AdapterMem0 _ => "Mem0"
  | AdapterPinecone _ => "Pinecone"
  | AdapterSuperMemory _ => "SuperMemory"
  end.

(** [MemoryAdapter.get_health_status] *)
Definition get_health_status (a : adapter) : pydict :=
  [ ("system", VStr (adapter_system_name a));
    ("initialized", VBool (adapter_is_initialized a));
    ("status", VStr (if adapter_is_initialized a then "healthy" else "not_initialized")) ].

(** [MemoryAdapterFactory.get_adapter_health] *)
Definition get_adapter_health (registered : adapters) : list (string * pydict) :=
  foldl (fun health item => assoc_set item.1 (get_health_status item.2) health) []
    registered.

(** An environment variable that is set and not empty. *)
Definition is_set (env : environ) (name : string) : bool :=
  match env name with
  | Some value => negb (String.eqb value "")
  | None => false
  end.

(** ** Smart memory orchestrator over the MemoryPlugin client *)

(** What the code above [_request] can raise: the client's two errors
    and the exceptions of Python itself. *)
Inductive plugin_exn : Type :=
| PluginError (kind : plugin_error_kind)
| PluginRateLimitError (status_code : Z)
| PyError (e : py_exn)
| TypeError (msg : string).

Inductive plugin_result (A : Type) : Type :=
| Done (a : A)
| Failed (e : plugin_exn).
Arguments Done {A} a.
Arguments Failed {A} e.

(** What a call of [_request] gives its caller. *)
Definition reply_value (r : request_result) : plugin_result pyval :=
  match r with
  | ReturnsJson v => Done v
  | ReturnsText s => Done (VStr s)
  | MemoryPluginError kind => Failed (PluginError kind)
  | MemoryPluginRateLimitError code => Failed (PluginRateLimitError code)
  end.

(** The requests the orchestrator makes through the client. *)
Inductive call : Type :=
| ListBuckets
| CreateBucket (payload : pydict)
| CreateMemory (payload : pydict).

(** [for b in buckets]: the values the loop goes through. *)
Definition iterate (v : pyval) : plugin_result (list pyval) :=
  match v with
  | VList l => Done l
  | VDict d => Done (VStr <$> (fst <$> d))
  | VStr s => Done (str_chars s)
  | _ => Failed (TypeError "object is not iterable")
  end.

(** [b.get("name") == namespace or b.get("metadata", {}).get("namespace") == namespace] *)
Definition bucket_matches (namespace : string) (b : pyval) : plugin_result bool :=
  match b with
  | VDict d =>
      if py_eq (dict_get_default "name" VNone d) (VStr namespace) then Done true
      else
        match dict_get_default "metadata" (VDict []) d with
        | VDict md => Done (py_eq (dict_get_default "namespace" VNone md) (VStr namespace))
        | _ => Failed (PyError (AttributeError "object has no attribute 'get'"))
        end
  | _ => Failed (PyError (AttributeError "object has no attribute 'get'"))
  end.

(** [v["id"]] on a reply. *)
Definition getitem_id (v : pyval) : plugin_result pyval :=
  match v with
  | VDict d =>
      match dict_get "id" d with
      | Some id => Done id
      | None => Failed (PyError (KeyError "id"))
      end
  | _ => Failed (TypeError "indices must be integers, or object is not subscriptable")
  end.

(** The loop of [ensure_bucket_for_namespace]: the id of the first
    bucket that matches, [None] when the loop ends without one. *)
Fixpoint find_bucket (namespace : string) (buckets : list pyval)
    : plugin_result (option pyval) :=
  match buckets with
  | [] => Done None
  | b :: rest =>
      match bucket_matches namespace b with
      | Done true =>
          match getitem_id b with
          | Done id => Done (Some id)
          | Failed e => Failed e
          end
      | Done false => find_bucket namespace rest
      | Failed e => Failed e
      end
  end.

(** [md = metadata or {}; md.setdefault("namespace", namespace)] *)
Definition bucket_metadata (namespace : string) (metadata : option pydict) : pydict :=
  let md := match metadata with Some (kv :: more) => kv :: more | _ => [] end in
  if dict_mem "namespace" md then md else dict_set "namespace" (VStr namespace) md.

(** [description or f"Bucket for {namespace}"] *)
Definition bucket_description (namespace : string) (description : option string) : string :=
  match description with
  | Some d => if String.eqb d "" then ("Bucket for " ++ namespace)%string else d
  | None => ("Bucket for " ++ namespace)%string
  end.

(** The [payload] of [MemoryPluginClient.create_bucket]. *)
Definition create_bucket_payload (name : string) (description : option string)
    (metadata : option pydict) : pydict :=
  let payload := [ ("name", VStr name) ] in
  let payload :=
    match description with
    | Some d => if String.eqb d "" then payload else dict_set "description" (VStr d) payload
    | None => payload
    end in
  match metadata with
  | Some (kv :: more) => dict_set "metadata" (VDict (kv :: more)) payload
  | _ => payload
  end.

(** [SmartMemoryOrchestrator.ensure_bucket_for_namespace]: the result and
    the requests made, in order; [net] is what the client answers. *)
Definition ensure_bucket_for_namespace (net : call -> request_result)
    (namespace : string) (description : option string) (metadata : option pydict)
    : plugin_result pyval * list call :=
  match reply_value (net ListBuckets) with
  | Failed e => (Failed e, [ListBuckets])
  | Done buckets =>
      match iterate buckets with
      | Failed e => (Failed e, [ListBuckets])
      | Done bs =>
          match find_bucket namespace bs with
          | Failed e => (Failed e, [ListBuckets])
          | Done (Some id) => (Done id, [ListBuckets])
          | Done None =>
              let md := bucket_metadata namespace metadata in
              let payload :=
                create_bucket_payload namespace
                  (Some (bucket_description namespace description)) (Some md) in
              match reply_value (net (CreateBucket payload)) with
              | Failed e => (Failed e, [ListBuckets; CreateBucket payload])
              | Done created => (getitem_id created, [ListBuckets; CreateBucket payload])
              end
          end
      end
  end.

(** The [payload] of [MemoryPluginClient.create_memory]. *)
Definition create_memory_payload (content : string) (bucket_id : pyval)
    (tags : option (list string)) (metadata : option pydict) (source : option string)
    : pydict :=
  let payload := [ ("content", VStr content) ] in
  let payload :=
    if py_truthy bucket_id then dict_set "bucket_id" bucket_id payload else payload in
  let payload :=
    match tags with
    | Some (t :: more) => dict_set "tags" (VList (VStr <$> t :: more)) payload
    | _ => payload
    end in
  let payload :=
    match metadata with
    | Some (kv :: more) => dict_set "metadata" (VDict (kv :: more)) payload
    | _ => payload
    end in
  match source with
  | Some s => if String.eqb s "" then payload else dict_set "source" (VStr s) payload
  | None => payload
  end.

(** [SmartMemoryOrchestrator.add_memory] *)
Definition add_memory (net : call -> request_result) (namespace content : string)
    (tags : option (list string)) (metadata : option pydict) (source : option string)
    : plugin_result pyval * list call :=
  match ensure_bucket_for_namespace net namespace None None with
  | (Failed e, calls) => (Failed e, calls)
  | (Done bucket_id, calls) =>
      let payload := create_memory_payload content bucket_id tags metadata source in
      (reply_value (net (CreateMemory payload)), calls ++ [CreateMemory payload])
  end.

(** A listed bucket is a JSON object whose [metadata], when there, is a
    JSON object. *)
Definition bucket_ok (b : pydict) : Prop :=
  match dict_get "metadata" b with
  | Some (VDict _) | None => True
  | Some _ => False
  end.

(** The test of the loop on such a bucket. *)
Definition names_namespace (namespace : string) (b : pydict) : bool :=
  py_eq (dict_get_default "name" VNone b) (VStr namespace)
  || match dict_get_default "metadata" (VDict []) b with
     | VDict md => py_eq (dict_get_default "namespace" VNone md) (VStr namespace)
     | _ => false
     end.

(** ** Health check *)

(** What one [get_system_health] reads from outside: the clock, the
    uptime computed from it, and what the two probes do. *)
Record health_env : Type := HealthEnv {
  he_now_iso : string;
  he_uptime_seconds : Z;
  he_uptime_human : string;
  (** [self.providers[MEM0].search(query="health_check", user_id=..., limit=1)] *)
  he_mem0_search : string -> py_result unit;
  (** entering [async with self.providers[SUPERMEMORY] as client] *)
  he_sm_enter : py_result unit;
  (** [await client.session.get(f"{client.api_url}/health")]: any
      response is a return, whatever its status *)
  he_sm_get : py_result unit
}.

(** The dictionary [get_system_health] returns; [hs_metrics] holds the
    counters of [self.metrics.copy()]. *)
Record health_status : Type := HealthStatus {
  hs_system : string;
  hs_version : string;
  hs_case_id : string;
  hs_timestamp : string;
  hs_uptime_seconds : Z;
  hs_uptime_human : string;
  hs_overall_status : string;
  hs_providers : list (string * pydict);
  hs_metrics : metrics;
  hs_audit_chain_length : Z
}.

(** The entry of a provider whose probe raised. *)
Definition provider_error (e : py_exn) (now : string) : pydict :=
  [ ("status", VStr "error");
    ("connection", VStr "failed");
    ("error", VStr (exn_str e));
    ("last_test", VStr now) ].

(** [get_system_health]; the [last_health_check] it records is not among
    the counters of the orchestrator here. *)
Definition get_system_health (self : orchestrator) (env : health_env) : health_status :=
  let now := he_now_iso env in
  let overall_status := "operational" in
  let provider_health : list (string * pydict) := [] in
  let '(provider_health, overall_status) :=
    if has_mem0 self
    then
      match he_mem0_search env (case_id self) with
      | Returns _ =>
          (items_set "mem0"
             [ ("status", VStr "operational");
               ("connection", VStr "active");
               ("api_key_valid", VBool true);
               ("last_test", VStr now) ] provider_health,
           overall_status)
      | Raises e => (items_set "mem0" (provider_error e now) provider_health, "degraded")
      end
    else (provider_health, overall_status) in
  let provider_health :=
    if has_supermemory self
    then
      match (do _client <- he_sm_enter env in he_sm_get env) with
      | Returns _ =>
          items_set "supermemory"
            [ ("status", VStr "operational");
              ("connection", VStr "active");
              ("last_test", VStr now) ] provider_health
      | Raises e => items_set "supermemory" (provider_error e now) provider_health
      end
    else provider_health in
  HealthStatus "Quantum Memory Orchestrator" "1.0.0-PRODUCTION" (case_id self) now
    (he_uptime_seconds env) (he_uptime_human env) overall_status provider_health
    (o_metrics self) (Z.of_nat (length (audit_chain self))).

(** ** Sample data for the MemoryPlugin orchestrator and the health check *)

Definition sample_buckets : list pydict :=
  [ [ ("id", VStr "b1"); ("name", VStr "ops") ];
    [ ("id", VInt 0); ("metadata", VDict [ ("namespace", VStr "case:1") ]) ];
    [ ("id", VStr "b3"); ("name", VStr "case:1") ] ].

Definition sample_net (c : call) : request_result :=
  match c with
  | ListBuckets => ReturnsJson (VList (VDict <$> sample_buckets))
  | CreateBucket _ => ReturnsJson (VDict [ ("id", VStr "b-new") ])
  | CreateMemory _ => ReturnsJson (VDict [ ("id", VStr "m-new") ])
  end.

(** Mem0 answers, SuperMemory cannot be reached. *)
Definition sample_health_env : health_env :=
  HealthEnv "2025-10-19T00:00:00+00:00" 3600 "1:00:00"
    (fun _ => Returns tt) (Returns tt) (Raises (BackendError "connection refused")).

(** ** Sample data for the adapters and the bulk store *)

Definition sample_adapter_metadata : pydict := [ ("legal_relevance", VInt 1) ].

(** Three memories held by a mock client; the query [evidence] is in
    the first and in the third. *)
Definition sample_memories : memories :=
  [ (VStr "m1", [ ("id", VStr "m1"); ("content", VStr "evidence-17") ]);
    (VStr "m2", [ ("id", VStr "m2"); ("content", VStr "a note") ]);
    (VStr "m3", [ ("id", VStr "m3"); ("content", VStr "evidence-22") ]) ].

Definition sample_sync_envs (i : nat) : adapter_env :=
  sample_adapter_env (if Nat.eqb i 0 then "sync-0" else "sync-1").

Definition sample_source_records : list MemoryRecord :=
  [ mkMemoryRecord "source-a" "evidence-17" [] "2025-10-17T00:00:00" "SuperMemory" None [];
    mkMemoryRecord "source-b" "evidence-22" [] "2025-10-17T00:00:01" "SuperMemory" None [] ].

(** One item with the default priority, one whose priority is no
    [MemoryPriority] and one whose content holds a surrogate. *)
Definition sample_bulk_items : list bulk_item :=
  [ BulkItem (Some "evidence-17") None None;
    BulkItem (Some "evidence-22") (Some "urgent") (Some "import");
    BulkItem (Some surrogate_content) (Some "high") None ].

(** * Properties *)

(** ** Dictionaries *)

Lemma dict_get_set_eq (k : string) (v : pyval) (d : pydict) :
  dict_get k (dict_set k v d) = Some v.
Proof.
  induction d as [|[k0 v0] d IH]; simpl.
  - by rewrite String.eqb_refl.
  - destruct (String.eqb k k0) eqn:E; simpl; rewrite E; [done | exact IH].
Qed.

Lemma dict_get_set_ne (k k' : string) (v : pyval) (d : pydict) :
  k <> k' -> dict_get k' (dict_set k v d) = dict_get k' d.
Proof.
  intros Hne. induction d as [|[k0 v0] d IH]; simpl.
  - destruct (String.eqb_spec k' k); [congruence | done].
  - destruct (String.eqb_spec k k0) as [->|Hk]; simpl.
    + destruct (String.eqb_spec k' k0); [congruence | done].
    + destruct (String.eqb k' k0); [done | exact IH].
Qed.

Lemma py_eq_str (s t : string) : py_eq (VStr s) (VStr t) = String.eqb s t.
Proof. reflexivity. Qed.

Lemma py_eq_str_refl (s : string) : py_eq (VStr s) (VStr s) = true.
Proof. rewrite py_eq_str. apply String.eqb_refl. Qed.

(** ** Audit chain *)

Lemma linked_set_l (k : string) (v : pyval) (p e : pydict) :
  k <> "entry_hash" -> linked (dict_set k v p) e = linked p e.
Proof. intros Hk. unfold linked. by rewrite dict_get_set_ne. Qed.

Lemma linked_set_r (k : string) (v : pyval) (p e : pydict) :
  k <> "previous_hash" -> linked p (dict_set k v e) = linked p e.
Proof. intros Hk. unfold linked. by rewrite dict_get_set_ne. Qed.

(** [all_linked] looks at each pair of neighbours, and at nothing else. *)
Lemma all_linked_spec (chain : list pydict) :
  all_linked chain = true <->
  forall i p e, chain !! i = Some p -> chain !! (S i) = Some e -> linked p e = true.
Proof.
  induction chain as [|p0 rest IH].
  - split; [intros _ i p e Hp; by rewrite lookup_nil in Hp | done].
  - destruct rest as [|e0 rest'].
    + split; [|done]. intros _ i p e _ He. destruct i; simpl in He; discriminate.
    + change (all_linked (p0 :: e0 :: rest'))
        with (linked p0 e0 && all_linked (e0 :: rest')).
      rewrite andb_true_iff, IH. split.
      * intros [H0 Hrest] [|i] p e Hp He.
        -- simpl in Hp, He. by simplify_eq.
        -- exact (Hrest i p e Hp He).
      * intros Hall. split.
        -- exact (Hall 0%nat p0 e0 eq_refl eq_refl).
        -- intros i p e Hp He. exact (Hall (S i) p e Hp He).
Qed.

Lemma verify_walk_spec (chain rest pre : list pydict) (p : pydict) :
  chain = pre ++ p :: rest ->
  try_except (verify_walk chain (S (length pre)) rest) (fun _ => Returns false)
  = Returns (all_linked (p :: rest)).
Proof.
  revert pre p. induction rest as [|e rest' IH]; intros pre p Hchain; [done|].
  change (all_linked (p :: e :: rest')) with (linked p e && all_linked (e :: rest')).
  cbn [verify_walk Nat.eqb].
  replace (S (length pre) - 1)%nat with (length pre) by lia.
  assert (chain !! length pre = Some p) as ->.
  { subst chain. by rewrite list_lookup_middle. }
  unfold linked, dict_getitem.
  destruct (dict_get "entry_hash" p) as [h|]; [|done]. cbn [py_bind].
  destruct (dict_get "previous_hash" e) as [h'|]; [|done]. cbn [py_bind].
  destruct (py_eq h' h); cbn [negb andb]; [|done].
  specialize (IH (pre ++ [p]) e).
  rewrite length_app in IH. cbn [length] in IH.
  replace (length pre + 1)%nat with (S (length pre)) in IH by lia.
  apply IH. subst chain. by rewrite <- app_assoc.
Qed.

(** [_verify_audit_chain] computes [all_linked], whatever the chain holds. *)
Lemma verify_is_all_linked (chain : list pydict) :
  _verify_audit_chain chain = Returns (all_linked chain).
Proof.
  unfold _verify_audit_chain. destruct chain as [|p rest]; [done|].
  cbn [verify_walk Nat.eqb]. by apply (verify_walk_spec _ rest []).
Qed.

Lemma chain_ok_nil : chain_ok [].
Proof. intros i e H. by rewrite lookup_nil in H. Qed.

Lemma chain_ok_all_linked (chain : list pydict) :
  chain_ok chain -> all_linked chain = true.
Proof.
  intros Hok. apply all_linked_spec. intros i p e Hp He.
  destruct (Hok _ _ He) as (_ & _ & q & Hq & Hprev).
  destruct (Hok _ _ Hp) as ((h & Hh) & _).
  assert (q = p) as -> by congruence.
  unfold linked. rewrite Hprev, Hh. apply py_eq_str_refl.
Qed.

Lemma entry_ok_app (chain extra : list pydict) (i : nat) (e : pydict) :
  entry_ok chain i e -> entry_ok (chain ++ extra) i e.
Proof.
  intros (Hh & Hi & Hp). repeat split; [done..|].
  destruct i as [|j]; [done|].
  destruct Hp as (p & Hp & Heq). exists p. split; [|done].
  by apply lookup_app_l_Some.
Qed.

(** One append on a well-formed chain returns, and leaves a well-formed
    chain that is the old one with the new entry at its end. *)
Lemma create_audit_entry_ok `{PyLib} (cid : string) (chain : list pydict)
    (op : append_op) :
  chain_ok chain ->
  exists e, _create_audit_entry cid chain op = Returns (e, chain ++ [e]) /\
            chain_ok (chain ++ [e]).
Proof.
  intros Hok. unfold _create_audit_entry, previous_hash_of.
  destruct (last chain) as [x|] eqn:Hlast.
  - apply last_Some in Hlast as [pre ->].
    assert ((pre ++ [x]) !! length pre = Some x) as Hx by (by apply list_lookup_middle).
    destruct (Hok _ _ Hx) as ((h & Hh) & _).
    unfold dict_getitem. rewrite Hh. cbn [py_bind].
    eexists. split; [reflexivity|].
    intros i e Hi. apply lookup_app_Some in Hi as [Hi|[Hlen Hi]].
    + apply entry_ok_app. by apply Hok.
    + destruct (i - length (pre ++ [x]))%nat eqn:Hd; [|by destruct n].
      simpl in Hi. injection Hi as <-.
      assert (i = length (pre ++ [x])) as -> by lia.
      split; [|split].
      * eexists. reflexivity.
      * reflexivity.
      * rewrite length_app. cbn [length].
        replace (length pre + 1)%nat with (S (length pre)) by lia.
        exists x. split; [by apply lookup_app_l_Some|].
        rewrite Hh. reflexivity.
  - apply last_None in Hlast as ->. cbn [py_bind].
    eexists. split; [reflexivity|].
    intros [|[|i]] e Hi; simpl in Hi; [|discriminate..].
    injection Hi as <-. split; [|split].
    + eexists. reflexivity.
    + reflexivity.
    + reflexivity.
Qed.

Lemma run_appends_app `{PyLib} (cid : string) (ops1 ops2 : list append_op)
    (chain : list pydict) :
  run_appends cid (ops1 ++ ops2) chain
  = do c <- run_appends cid ops1 chain in run_appends cid ops2 c.
Proof.
  revert chain. induction ops1 as [|op ops1 IH]; intros chain; [done|].
  cbn [run_appends app].
  destruct (_create_audit_entry cid chain op) as [r|e]; [|done].
  cbn [py_bind]. apply IH.
Qed.

(** Appends on a well-formed chain all return; the chain stays well
    formed and only grows at its end, by one entry per append. *)
Lemma run_appends_ok `{PyLib} (cid : string) (ops : list append_op)
    (chain : list pydict) :
  chain_ok chain ->
  exists added, run_appends cid ops chain = Returns (chain ++ added) /\
                chain_ok (chain ++ added) /\ length added = length ops.
Proof.
  revert chain. induction ops as [|op ops IH]; intros chain Hok.
  - exists []. by rewrite app_nil_r.
  - destruct (create_audit_entry_ok cid chain op Hok) as (e & He & Hok').
    destruct (IH _ Hok') as (added & Hrun & Hok'' & Hlen).
    exists (e :: added). cbn [run_appends]. rewrite He. cbn [py_bind snd].
    rewrite <- app_assoc in Hrun, Hok''. cbn [app] in Hrun, Hok''.
    split; [done|split; [done|]]. cbn [length]. by rewrite Hlen.
Qed.

Lemma run_appends_take `{PyLib} (cid : string) (ops : list append_op)
    (chain : list pydict) (n : nat) :
  run_appends cid ops [] = Returns chain ->
  run_appends cid (take n ops) [] = Returns (take n chain).
Proof.
  intros Hrun.
  destruct (run_appends_ok cid (take n ops) [] chain_ok_nil) as (c1 & H1 & Hok1 & Hlen1).
  cbn [app] in H1, Hok1.
  destruct (run_appends_ok cid (drop n ops) c1 Hok1) as (c2 & H2 & _ & Hlen2).
  rewrite <- (take_drop n ops), run_appends_app, H1 in Hrun.
  cbn [py_bind] in Hrun. rewrite H2 in Hrun. injection Hrun as <-.
  rewrite H1. f_equal.
  rewrite length_take in Hlen1. rewrite length_drop in Hlen2.
  destruct (decide (n <= length ops)%nat) as [Hle|Hgt].
  - rewrite take_app_le by lia. rewrite take_ge by lia. done.
  - assert (c2 = []) as -> by (apply length_zero_iff_nil; lia).
    rewrite app_nil_r. rewrite take_ge by lia. done.
Qed.

(** C2. After any sequence of appends to the audit chain, starting from
    the empty chain of a new orchestrator: every append returns; the
    chain has one entry per append; the first entry's [previous_hash] is
    the sentinel ["0"]; each entry's [chain_index] is its 0-based position;
    for every [i], the [previous_hash] of entry [i+1] is the [entry_hash]
    of entry [i]; and the chain after the first [n] appends is the first
    [n] entries of the final chain, so no append changed or removed an
    entry appended before it. *)
Theorem audit_chain_invariant `{PyLib} (cid : string) (ops : list append_op) :
  exists chain,
    run_appends cid ops [] = Returns chain /\
    length chain = length ops /\
    (forall e, chain !! 0%nat = Some e ->
       dict_get "previous_hash" e = Some (VStr "0")) /\
    (forall i e, chain !! i = Some e ->
       dict_get "chain_index" e = Some (VInt (Z.of_nat i))) /\
    (forall i p e, chain !! i = Some p -> chain !! (S i) = Some e ->
       exists h, dict_get "entry_hash" p = Some (VStr h) /\
                 dict_get "previous_hash" e = Some (VStr h)) /\
    (forall n, run_appends cid (take n ops) [] = Returns (take n chain)) /\
    (forall op, exists e,
       _create_audit_entry cid chain op = Returns (e, chain ++ [e])).
Proof.
  destruct (run_appends_ok cid ops [] chain_ok_nil) as (chain & Hrun & Hok & Hlen).
  cbn [app] in Hrun, Hok. exists chain.
  split; [done|]. split; [done|]. split; [|split; [|split; [|split]]].
  - intros e He. by destruct (Hok _ _ He) as (_ & _ & H0).
  - intros i e He. by destruct (Hok _ _ He) as (_ & Hi & _).
  - intros i p e Hp He.
    destruct (Hok _ _ Hp) as ((h & Hh) & _).
    destruct (Hok _ _ He) as (_ & _ & q & Hq & Hprev).
    exists h. split; [done|]. rewrite Hprev. congruence.
  - intros n. by apply run_appends_take.
  - intros op. destruct (create_audit_entry_ok cid chain op Hok) as (e & He & _).
    by exists e.
Qed.

(** The mutated chain has the entries of the old one, but for position [i]. *)
Lemma mutate_lookup (chain : list pydict) (i j : nat) (k : string) (v : pyval) :
  mutate chain i k v !! j
  = if decide (i = j) then dict_set k v <$> chain !! j else chain !! j.
Proof.
  unfold mutate. destruct (chain !! i) as [e|] eqn:Hi.
  - destruct (decide (i = j)) as [<-|Hne].
    + rewrite list_lookup_insert_eq by (by eapply lookup_lt_Some). by rewrite Hi.
    + by rewrite list_lookup_insert_ne.
  - destruct (decide (i = j)) as [<-|Hne]; [by rewrite Hi | done].
Qed.

Lemma mutate_length (chain : list pydict) (i : nat) (k : string) (v : pyval) :
  length (mutate chain i k v) = length chain.
Proof. unfold mutate. destruct (chain !! i); [apply length_insert | done]. Qed.

(** Two neighbours of the mutated chain come from the two neighbours of
    the old chain at the same positions. *)
Lemma mutate_neighbours (chain : list pydict) (i j : nat) (k : string) (v : pyval)
    (p e : pydict) :
  mutate chain i k v !! j = Some p ->
  mutate chain i k v !! S j = Some e ->
  exists p0 e0,
    chain !! j = Some p0 /\ chain !! S j = Some e0 /\
    p = (if decide (i = j) then dict_set k v p0 else p0) /\
    e = (if decide (i = S j) then dict_set k v e0 else e0).
Proof.
  rewrite !mutate_lookup. intros Hp He.
  destruct (chain !! j) as [p0|]; [|by destruct (decide (i = j))].
  destruct (chain !! S j) as [e0|]; [|by destruct (decide (i = S j))].
  exists p0, e0. split; [done|]. split; [done|].
  destruct (decide (i = j)), (decide (i = S j)); by simplify_eq/=.
Qed.

(** A change of a key that is not one of the two link fields leaves the
    verdict as it was. *)
Lemma all_linked_mutate_other (chain : list pydict) (i : nat) (k : string) (v : pyval) :
  k <> "previous_hash" -> k <> "entry_hash" ->
  all_linked chain = true -> all_linked (mutate chain i k v) = true.
Proof.
  intros Hk1 Hk2 Hall. apply all_linked_spec. intros j p e Hp He.
  destruct (mutate_neighbours _ _ _ _ _ _ _ Hp He) as (p0 & e0 & Hp0 & He0 & -> & ->).
  pose proof (proj1 (all_linked_spec chain) Hall j p0 e0 Hp0 He0) as Hl.
  destruct (decide (i = j)), (decide (i = S j));
    by rewrite ?linked_set_l, ?linked_set_r.
Qed.

Lemma all_linked_mutate_first (chain : list pydict) (v : pyval) :
  all_linked chain = true -> all_linked (mutate chain 0 "previous_hash" v) = true.
Proof.
  intros Hall. apply all_linked_spec. intros j p e Hp He.
  destruct (mutate_neighbours _ _ _ _ _ _ _ Hp He) as (p0 & e0 & Hp0 & He0 & -> & ->).
  pose proof (proj1 (all_linked_spec chain) Hall j p0 e0 Hp0 He0) as Hl.
  destruct (decide (0%nat = S j)); [lia|].
  destruct (decide (0%nat = j)); by rewrite ?linked_set_l.
Qed.

Lemma all_linked_mutate_last (chain : list pydict) (v : pyval) :
  all_linked chain = true ->
  all_linked (mutate chain (length chain - 1) "entry_hash" v) = true.
Proof.
  intros Hall. apply all_linked_spec. intros j p e Hp He.
  destruct (mutate_neighbours _ _ _ _ _ _ _ Hp He) as (p0 & e0 & Hp0 & He0 & -> & ->).
  pose proof (proj1 (all_linked_spec chain) Hall j p0 e0 Hp0 He0) as Hl.
  apply lookup_lt_Some in He0.
  destruct (decide (length chain - 1 = j)%nat); [lia|].
  destruct (decide (length chain - 1 = S j)%nat); by rewrite ?linked_set_r.
Qed.

(** A link that no longer holds makes the verdict [False]. *)
Lemma all_linked_broken (chain : list pydict) (j : nat) (p e : pydict) :
  chain !! j = Some p -> chain !! S j = Some e -> linked p e = false ->
  all_linked chain = false.
Proof.
  intros Hp He Hl. destruct (all_linked chain) eqn:Hall; [|done].
  rewrite (proj1 (all_linked_spec chain) Hall j p e Hp He) in Hl. done.
Qed.

(** What [_verify_audit_chain] decides. The walk compares the stored
    [previous_hash] of each entry with the stored [entry_hash] of the
    entry before it and recomputes no hash: its verdict on any chain is
    [all_linked]. So, for the chain any sequence of appends
    leaves: the verdict is [True]; it stays [True] when any key other
    than [previous_hash] and [entry_hash] is changed in any entry (the
    hashed fields [id], [case_id], [operation], [data_hash], the
    timestamps, [chain_index] and [result_status] among them), when
    [previous_hash] of the first entry is changed and when [entry_hash]
    of the last entry is changed; it is [False] when [previous_hash] of
    a later entry is set to a value that differs from the [entry_hash]
    before it, or [entry_hash] of an entry is set to a value that differs
    from the [previous_hash] after it. *)
Theorem verify_checks_links_only `{PyLib} (cid : string) (ops : list append_op) :
  exists chain,
    run_appends cid ops [] = Returns chain /\
    _verify_audit_chain chain = Returns true /\
    (forall any : list pydict,
       _verify_audit_chain any = Returns (all_linked any)) /\
    (forall i k v, k <> "previous_hash" -> k <> "entry_hash" ->
       _verify_audit_chain (mutate chain i k v) = Returns true) /\
    (forall v, _verify_audit_chain (mutate chain 0 "previous_hash" v) = Returns true) /\
    (forall v,
       _verify_audit_chain (mutate chain (length chain - 1) "entry_hash" v)
       = Returns true) /\
    (forall i p e h v,
       chain !! i = Some p -> chain !! S i = Some e ->
       dict_get "entry_hash" p = Some h -> py_eq v h = false ->
       _verify_audit_chain (mutate chain (S i) "previous_hash" v) = Returns false) /\
    (forall i p e h v,
       chain !! i = Some p -> chain !! S i = Some e ->
       dict_get "previous_hash" e = Some h -> py_eq h v = false ->
       _verify_audit_chain (mutate chain i "entry_hash" v) = Returns false).
Proof.
  destruct (run_appends_ok cid ops [] chain_ok_nil) as (chain & Hrun & Hok & Hlen).
  cbn [app] in Hrun, Hok. exists chain.
  pose proof (chain_ok_all_linked chain Hok) as Hall.
  split; [done|]. split; [by rewrite verify_is_all_linked, Hall|].
  split; [apply verify_is_all_linked|].
  split; [|split; [|split; [|split]]].
  - intros i k v Hk1 Hk2.
    by rewrite verify_is_all_linked, all_linked_mutate_other.
  - intros v. by rewrite verify_is_all_linked, all_linked_mutate_first.
  - intros v. by rewrite verify_is_all_linked, all_linked_mutate_last.
  - intros i p e h v Hp He Hh Hne. rewrite verify_is_all_linked. f_equal.
    apply (all_linked_broken _ i p (dict_set "previous_hash" v e)).
    + rewrite mutate_lookup. destruct (decide (S i = i)); [lia | done].
    + rewrite mutate_lookup, He. by destruct (decide (S i = S i)).
    + unfold linked. by rewrite Hh, dict_get_set_eq.
  - intros i p e h v Hp He Hh Hne. rewrite verify_is_all_linked. f_equal.
    apply (all_linked_broken _ i (dict_set "entry_hash" v p) e).
    + rewrite mutate_lookup, Hp. by destruct (decide (i = i)).
    + rewrite mutate_lookup. destruct (decide (i = S i)); [lia | done].
    + unfold linked. by rewrite Hh, dict_get_set_eq.
Qed.

(** C1 at the input where the code leaves it. After two appends,
    [result_status] of the first entry, a field its [entry_hash] covers,
    is changed from [pending] to [success]; the chain is not the one the
    appends left, and [_verify_audit_chain], which by its docstring
    verifies the integrity of the entire chain, still answers [True]:
    nothing recomputes the [entry_hash] of an entry. *)
Lemma verify_misses_mutated_hashed_field :
  exists chain,
    run_appends (H := sample_lib) sample_case sample_ops [] = Returns chain /\
    "result_status" ∈ hashed_fields /\
    (dict_get "result_status" <$> chain !! 0%nat) = Some (Some (VStr "pending")) /\
    (dict_get "result_status" <$> mutate chain 0 "result_status" (VStr "success") !! 0%nat)
      = Some (Some (VStr "success")) /\
    _verify_audit_chain (mutate chain 0 "result_status" (VStr "success"))
      = Returns true.
Proof.
  eexists. split; [vm_compute; reflexivity|].
  split; [unfold hashed_fields; set_solver|].
  split; [reflexivity|]. split; reflexivity.
Qed.

(** C9, as the code has it. [_verify_audit_chain] never raises: it
    returns a boolean on every chain; on a chain with a broken link it
    returns [False]; and an exception raised inside the walk (an entry
    without its [entry_hash] or [previous_hash] key) is caught and turned
    into [False] as well. *)
Theorem verify_returns_false_never_raises (chain : list pydict) :
  (exists b, _verify_audit_chain chain = Returns b) /\
  (forall i p e, chain !! i = Some p -> chain !! S i = Some e ->
     linked p e = false -> _verify_audit_chain chain = Returns false) /\
  (forall exn, verify_walk chain 0 chain = Raises exn ->
     _verify_audit_chain chain = Returns false).
Proof.
  split; [|split].
  - exists (all_linked chain). apply verify_is_all_linked.
  - intros i p e Hp He Hl. rewrite verify_is_all_linked. f_equal.
    exact (all_linked_broken chain i p e Hp He Hl).
  - intros exn Hraise. unfold _verify_audit_chain. by rewrite Hraise.
Qed.

(** C9 fails as stated: on a two-entry chain whose second entry names a
    wrong [previous_hash], and on one whose first entry has lost its
    [entry_hash] (the walk raises [KeyError]), [_verify_audit_chain]
    raises nothing and returns [False]. *)
Lemma verify_masks_broken_link :
  _verify_audit_chain
    [ [("entry_hash", VStr "aa"); ("previous_hash", VStr "0")];
      [("entry_hash", VStr "bb"); ("previous_hash", VStr "zz")] ]
  = Returns false /\
  verify_walk
    [ [("previous_hash", VStr "0")];
      [("entry_hash", VStr "bb"); ("previous_hash", VStr "aa")] ] 0
    [ [("previous_hash", VStr "0")];
      [("entry_hash", VStr "bb"); ("previous_hash", VStr "aa")] ]
  = Raises (KeyError "entry_hash") /\
  _verify_audit_chain
    [ [("previous_hash", VStr "0")];
      [("entry_hash", VStr "bb"); ("previous_hash", VStr "aa")] ]
  = Returns false.
Proof. repeat split. Qed.

(** ** Result merger *)

Lemma filter_fmap_comm {A B : Type} (f : A -> B) (P : B -> Prop)
    `{!forall y, Decision (P y)} (l : list A) :
  filter P (f <$> l) = f <$> filter (fun x => P (f x)) l.
Proof.
  induction l as [|x l IH]; [done|].
  rewrite fmap_cons, !filter_cons. case_decide; by rewrite ?fmap_cons, IH.
Qed.

Lemma filter_none {A : Type} (P : A -> Prop) `{!forall x, Decision (P x)}
    (l : list A) :
  (forall x, x ∈ l -> ~ P x) -> filter P l = [].
Proof.
  induction l as [|x l IH]; intros Hl; [done|].
  rewrite filter_cons_False by (apply Hl; left).
  apply IH. intros y Hy. apply Hl. by right.
Qed.

Lemma successful_hits_cons (p : string) (o : search_outcome)
    (results : list (string * search_outcome)) :
  successful_hits ((p, o) :: results)
  = (if String.eqb (so_status o) "success"
     then (fun r => (p, r)) <$> so_results o else [])
    ++ successful_hits results.
Proof. reflexivity. Qed.

Section Merger.
Context `{PyLib}.

(** The two loops of [_merge_search_results] are one loop over the
    results of the successful providers. *)
Lemma merge_provider_flat (results : list (string * search_outcome))
    (acc : list pydict * gset string) :
  foldl merge_provider acc results
  = foldl (fun acc hit => merge_result hit.1 acc hit.2) acc (successful_hits results).
Proof.
  revert acc. induction results as [|[p o] results IH]; intros acc; [done|].
  rewrite successful_hits_cons, foldl_app. cbn [foldl]. rewrite <- IH. f_equal.
  unfold merge_provider. cbn [fst snd].
  destruct (String.eqb (so_status o) "success"); [|done].
  by rewrite foldl_fmap.
Qed.

(** Dropping the results with some keys before or after keeping the
    first seen comes to the same. *)
Lemma first_seen_filter (P : string -> Prop) `{!forall h, Decision (P h)}
    (l : list (string * pydict)) :
  first_seen (filter (fun hit => P (hit_hash hit)) l)
  = filter (fun hit => P (hit_hash hit)) (first_seen l).
Proof.
  induction l as [|hit l IH]; [done|].
  rewrite filter_cons. cbn [first_seen]. case_decide as HP.
  - cbn [first_seen]. rewrite filter_cons. case_decide; [|done].
    f_equal. rewrite IH, !list_filter_filter.
    apply list_filter_iff. intros x. tauto.
  - rewrite filter_cons. case_decide; [done|]. rewrite IH, list_filter_filter.
    apply list_filter_iff. intros x. split; [|tauto].
    intros HPx. split; [done|]. congruence.
Qed.

Lemma first_seen_drop (h : string) (l : list (string * pydict)) :
  first_seen (filter (fun hit => hit_hash hit <> h) l)
  = filter (fun hit => hit_hash hit <> h) (first_seen l).
Proof. exact (first_seen_filter (fun x => x <> h) l). Qed.

Lemma first_seen_only (h : string) (l : list (string * pydict)) :
  first_seen (filter (fun hit => hit_hash hit = h) l)
  = filter (fun hit => hit_hash hit = h) (first_seen l).
Proof. exact (first_seen_filter (fun x => x = h) l). Qed.

Lemma merge_loop_spec (hits : list (string * pydict)) (merged : list pydict)
    (seen : gset string) :
  (foldl (fun acc hit => merge_result hit.1 acc hit.2) (merged, seen) hits).1
  = merged ++ (merged_entry <$>
                first_seen (filter (fun hit => hit_hash hit ∉ seen) hits)).
Proof.
  revert merged seen. induction hits as [|hit hits IH]; intros merged seen.
  - by rewrite app_nil_r.
  - cbn [foldl]. unfold merge_result at 2. cbn [fst snd].
    fold (hit_hash hit). rewrite filter_cons.
    destruct (bool_decide_reflect (hit_hash hit ∈ seen)) as [Hin|Hnotin].
    + rewrite decide_False by tauto. apply IH.
    + rewrite decide_True by done. rewrite IH, <- app_assoc.
      cbn [first_seen]. rewrite fmap_cons. cbn [app]. do 3 f_equal.
      rewrite <- first_seen_drop, list_filter_filter. f_equal.
      apply list_filter_iff. intros x.
      rewrite not_elem_of_union, not_elem_of_singleton. tauto.
Qed.

(** [_merge_search_results] keeps, of the results of the successful
    providers, the first seen of each key, in the order met. *)
Lemma merge_is_first_seen (results : list (string * search_outcome)) :
  _merge_search_results results
  = merged_entry <$> first_seen (successful_hits results).
Proof.
  unfold _merge_search_results. rewrite merge_provider_flat, merge_loop_spec.
  cbn [app]. do 2 f_equal.
  induction (successful_hits results) as [|hit l IH]; [done|].
  rewrite filter_cons, decide_True by apply not_elem_of_empty. by rewrite IH.
Qed.

Lemma first_seen_elem_of (hit : string * pydict) (l : list (string * pydict)) :
  hit ∈ first_seen l -> hit ∈ l.
Proof.
  induction l as [|x l IH]; [done|]. cbn [first_seen].
  rewrite !elem_of_cons, list_elem_of_filter. intros [->|[_ Hin]]; auto.
Qed.

Lemma first_seen_hashes (h : string) (l : list (string * pydict)) :
  h ∈ (hit_hash <$> l) -> h ∈ (hit_hash <$> first_seen l).
Proof.
  induction l as [|x l IH]; [done|]. cbn [first_seen].
  rewrite !fmap_cons, !elem_of_cons. intros [->|Hin]; [by left|].
  destruct (decide (h = hit_hash x)) as [->|Hne]; [by left|]. right.
  apply list_elem_of_fmap in IH as (y & -> & Hy); [|done].
  apply list_elem_of_fmap. exists y. split; [done|].
  apply list_elem_of_filter. by split.
Qed.

Lemma first_seen_NoDup (l : list (string * pydict)) :
  NoDup (hit_hash <$> first_seen l).
Proof.
  induction l as [|x l IH]; [constructor|]. cbn [first_seen].
  rewrite fmap_cons. constructor.
  - rewrite list_elem_of_fmap. intros (y & Hy & Hin).
    apply list_elem_of_filter in Hin as [Hne _]. congruence.
  - eapply sublist_NoDup; [exact IH|]. apply fmap_sublist, sublist_filter.
Qed.

(** The first result with a given key. *)
Lemma first_occurrence (h : string) (l : list (string * pydict)) :
  h ∈ (hit_hash <$> l) ->
  exists pre hit post,
    l = pre ++ hit :: post /\ hit_hash hit = h /\ h ∉ (hit_hash <$> pre).
Proof.
  induction l as [|x l IH]; [by rewrite fmap_nil, elem_of_nil|].
  rewrite fmap_cons, elem_of_cons. intros Hin.
  destruct (decide (hit_hash x = h)) as [Hx|Hx].
  - exists [], x, l. split; [done|]. split; [done|]. apply not_elem_of_nil.
  - destruct Hin as [->|Hin]; [done|].
    destruct (IH Hin) as (pre & hit & post & -> & Hh & Hpre).
    exists (x :: pre), hit, post. split; [done|]. split; [done|].
    rewrite fmap_cons, not_elem_of_cons. split; [congruence | done].
Qed.

Lemma successful_hits_elem_of (results : list (string * search_outcome))
    (p : string) (r : pydict) :
  (p, r) ∈ successful_hits results <->
  exists o, (p, o) ∈ results /\ so_status o = "success" /\ r ∈ so_results o.
Proof.
  unfold successful_hits. rewrite list_elem_of_join. split.
  - intros (l & Hin & Hl). apply list_elem_of_fmap in Hl as ([p' o] & -> & Hitem).
    cbn [fst snd] in Hin. destruct (String.eqb_spec (so_status o) "success") as [Hs|];
      [|by apply elem_of_nil in Hin].
    apply list_elem_of_fmap in Hin as (r' & [= -> ->] & Hr). by exists o.
  - intros (o & Hitem & Hs & Hr). eexists. split.
    2:{ apply list_elem_of_fmap. exists (p, o). split; [reflexivity | done]. }
    cbn [fst snd]. rewrite Hs. cbn. apply list_elem_of_fmap. by exists r.
Qed.

Lemma successful_hits_filter (results : list (string * search_outcome)) :
  successful_hits
    (filter (fun item : string * search_outcome => so_status item.2 = "success") results)
  = successful_hits results.
Proof.
  induction results as [|[p o] results IH]; [done|].
  rewrite filter_cons. cbn [snd]. rewrite successful_hits_cons.
  destruct (decide (so_status o = "success")) as [Hs|Hs].
  - by rewrite successful_hits_cons, IH.
  - destruct (String.eqb_spec (so_status o) "success"); [done|]. by rewrite IH.
Qed.

Lemma content_str_merged_entry (hit : string * pydict) :
  content_str (merged_entry hit) = content_str hit.2.
Proof.
  unfold content_str, merged_entry, result_with_source, dict_get_default.
  by rewrite !dict_get_set_ne.
Qed.

Lemma has_hash_merged_entry (h : string) (hit : string * pydict) :
  has_hash h (merged_entry hit) = true <-> hit_hash hit = h.
Proof.
  unfold has_hash, merged_entry, result_with_source.
  rewrite dict_get_set_eq. apply String.eqb_eq.
Qed.

(** C10. The merger takes results only from the providers whose status
    is [success]: every entry of its output is a result of such a
    provider with [source_provider] and [content_hash] set, and the
    output is the same with every other provider left out of the input.
    Every entry carries as [content_hash] the SHA-256 hex digest of its
    content string, and no two entries have the same [content_hash]. *)
Theorem merge_takes_successful_only (results : list (string * search_outcome)) :
  (forall e, e ∈ _merge_search_results results ->
     exists p o r,
       (p, o) ∈ results /\ so_status o = "success" /\ r ∈ so_results o /\
       e = result_with_source r p (sha256_hexdigest (content_str r))) /\
  _merge_search_results results
  = _merge_search_results
      (filter (fun item : string * search_outcome => so_status item.2 = "success")
         results) /\
  (forall e, e ∈ _merge_search_results results ->
     dict_get "content_hash" e = Some (VStr (sha256_hexdigest (content_str e)))) /\
  NoDup (dict_get "content_hash" <$> _merge_search_results results).
Proof.
  rewrite !merge_is_first_seen, successful_hits_filter.
  split; [|split; [done|split]].
  - intros e (hit & -> & Hin)%list_elem_of_fmap.
    apply first_seen_elem_of in Hin. destruct hit as [p r].
    apply successful_hits_elem_of in Hin as (o & Ho & Hs & Hr).
    by exists p, o, r.
  - intros e (hit & -> & Hin)%list_elem_of_fmap.
    rewrite content_str_merged_entry. apply dict_get_set_eq.
  - rewrite <- list_fmap_compose.
    apply (NoDup_fmap_1 (fun o : option pyval =>
             match o with Some (VStr h) => h | _ => "" end)).
    rewrite <- list_fmap_compose.
    erewrite list_fmap_ext; [apply first_seen_NoDup|].
    intros i hit _. cbn. unfold merged_entry, result_with_source.
    by rewrite dict_get_set_eq.
Qed.

End Merger.



(** *** The merger on replies of any shape *)

Lemma successful_hits_any_cons (item : string * pydict)
    (results : list (string * pydict)) :
  successful_hits_any (item :: results)
  = ((fun r => (item.1, r)) <$> dicts_of (default [] (provider_hits item.2)))
    ++ successful_hits_any results.
Proof. reflexivity. Qed.

Section MergerAny.
Context `{PyLib}.

(** The inner loop returns exactly on values it can take, and then does
    what the loop over their dictionaries does. *)
Lemma merge_results_any_returns (provider : string) (l : list pyval)
    (acc : list pydict * gset string) :
  forallb mergeable_hit l = true ->
  merge_results_any provider acc l
  = Returns (foldl (merge_result provider) acc (dicts_of l)).
Proof.
  revert acc. induction l as [|v l IH]; intros acc; [done|].
  cbn [forallb]. intros [Hv Hl]%andb_true_iff.
  cbn [merge_results_any]. destruct v as [| | | | |?|d]; try done.
  cbn [mergeable_hit] in Hv. unfold merge_result_any. rewrite Hv.
  cbn [py_bind]. rewrite (IH _ Hl). reflexivity.
Qed.

Lemma merge_results_any_raises (provider : string) (l : list pyval)
    (acc : list pydict * gset string) :
  forallb mergeable_hit l = false ->
  exists e, merge_results_any provider acc l = Raises e.
Proof.
  revert acc. induction l as [|v l IH]; intros acc; [done|].
  cbn [forallb merge_results_any]. intros Hl.
  destruct v as [| | | | |?|d]; try (by eexists).
  cbn [mergeable_hit] in Hl. unfold merge_result_any.
  destruct (encodable (content_str d)); [|by eexists].
  cbn [py_bind]. by apply IH.
Qed.

Lemma merge_provider_any_returns (item : string * pydict)
    (acc : list pydict * gset string) :
  mergeable item = true ->
  merge_provider_any acc item
  = Returns (foldl (merge_result item.1) acc
               (dicts_of (default [] (provider_hits item.2)))).
Proof.
  unfold mergeable, provider_hits, merge_provider_any.
  destruct (py_eq _ _); [|done].
  destruct (py_iter _) as [l|e]; [|done]. cbn [py_bind default].
  apply merge_results_any_returns.
Qed.

Lemma merge_provider_any_raises (item : string * pydict)
    (acc : list pydict * gset string) :
  mergeable item = false ->
  exists e, merge_provider_any acc item = Raises e.
Proof.
  unfold mergeable, provider_hits, merge_provider_any.
  destruct (py_eq _ _); [|done].
  destruct (py_iter _) as [l|e]; [|by eexists]. cbn [py_bind].
  apply merge_results_any_raises.
Qed.

Lemma merge_providers_any_returns (results : list (string * pydict))
    (acc : list pydict * gset string) :
  forallb mergeable results = true ->
  merge_providers_any acc results
  = Returns (foldl (fun acc hit => merge_result hit.1 acc hit.2) acc
               (successful_hits_any results)).
Proof.
  revert acc. induction results as [|item results IH]; intros acc; [done|].
  cbn [forallb]. intros [Hitem Hrest]%andb_true_iff.
  cbn [merge_providers_any]. rewrite (merge_provider_any_returns _ _ Hitem).
  cbn [py_bind]. rewrite (IH _ Hrest), successful_hits_any_cons, foldl_app.
  by rewrite foldl_fmap.
Qed.

Lemma merge_providers_any_raises (results : list (string * pydict))
    (acc : list pydict * gset string) :
  forallb mergeable results = false ->
  exists e, merge_providers_any acc results = Raises e.
Proof.
  revert acc. induction results as [|item results IH]; intros acc; [done|].
  cbn [forallb merge_providers_any]. intros Hl.
  destruct (mergeable item) eqn:Hitem.
  - rewrite (merge_provider_any_returns _ _ Hitem). cbn [py_bind]. by apply IH.
  - destruct (merge_provider_any_raises item acc Hitem) as (e & ->). by exists e.
Qed.

(** On dictionaries it can go through, the merger keeps the first seen
    of each key among the dictionaries of the successful providers. *)
Lemma merge_any_is_first_seen (results : list (string * pydict)) :
  forallb mergeable results = true ->
  _merge_search_results_any results
  = Returns (merged_entry <$> first_seen (successful_hits_any results)).
Proof.
  intros Hok. unfold _merge_search_results_any.
  rewrite (merge_providers_any_returns _ _ Hok). cbn [py_bind].
  rewrite merge_loop_spec. cbn [app]. do 3 f_equal.
  induction (successful_hits_any results) as [|hit l IH]; [done|].
  rewrite filter_cons, decide_True by apply not_elem_of_empty. by rewrite IH.
Qed.

Lemma merge_any_raises (results : list (string * pydict)) :
  forallb mergeable results = false ->
  exists e, _merge_search_results_any results = Raises e.
Proof.
  intros Hno. unfold _merge_search_results_any.
  destruct (merge_providers_any_raises results ([], ∅) Hno) as (e & ->).
  by exists e.
Qed.
End MergerAny.

(** *** The two mergers agree

    On the dictionaries of outcomes whose results are JSON objects with
    a content that can be encoded, the merger on replies of any shape
    returns what [_merge_search_results] computes. *)

Lemma dicts_of_fmap (l : list pydict) : dicts_of (VDict <$> l) = l.
Proof.
  unfold dicts_of. induction l as [|d l IH]; [done|].
  rewrite fmap_cons. cbn [omap list_omap]. by rewrite IH.
Qed.

Lemma provider_hits_outcome_dict (o : search_outcome) :
  provider_hits (outcome_dict o)
  = Some (if String.eqb (so_status o) "success" then VDict <$> so_results o else []).
Proof.
  unfold provider_hits, outcome_dict, dict_get_default.
  cbn [app dict_get String.eqb Ascii.eqb Bool.eqb]. rewrite py_eq_str.
  destruct (String.eqb (so_status o) "success"); [|done].
  by destruct (so_error o).
Qed.

Section MergersAgree.
Context `{PyLib}.

Lemma successful_hits_any_outcome_dict (results : list (string * search_outcome)) :
  successful_hits_any (prod_map id outcome_dict <$> results) = successful_hits results.
Proof.
  induction results as [|[p o] results IH]; [done|].
  rewrite fmap_cons, successful_hits_any_cons, successful_hits_cons, IH. f_equal.
  cbn [prod_map fst snd id]. rewrite provider_hits_outcome_dict. cbn [default].
  destruct (String.eqb (so_status o) "success"); [|done].
  unfold id. by rewrite dicts_of_fmap.
Qed.

Lemma merge_any_of_outcomes (results : list (string * search_outcome)) :
  Forall (fun item : string * search_outcome =>
            so_status item.2 = "success" ->
            Forall (fun r => encodable (content_str r) = true) (so_results item.2))
    results ->
  _merge_search_results_any (prod_map id outcome_dict <$> results)
  = Returns (_merge_search_results results).
Proof.
  intros Hall. rewrite merge_any_is_first_seen.
  - by rewrite successful_hits_any_outcome_dict, merge_is_first_seen.
  - induction Hall as [|[p o] results Ho _ IH]; [done|].
    rewrite fmap_cons. cbn [forallb]. rewrite IH, andb_true_r.
    unfold mergeable. cbn [prod_map fst snd id]. rewrite provider_hits_outcome_dict.
    destruct (String.eqb_spec (so_status o) "success") as [Hs|]; [|done].
    specialize (Ho Hs). cbn [snd] in Ho.
    induction Ho as [|r l Hr _ IHl]; [done|].
    rewrite fmap_cons. cbn [forallb mergeable_hit]. by rewrite Hr, IHl.
Qed.
End MergersAgree.

(** ** Federation engine *)

Section Federation.
Context `{PyLib}.

Lemma store_mem0_returns (env : store_env) (content : string) (md : MemoryMetadata) :
  exists o, _store_mem0 env content md = Returns o /\ store_outcome_shape o.
Proof.
  unfold _store_mem0.
  destruct (se_mem0_add env content (md_case_id md) (mem0_metadata md)) as [res|e];
    cbn [py_bind try_except]; [|eexists; split; [reflexivity | by right]].
  destruct res; cbn [py_get py_bind try_except];
    eexists; (split; [reflexivity|]); first [by left | by right].
Qed.

(** The payload [_store_supermemory] hands to [store_memory] holds the
    [priority] member of the metadata, which the JSON encoder refuses. *)
Lemma sm_payload_unserializable (content : string) (md : MemoryMetadata) :
  json_unserializable (VDict (store_payload content (sm_metadata md)))
  = Some (MemoryPriority_str (md_priority md)).
Proof. reflexivity. Qed.

Lemma enum_class_priority (p : MemoryPriority) :
  enum_class (MemoryPriority_str p) = "MemoryPriority".
Proof. by destruct p. Qed.

(** [_store_supermemory] returns a record, and a failed one: with the
    exception of entering the client, or with the [TypeError] of the JSON
    encoder. *)
Lemma store_supermemory_fails (env : store_env) (content : string)
    (md : MemoryMetadata) :
  _store_supermemory env content md
  = Returns [ ("status", VStr "failed");
              ("error",
                VStr match se_sm_enter env with
                     | Returns _ =>
                         "Object of type MemoryPriority is not JSON serializable"
                     | Raises e => exn_str e
                     end);
              ("provider", VStr "supermemory") ].
Proof.
  unfold _store_supermemory, SuperMemoryClient_store_memory, session_post.
  rewrite sm_payload_unserializable, enum_class_priority.
  by destruct (se_sm_enter env) as [[]|e].
Qed.

Lemma store_supermemory_returns (env : store_env) (content : string)
    (md : MemoryMetadata) :
  exists o, _store_supermemory env content md = Returns o /\ store_outcome_shape o.
Proof.
  rewrite store_supermemory_fails. eexists. split; [reflexivity | by right].
Qed.

Lemma not_failed_shape (o : pydict) :
  store_outcome_shape o -> (not_failed o = false <-> outcome_failed o).
Proof.
  unfold not_failed, dict_get_default, outcome_failed.
  intros [Hs|Hf]; [rewrite Hs | rewrite Hf]; cbn; split; congruence.
Qed.

(** No dispatched backend counts as a success exactly when every one of
    them failed. *)
Lemma success_count_zero (results : list (string * pydict)) :
  (forall p o, (p, o) ∈ results -> store_outcome_shape o) ->
  ((0 <? success_count results)%Z = false <->
   forall p o, (p, o) ∈ results -> outcome_failed o).
Proof.
  unfold success_count. induction results as [|[p o] results IH]; intros Hshape.
  - split; [intros _ p o Hin; by apply elem_of_nil in Hin | done].
  - rewrite fmap_cons, filter_cons. cbn [snd].
    assert (store_outcome_shape o) as Ho by (apply (Hshape p); left).
    assert (forall p o, (p, o) ∈ results -> store_outcome_shape o) as Hrest.
    { intros p' o' Hin. apply (Hshape p'). by right. }
    specialize (IH Hrest). destruct (not_failed o) eqn:Hnf.
    + rewrite decide_True by done. split.
      * cbn [length]. intros Hz. apply Z.ltb_ge in Hz. lia.
      * intros Hall. assert (outcome_failed o) as Hf by (apply (Hall p); left).
        apply not_failed_shape in Hf; [congruence | done].
    + rewrite decide_False by congruence. rewrite IH. split.
      * intros Hall p' o' [[= -> ->]|Hin]%elem_of_cons; [|by eapply Hall].
        by apply not_failed_shape.
      * intros Hall p' o' Hin. apply (Hall p'). by right.
Qed.

(** The new entry of a well-formed chain carries its position. *)
Lemma create_audit_entry_index (cid : string) (chain : list pydict) (op : append_op) :
  chain_ok chain ->
  exists e,
    _create_audit_entry cid chain op = Returns (e, chain ++ [e]) /\
    chain_ok (chain ++ [e]) /\
    dict_getitem "chain_index" e = Returns (VInt (Z.of_nat (length chain))).
Proof.
  intros Hok. destruct (create_audit_entry_ok cid chain op Hok) as (e & He & Hok').
  exists e. split; [done|]. split; [done|].
  assert ((chain ++ [e]) !! length chain = Some e) as Hl by (by apply list_lookup_middle).
  destruct (Hok' _ _ Hl) as (_ & Hi & _). unfold dict_getitem. by rewrite Hi.
Qed.

(** What [store_memory_unified] does with a content that can be encoded,
    on an orchestrator whose chain is well formed: it returns, with the
    records of the backends it dispatched to, in the order Mem0 then
    SuperMemory. *)
Lemma store_memory_unified_spec (self : orchestrator) (env : store_env)
    (content : string) (md : MemoryMetadata) (provider : MemoryProvider) :
  chain_ok (audit_chain self) ->
  encodable content = true ->
  exists r self' o1 o2,
    store_memory_unified env content md provider self = (Returns r, self') /\
    _store_mem0 env content (stamp_metadata md (sha256_hexdigest content) (se_now env))
      = Returns o1 /\
    _store_supermemory env content
      (stamp_metadata md (sha256_hexdigest content) (se_now env)) = Returns o2 /\
    st_results r
      = (if dispatches_mem0 provider self then [("mem0", o1)] else [])
        ++ (if dispatches_supermemory provider self then [("supermemory", o2)] else []) /\
    st_status r = (if (0 <? success_count (st_results r))%Z then "success" else "failed") /\
    st_providers_used r = fst <$> st_results r /\
    (forall p o, (p, o) ∈ st_results r -> store_outcome_shape o) /\
    chain_ok (audit_chain self').
Proof.
  intros Hok Henc.
  set (md' := stamp_metadata md (sha256_hexdigest content) (se_now env)).
  destruct (store_mem0_returns env content md') as (o1 & Ho1 & Hs1).
  destruct (store_supermemory_returns env content md') as (o2 & Ho2 & Hs2).
  unfold store_memory_unified, store_memory_unified_body, _create_forensic_hash,
    run_try, run_bind, create_audit_entry, run_get, run_lift, run_ret, run_modify.
  rewrite Henc.
  match goal with |- context [_create_audit_entry ?c ?ch ?op] =>
    destruct (create_audit_entry_index c ch op Hok) as (e & He & Hok' & Hidx) end.
  rewrite He. cbn [set_audit_chain has_mem0 has_supermemory].
  fold md'. unfold dispatches_mem0, dispatches_supermemory.
  rewrite Ho1, Ho2, Hidx.
  destruct ((MemoryProvider_eqb provider ALL || MemoryProvider_eqb provider MEM0)
            && has_mem0 self),
           ((MemoryProvider_eqb provider ALL || MemoryProvider_eqb provider SUPERMEMORY)
            && has_supermemory self);
    cbn [items_set String.eqb Ascii.eqb Bool.eqb app];
    eexists _, _, o1, o2; (split; [reflexivity|]); cbn [st_results st_status st_providers_used];
    (split; [done|]); (split; [done|]); (split; [done|]); (split; [done|]);
    (split; [done|]); (split; [|exact Hok']);
    intros p o Hin; repeat (apply elem_of_cons in Hin as [Heq|Hin]; [by simplify_eq|]);
    by apply elem_of_nil in Hin.
Qed.

(** What [store_memory_unified] does with a content that holds a
    surrogate: the digest of the content raises before anything else is
    done, and the handler counts a failed operation and raises. *)
Lemma store_memory_unified_raises (self : orchestrator) (env : store_env)
    (content : string) (md : MemoryMetadata) (provider : MemoryProvider) :
  encodable content = false ->
  store_memory_unified env content md provider self
  = (Raises (HTTPException 500
       ("Memory storage failed: " ++ encode_error_message content)%string),
     count_failed self).
Proof.
  intros Henc.
  unfold store_memory_unified, store_memory_unified_body, _create_forensic_hash,
    run_try, run_bind, run_lift, run_modify.
  rewrite Henc. reflexivity.
Qed.

Lemma search_mem0_returns (env : search_env) (query cid : string) (limit : Z) :
  exists o, _search_mem0 env query cid limit = Returns o.
Proof.
  unfold _search_mem0.
  destruct (qe_mem0_search env query cid limit) as [res|e]; by eexists.
Qed.

Lemma search_supermemory_returns (env : search_env) (query : string) (limit : Z) :
  exists o, _search_supermemory env query limit = Returns o.
Proof.
  unfold _search_supermemory.
  destruct (qe_sm_enter env) as [[]|e]; cbn [py_bind try_except]; [|by eexists].
  destruct (py_contains "error" _) as [[]|e]; cbn [py_bind try_except negb];
    [| |by eexists].
  - destruct (py_getitem "error" _); by eexists.
  - destruct (py_get "results" _ _); by eexists.
Qed.

(** What [search_memory_unified] does on an orchestrator whose chain is
    well formed: the audit entry and the counter first, then the merge,
    whose exception comes out as an HTTP 500. *)
Lemma search_memory_unified_spec (self : orchestrator) (env : search_env)
    (query : string) (cid : option string) (limit : Z) (provider : MemoryProvider) :
  chain_ok (audit_chain self) ->
  exists e op,
    op_uuid op = qe_audit_uuid env /\
    op_operation op = "search_memory_unified" /\
    op_result op = ResultNone /\
    _create_audit_entry (case_id self) (audit_chain self) op
      = Returns (e, audit_chain self ++ [e]) /\
    chain_ok (audit_chain self ++ [e]) /\
    search_memory_unified env query cid limit provider self
    = (match _merge_search_results_any
               (search_outcomes self env query cid limit provider) with
       | Returns merged =>
           Returns
             (SearchResult "search_memory_unified" query
                (case_id_or cid (case_id self))
                (VInt (Z.of_nat (length (audit_chain self))))
                (fst <$> search_outcomes self env query cid limit provider)
                (search_outcomes self env query cid limit provider)
                (py_slice_to limit merged) (Z.of_nat (length merged))
                (now_iso (qe_now env)))
       | Raises x =>
           Raises (HTTPException 500 ("Memory search failed: " ++ exn_str x)%string)
       end,
       after_search self e).
Proof.
  intros Hok.
  destruct (search_mem0_returns env query (case_id_or cid (case_id self)) limit)
    as (o1 & Ho1).
  destruct (search_supermemory_returns env query limit) as (o2 & Ho2).
  unfold search_outcomes, search_memory_unified, search_memory_unified_body, run_try,
    run_bind, create_audit_entry, run_get, run_lift, run_ret, run_modify.
  match goal with |- context [_create_audit_entry ?c ?ch ?op] =>
    destruct (create_audit_entry_index c ch op Hok) as (e & He & Hok' & Hidx);
    set (the_op := op) in * end.
  exists e, the_op.
  split; [reflexivity|]. split; [reflexivity|]. split; [reflexivity|].
  split; [exact He|]. split; [exact Hok'|].
  rewrite He. unfold dispatches_mem0, dispatches_supermemory.
  rewrite Ho1, Ho2.
  destruct ((MemoryProvider_eqb provider ALL || MemoryProvider_eqb provider MEM0)
            && has_mem0 self),
           ((MemoryProvider_eqb provider ALL || MemoryProvider_eqb provider SUPERMEMORY)
            && has_supermemory self);
    cbn [items_set String.eqb Ascii.eqb Bool.eqb app];
    match goal with |- context [_merge_search_results_any ?l] =>
      destruct (_merge_search_results_any l) as [merged|x] end;
    rewrite ?Hidx; reflexivity.
Qed.

(** The audit chain of an orchestrator is well formed in every state it
    can reach. *)
Lemma reachable_chain_ok (self : orchestrator) :
  reachable self -> chain_ok (audit_chain self).
Proof.
  induction 1 as [cid m s|self env content md provider _ IH
                  |self env query cid limit provider _ IH].
  - apply chain_ok_nil.
  - destruct (encodable content) eqn:Henc.
    + destruct (store_memory_unified_spec self env content md provider IH Henc)
        as (r & self' & o1 & o2 & Hrun & _ & _ & _ & _ & _ & _ & Hok).
      by rewrite Hrun.
    + by rewrite store_memory_unified_raises.
  - destruct (search_memory_unified_spec self env query cid limit provider IH)
      as (e & op & _ & _ & _ & _ & Hok & Hrun).
    by rewrite Hrun.
Qed.
End Federation.

Section FederationClaims.
Context `{PyLib}.

(** Some dispatched backend counts as a success exactly when one of the
    records says [success]. *)
Lemma success_count_pos (results : list (string * pydict)) :
  (forall p o, (p, o) ∈ results -> store_outcome_shape o) ->
  ((0 <? success_count results)%Z = true <->
   exists p o, (p, o) ∈ results /\ dict_get "status" o = Some (VStr "success")).
Proof.
  unfold success_count. induction results as [|[p o] results IH]; intros Hshape.
  - split; [done|]. intros (p & o & Hin & _). by apply elem_of_nil in Hin.
  - rewrite fmap_cons, filter_cons. cbn [snd].
    assert (store_outcome_shape o) as Ho by (apply (Hshape p); left).
    assert (forall p o, (p, o) ∈ results -> store_outcome_shape o) as Hrest.
    { intros p' o' Hin. apply (Hshape p'). by right. }
    specialize (IH Hrest). destruct (not_failed o) eqn:Hnf.
    + rewrite decide_True by done. split.
      * intros _. exists p, o. split; [left|].
        destruct Ho as [Hs|Hf]; [done|].
        apply not_failed_shape in Hf; [congruence | by right].
      * intros _. cbn [length]. apply Z.ltb_lt. lia.
    + rewrite decide_False by congruence. rewrite IH. split.
      * intros (p' & o' & Hin & Hs). exists p', o'. split; [by right | done].
      * intros (p' & o' & [[= -> ->]|Hin]%elem_of_cons & Hs); [|by exists p', o'].
        unfold not_failed, dict_get_default in Hnf. rewrite Hs in Hnf. done.
Qed.

(** C3, as the code has it. A store on a reachable orchestrator of a
    content that can be encoded returns, and its aggregate status is
    [success] or [failed], never [partial]: [success] exactly when the
    record of at least one dispatched backend says [success], [failed]
    exactly when every dispatched backend failed (also when none was
    dispatched). When both backends are dispatched, the results hold the
    records of both, Mem0 first, and the record of SuperMemory is a failed
    one; if one of them failed and the other succeeded, the status is
    [success] and the succeeding backend's record is among the results.
    A content that holds a surrogate reaches no backend: the call raises
    an HTTP 500 and counts a failed operation. *)
Theorem store_status_success_or_failed (self : orchestrator) (env : store_env)
    (content : string) (md : MemoryMetadata) (provider : MemoryProvider) :
  reachable self ->
  (encodable content = false ->
   store_memory_unified env content md provider self
   = (Raises (HTTPException 500
        ("Memory storage failed: " ++ encode_error_message content)%string),
      count_failed self)) /\
  (encodable content = true ->
   exists r self',
     store_memory_unified env content md provider self = (Returns r, self') /\
     (st_status r = "success" \/ st_status r = "failed") /\
     (st_status r = "success" <->
      exists p o, (p, o) ∈ st_results r /\
                  dict_get "status" o = Some (VStr "success")) /\
     (st_status r = "failed" <->
      forall p o, (p, o) ∈ st_results r -> outcome_failed o) /\
     (dispatches_mem0 provider self = true ->
      dispatches_supermemory provider self = true ->
      exists o1 o2,
        _store_mem0 env content
          (stamp_metadata md (sha256_hexdigest content) (se_now env)) = Returns o1 /\
        _store_supermemory env content
          (stamp_metadata md (sha256_hexdigest content) (se_now env)) = Returns o2 /\
        st_results r = [("mem0", o1); ("supermemory", o2)] /\
        outcome_failed o2 /\
        (outcome_failed o1 /\ dict_get "status" o2 = Some (VStr "success") \/
         dict_get "status" o1 = Some (VStr "success") /\ outcome_failed o2 ->
         st_status r = "success"))).
Proof.
  intros Hreach. apply reachable_chain_ok in Hreach.
  split; [apply store_memory_unified_raises|]. intros Henc.
  destruct (store_memory_unified_spec self env content md provider Hreach Henc)
    as (r & self' & o1 & o2 & Hrun & Ho1 & Ho2 & Hres & Hst & _ & Hshape & _).
  assert (outcome_failed o2) as Hfail2.
  { rewrite store_supermemory_fails in Ho2. by injection Ho2 as <-. }
  exists r, self'. split; [done|].
  pose proof (success_count_pos _ Hshape) as Hpos.
  pose proof (success_count_zero _ Hshape) as Hzero.
  rewrite Hst. destruct (0 <? success_count (st_results r))%Z.
  - split; [by left|]. split; [by rewrite <- Hpos|]. split.
    + split; [done|]. intros Hall. by apply Hzero in Hall.
    + intros Hd1 Hd2. exists o1, o2. rewrite Hres, Hd1, Hd2. done.
  - split; [by right|]. split.
    + rewrite <- Hpos. done.
    + split; [by rewrite <- Hzero|].
      intros Hd1 Hd2. exists o1, o2. rewrite Hres, Hd1, Hd2.
      split; [done|]. split; [done|]. split; [done|]. split; [done|].
      intros Hmixed. assert (false = true) as Habs; [|done].
      apply Hpos. rewrite Hres, Hd1, Hd2.
      destruct Hmixed as [[_ Hs]|[Hs _]].
      * exists "supermemory", o2. split; [|done]. apply list_elem_of_further, list_elem_of_here.
      * exists "mem0", o1. split; [|done]. apply list_elem_of_here.
Qed.

Lemma take_min_length {A : Type} (limit : Z) (l : list A) :
  (0 <= limit)%Z ->
  take (Z.to_nat (Z.min limit (Z.of_nat (length l)))) l = py_slice_to limit l.
Proof.
  intros Hlimit. unfold py_slice_to.
  destruct (Z.leb_spec 0 limit) as [_|]; [|lia].
  destruct (decide (limit <= Z.of_nat (length l))%Z) as [Hle|Hgt].
  - by rewrite Z.min_l.
  - rewrite Z.min_r by lia. rewrite Nat2Z.id.
    rewrite firstn_all. symmetry. apply take_ge. lia.
Qed.

(** C8, as the code has it. A search on a reachable orchestrator hands
    the caller's [limit] to every backend it dispatches to: Mem0's
    [search] and the parameters of SuperMemory's request carry it, and
    what they answer is what enters the merge, a list from Mem0 as it
    is, the [results] of SuperMemory's reply as they are. When the merger
    can go through these per-backend dictionaries, the call returns:
    [total_found] is the number of entries of their deduplicated merge,
    the first seen of each content hash in the order Mem0 then
    SuperMemory, and [merged_results] is [merged[:limit]] of it, its
    first [min(limit, total_found)] entries when the limit is not
    negative. When it cannot, the call raises an HTTP 500, after the
    audit entry and the counter. So the cut to [limit] comes after the
    merge, of lists the backends have cut to [limit] before it. *)
Theorem search_merges_what_limit_returned (self : orchestrator) (env : search_env)
    (query : string) (cid : option string) (limit : Z) (provider : MemoryProvider) :
  reachable self ->
  exists o1 o2 e,
    _search_mem0 env query (case_id_or cid (case_id self)) limit = Returns o1 /\
    _search_supermemory env query limit = Returns o2 /\
    (forall hits,
       qe_mem0_search env query (case_id_or cid (case_id self)) limit
         = Returns (VList hits) ->
       o1 = [ ("status", VStr "success"); ("results", VList hits);
              ("provider", VStr "mem0") ]) /\
    (forall reply,
       qe_sm_enter env = Returns tt ->
       qe_sm_get env [ ("query", VStr query); ("limit", VInt limit);
                       ("tenant_id", VStr tenant_id) ] = Returns (VDict reply) ->
       dict_mem "error" reply = false ->
       o2 = [ ("status", VStr "success");
              ("results", dict_get_default "results" (VList []) reply);
              ("provider", VStr "supermemory") ]) /\
    let outcomes :=
      (if dispatches_mem0 provider self then [("mem0", o1)] else [])
      ++ (if dispatches_supermemory provider self then [("supermemory", o2)] else []) in
    let merged := merged_entry <$> first_seen (successful_hits_any outcomes) in
    if forallb mergeable outcomes
    then
      exists r,
        search_memory_unified env query cid limit provider self
          = (Returns r, after_search self e) /\
        sr_results_by_provider r = outcomes /\
        sr_total_found r = Z.of_nat (length merged) /\
        sr_merged_results r = py_slice_to limit merged /\
        ((0 <= limit)%Z ->
         sr_merged_results r = take (Z.to_nat (Z.min limit (sr_total_found r))) merged)
    else
      exists x,
        search_memory_unified env query cid limit provider self
        = (Raises (HTTPException 500 ("Memory search failed: " ++ exn_str x)%string),
           after_search self e).
Proof.
  intros Hreach. apply reachable_chain_ok in Hreach.
  destruct (search_mem0_returns env query (case_id_or cid (case_id self)) limit)
    as (o1 & Ho1).
  destruct (search_supermemory_returns env query limit) as (o2 & Ho2).
  destruct (search_memory_unified_spec self env query cid limit provider Hreach)
    as (e & op & _ & _ & _ & _ & _ & Hrun).
  exists o1, o2, e. split; [done|]. split; [done|]. split; [|split].
  - intros hits Hreply. unfold _search_mem0 in Ho1. rewrite Hreply in Ho1.
    by injection Ho1 as <-.
  - intros reply Henter Hget Herr.
    unfold _search_supermemory, SuperMemoryClient_search_memory, search_params in Ho2.
    rewrite Henter, Hget in Ho2. cbn [py_bind py_contains py_get] in Ho2.
    rewrite Herr in Ho2. by injection Ho2 as <-.
  - unfold search_outcomes in Hrun. rewrite Ho1, Ho2 in Hrun. cbv zeta.
    destruct (forallb mergeable _) eqn:Hok.
    + rewrite (merge_any_is_first_seen _ Hok) in Hrun.
      eexists. split; [exact Hrun|].
      cbn [sr_results_by_provider sr_total_found sr_merged_results].
      split; [done|]. split; [done|]. split; [done|].
      intros Hlimit. symmetry. by apply take_min_length.
    + destruct (merge_any_raises _ Hok) as (x & Hx). rewrite Hx in Hrun.
      by exists x.
Qed.
End FederationClaims.

(** [store_status_success_or_failed] on a new orchestrator with both
    providers, Mem0 storing the record. *)
Lemma store_status_success_or_failed_witness :
  exists r self',
    @store_memory_unified sample_lib sample_store_env "evidence-17"
      sample_metadata ALL (initial_orchestrator sample_case true true)
    = (Returns r, self') /\
    (st_status r = "success" \/ st_status r = "failed").
Proof.
  destruct (proj2 (@store_status_success_or_failed sample_lib
                     (initial_orchestrator sample_case true true) sample_store_env
                     "evidence-17" sample_metadata ALL
                     (@reachable_init sample_lib sample_case true true)) eq_refl)
    as (r & self' & Hrun & Hstatus & _).
  exists r, self'. split; [exact Hrun | exact Hstatus].
Defined.

(** C3 fails as stated: Mem0's store succeeds, SuperMemory's fails, and
    the aggregate status is [success], not [partial]; the results hold
    the record of Mem0 and the failed record of SuperMemory. *)
Lemma store_mixed_outcome_is_success :
  exists r self',
    @store_memory_unified sample_lib sample_store_env "evidence-17"
      sample_metadata ALL (initial_orchestrator sample_case true true)
    = (Returns r, self') /\
    st_status r = "success" /\ st_status r <> "partial" /\
    st_providers_used r = ["mem0"; "supermemory"] /\
    st_results r
    = [ ("mem0", [ ("status", VStr "success"); ("id", VStr "m1");
                   ("provider", VStr "mem0") ]);
        ("supermemory",
          [ ("status", VStr "failed");
            ("error", VStr "Object of type MemoryPriority is not JSON serializable");
            ("provider", VStr "supermemory") ]) ].
Proof.
  eexists _, _. split; [vm_compute; reflexivity|].
  cbn [st_status st_providers_used st_results]. repeat split. discriminate.
Qed.

(** Both backends failing: Mem0 times out, and the status is [failed]. *)
Example store_all_failed :
  exists r self',
    @store_memory_unified sample_lib failing_store_env "evidence-17"
      sample_metadata ALL (initial_orchestrator sample_case true true)
    = (Returns r, self') /\
    st_status r = "failed" /\
    st_results r
    = [ ("mem0", [ ("status", VStr "failed"); ("error", VStr "timed out");
                   ("provider", VStr "mem0") ]);
        ("supermemory",
          [ ("status", VStr "failed");
            ("error", VStr "Object of type MemoryPriority is not JSON serializable");
            ("provider", VStr "supermemory") ]) ].
Proof. eexists _, _. split; [vm_compute; reflexivity|]. by split. Qed.

(** C4 at the input where the code leaves it. Mem0 answers the search
    with [evidence-17] and SuperMemory with the body [{"results": null}]:
    both per-backend records say [success], no backend call raised, and
    [search_memory_unified] raises an HTTP 500, because the merger
    iterates over the [None] that [_search_supermemory] passed on. The
    audit entry is written and the search is counted. *)
Lemma search_fails_on_null_results :
  _search_mem0 null_results_search_env "evidence" sample_case 10
  = Returns [ ("status", VStr "success");
              ("results", VList [VDict [("content", VStr "evidence-17")]]);
              ("provider", VStr "mem0") ] /\
  _search_supermemory null_results_search_env "evidence" 10
  = Returns [ ("status", VStr "success"); ("results", VNone);
              ("provider", VStr "supermemory") ] /\
  exists self',
    @search_memory_unified sample_lib null_results_search_env "evidence" None 10 ALL
      (initial_orchestrator sample_case true true)
    = (Raises (HTTPException 500
         "Memory search failed: 'NoneType' object is not iterable"), self') /\
    length (audit_chain self') = 1%nat /\
    search_queries (o_metrics self') = 1%Z.
Proof.
  split; [reflexivity|]. split; [reflexivity|].
  eexists. split; [vm_compute; reflexivity|]. by split.
Qed.

(** [search_merges_what_limit_returned] on a new orchestrator, with the
    sample backends and limit 10. *)
Lemma search_merges_what_limit_returned_witness :
  exists r self',
    @search_memory_unified sample_lib sample_search_env "evidence" None 10 ALL
      (initial_orchestrator sample_case true true)
    = (Returns r, self') /\
    sr_total_found r = 2%Z /\
    (dict_get "content" <$> sr_merged_results r)
    = [Some (VStr "evidence-17"); Some (VStr "evidence-22")].
Proof.
  destruct (@search_merges_what_limit_returned sample_lib
              (initial_orchestrator sample_case true true) sample_search_env
              "evidence" None 10 ALL
              (@reachable_init sample_lib sample_case true true))
    as (o1 & o2 & e & Ho1 & Ho2 & _ & _ & Hrun).
  injection Ho1 as <-. injection Ho2 as <-.
  destruct Hrun as (r & Hrun & _ & Htotal & Hmerged & _).
  exists r, (after_search (initial_orchestrator sample_case true true) e).
  split; [exact Hrun|]. split; [exact Htotal|].
  rewrite Hmerged. reflexivity.
Defined.

(** C8 fails as stated: a Mem0 backend holds [evidence-17] under two ids,
    then [evidence-22] and [evidence-31], and answers with the first
    [limit] of them. The deduplicated merge of what it holds has three
    entries, which a search with limit 10 returns. A search with limit 2
    gets the two copies of [evidence-17] and returns one entry with
    [total_found] 1, not the first two entries of the full merge. *)
Lemma search_cuts_before_merge :
  exists r2 self2 r10 self10,
    @search_memory_unified sample_lib limited_search_env "evidence" None 2 ALL
      (initial_orchestrator sample_case true true) = (Returns r2, self2) /\
    @search_memory_unified sample_lib limited_search_env "evidence" None 10 ALL
      (initial_orchestrator sample_case true true) = (Returns r10, self10) /\
    @_merge_search_results_any sample_lib
      [ ("mem0", [ ("status", VStr "success"); ("results", VList held_hits);
                   ("provider", VStr "mem0") ]);
        ("supermemory", [ ("status", VStr "success"); ("results", VList []);
                          ("provider", VStr "supermemory") ]) ]
    = Returns (sr_merged_results r10) /\
    (dict_get "content" <$> sr_merged_results r10)
    = [Some (VStr "evidence-17"); Some (VStr "evidence-22"); Some (VStr "evidence-31")] /\
    sr_total_found r10 = 3%Z /\
    (dict_get "content" <$> sr_merged_results r2) = [Some (VStr "evidence-17")] /\
    sr_total_found r2 = 1%Z /\
    sr_merged_results r2 <> take 2 (sr_merged_results r10).
Proof.
  eexists _, _, _, _. split; [vm_compute; reflexivity|].
  split; [vm_compute; reflexivity|].
  cbn [sr_merged_results sr_total_found].
  split; [vm_compute; reflexivity|].
  split; [reflexivity|]. split; [reflexivity|]. split; [reflexivity|].
  split; [reflexivity|]. discriminate.
Qed.

(** The sample search, run: two merged entries out of three results, and
    one of them when the limit is 1. *)
Example search_sample_run :
  (sr_merged_results <$>
     match (@search_memory_unified sample_lib sample_search_env "evidence" None 10 ALL
              (initial_orchestrator sample_case true true)).1 with
     | Returns r => Some r
     | Raises _ => None
     end)
  = Some [ [ ("content", VStr "evidence-17"); ("source_provider", VStr "mem0");
             ("content_hash", VStr "sha256<evidence-17>") ];
           [ ("content", VStr "evidence-22"); ("source_provider", VStr "supermemory");
             ("content_hash", VStr "sha256<evidence-22>") ] ] /\
  (sr_merged_results <$>
     match (@search_memory_unified sample_lib sample_search_env "evidence" None 1 ALL
              (initial_orchestrator sample_case true true)).1 with
     | Returns r => Some r
     | Raises _ => None
     end)
  = Some [ [ ("content", VStr "evidence-17"); ("source_provider", VStr "mem0");
             ("content_hash", VStr "sha256<evidence-17>") ] ].
Proof. split; vm_compute; reflexivity. Qed.

(** [merged[:limit]] as Python slices: a limit beyond the length keeps
    everything, and a negative limit, which the API refuses, would count
    from the end. *)
Example slice_limits :
  py_slice_to 5 [1; 2; 3]%Z = [1; 2; 3]%Z /\
  py_slice_to 2 [1; 2; 3]%Z = [1; 2]%Z /\
  py_slice_to 0 [1; 2; 3]%Z = [] /\
  py_slice_to (-1) [1; 2; 3]%Z = [1; 2]%Z.
Proof. repeat split. Qed.

(** ** Backend adapters *)

Lemma memories_get_set_eq (k : string) (v : pydict) (m : memories) :
  memories_get (VStr k) (memories_set (VStr k) v m) = Some v.
Proof.
  induction m as [|[k0 v0] m IH]; cbn [memories_set memories_get].
  - by rewrite py_eq_str_refl.
  - destruct (py_eq (VStr k) k0) eqn:E; cbn [memories_get]; rewrite E; [done | exact IH].
Qed.

(** What a mock client holds of a write stored under [record_id]. *)
Lemma mock_client_add_stores (m : memories) (fresh now content record_id : string)
    (metadata : pydict) :
  memories_get (VStr record_id)
    (mock_client_add m fresh now content (dict_set "id" (VStr record_id) metadata)).2
  = Some [ ("id", VStr record_id);
           ("content", VStr content);
           ("metadata", VDict (dict_set "id" (VStr record_id) metadata));
           ("timestamp", VStr now) ].
Proof.
  unfold mock_client_add, dict_get_default. rewrite dict_get_set_eq.
  cbn [snd]. apply memories_get_set_eq.
Qed.

(** C6, as the code has it. Each adapter's [store] draws its own
    [uuid4] and uses it as the record id: the id of the [MemoryRecord] it
    returns and the id under which its client (and Mem0's secondary
    client, when there is one) holds the write are that draw, whatever
    [id] the caller put in the metadata, which stays untouched in the
    record's metadata. So the same logical write stored through the Mem0
    and the SuperMemory adapter gets the same id on both only if the two
    draws coincide. *)
Theorem adapter_store_draws_own_id (m0 : Mem0Adapter) (sm : SuperMemoryAdapter)
    (env0 env1 : adapter_env) (content : string) (metadata : pydict)
    (primary client : memories) :
  m0_is_initialized m0 = true -> m0_client m0 = Some primary ->
  sm_is_initialized sm = true -> sm_client sm = Some client ->
  exists rec0 m0' primary' rec1 sm' client',
    Mem0Adapter_store m0 env0 content metadata = Returns (rec0, m0') /\
    SuperMemoryAdapter_store sm env1 content metadata = Returns (rec1, sm') /\
    mr_id rec0 = ae_uuid env0 /\ mr_id rec1 = ae_uuid env1 /\
    mr_metadata rec0 = metadata /\ mr_metadata rec1 = metadata /\
    m0_client m0' = Some primary' /\ sm_client sm' = Some client' /\
    (exists held, memories_get (VStr (ae_uuid env0)) primary' = Some held /\
                  dict_get "id" held = Some (VStr (ae_uuid env0))) /\
    (forall secondary, m0_client_secondary m0 = Some secondary ->
       exists secondary' held,
         m0_client_secondary m0' = Some secondary' /\
         memories_get (VStr (ae_uuid env0)) secondary' = Some held /\
         dict_get "id" held = Some (VStr (ae_uuid env0))) /\
    (exists held, memories_get (VStr (ae_uuid env1)) client' = Some held /\
                  dict_get "id" held = Some (VStr (ae_uuid env1))) /\
    (mr_id rec0 = mr_id rec1 <-> ae_uuid env0 = ae_uuid env1).
Proof.
  intros Hi0 Hc0 Hi1 Hc1.
  unfold Mem0Adapter_store, SuperMemoryAdapter_store.
  rewrite Hi0, Hc0, Hi1, Hc1. cbn [negb].
  destruct (mock_client_add primary _ _ _ _) as [res0 primary'] eqn:Hadd0.
  destruct (mock_client_add client _ _ _ _) as [res1 client'] eqn:Hadd1.
  eexists _, _, primary', _, _, client'.
  split; [reflexivity|]. split; [reflexivity|]. cbn [mr_id mr_metadata m0_client
    sm_client m0_client_secondary].
  split; [done|]. split; [done|]. split; [done|]. split; [done|].
  split; [done|]. split; [done|]. split; [|split; [|split]].
  - eexists. split.
    + replace primary' with
        (mock_client_add primary (ae_client_uuid env0) (ae_client_now env0) content
           (dict_set "id" (VStr (ae_uuid env0)) metadata)).2 by by rewrite Hadd0.
      apply mock_client_add_stores.
    + reflexivity.
  - intros secondary ->. eexists _, _. split; [reflexivity|].
    split; [apply mock_client_add_stores | reflexivity].
  - eexists. split.
    + replace client' with
        (mock_client_add client (ae_client_uuid env1) (ae_client_now env1) content
           (dict_set "id" (VStr (ae_uuid env1)) metadata)).2 by by rewrite Hadd1.
      apply mock_client_add_stores.
    + reflexivity.
  - done.
Qed.

(** [adapter_store_draws_own_id] on two freshly initialised adapters. *)
Lemma adapter_store_draws_own_id_witness :
  exists rec0 m0' rec1 sm',
    Mem0Adapter_store (Mem0Adapter_initialize true)
      (sample_adapter_env "uuid-a") "evidence-17" [("id", VStr "r1")]
      = Returns (rec0, m0') /\
    SuperMemoryAdapter_store SuperMemoryAdapter_initialize
      (sample_adapter_env "uuid-b") "evidence-17" [("id", VStr "r1")]
      = Returns (rec1, sm') /\
    (mr_id rec0 = mr_id rec1 <-> "uuid-a" = "uuid-b").
Proof.
  destruct (adapter_store_draws_own_id (Mem0Adapter_initialize true)
              SuperMemoryAdapter_initialize (sample_adapter_env "uuid-a")
              (sample_adapter_env "uuid-b") "evidence-17" [("id", VStr "r1")] [] []
              eq_refl eq_refl eq_refl eq_refl)
    as (rec0 & m0' & p' & rec1 & sm' & c' & H0 & H1 & _ & _ & _ & _ & _ & _ & _ & _ & _ & Hid).
  exists rec0, m0', rec1, sm'. split; [exact H0|]. split; [exact H1|]. exact Hid.
Defined.

(** C6 fails as stated: the caller stores [evidence-17] through both
    adapters with the id [r1] in the metadata; the Mem0 record gets the
    id [uuid-a] and the SuperMemory record the id [uuid-b], the two draws
    of [uuid4], and neither backend holds anything under [r1]. *)
Lemma adapters_invent_their_ids :
  exists rec0 m0' rec1 sm',
    Mem0Adapter_store (Mem0Adapter_initialize true)
      (sample_adapter_env "uuid-a") "evidence-17" [("id", VStr "r1")]
      = Returns (rec0, m0') /\
    SuperMemoryAdapter_store SuperMemoryAdapter_initialize
      (sample_adapter_env "uuid-b") "evidence-17" [("id", VStr "r1")]
      = Returns (rec1, sm') /\
    mr_id rec0 = "uuid-a" /\ mr_id rec1 = "uuid-b" /\ mr_id rec0 <> mr_id rec1 /\
    stored_ids (m0_client m0') = [VStr "uuid-a"] /\
    stored_ids (m0_client_secondary m0') = [VStr "uuid-a"] /\
    stored_ids (sm_client sm') = [VStr "uuid-b"].
Proof.
  eexists _, _, _, _. split; [reflexivity|]. split; [reflexivity|].
  cbn. repeat split. discriminate.
Qed.

(** ** Resilient request layer *)

Section Request.
Context `{PyFloat}.

Lemma request_step_final (cfg : client_config) (net : Z -> attempt_outcome)
    (fuel : nat) (attempt : Z) (slept : list pyfloat) :
  retries cfg (net (attempt + 1)%Z) (attempt + 1) = false ->
  request_loop (S fuel) cfg net attempt slept
  = Some (Settled (final_result (net (attempt + 1)%Z)), slept).
Proof.
  cbn [request_loop]. unfold retries, final_result, resp_ok.
  destruct (net (attempt + 1)%Z) as [e|resp].
  - intros Hr. destruct (Z.ltb_spec (max_retries cfg) (attempt + 1)); [done|].
    apply Z.leb_gt in Hr. lia.
  - unfold retryable_status.
    destruct (Z.eqb_spec (resp_status_code resp) 429),
             (Z.leb_spec 500 (resp_status_code resp)),
             (Z.ltb_spec (resp_status_code resp) 600),
             (Z.leb_spec 400 (resp_status_code resp)),
             (Z.ltb_spec (resp_status_code resp) 500);
      cbn [orb andb negb]; intros Hr; try lia; try done;
      try (by destruct (resp_json resp));
      destruct (Z.ltb_spec (max_retries cfg) (attempt + 1)); try done;
      apply Z.leb_gt in Hr; lia.
Qed.

Lemma request_step_retry (cfg : client_config) (net : Z -> attempt_outcome)
    (fuel : nat) (attempt : Z) (slept : list pyfloat) :
  retries cfg (net (attempt + 1)%Z) (attempt + 1) = true ->
  (attempt + 1 <= max_retries cfg)%Z /\
  request_loop (S fuel) cfg net attempt slept
  = match backoff cfg (attempt + 1) with
    | Returns s => request_loop fuel cfg net (attempt + 1) (slept ++ [s])
    | Raises x => Some (BackoffRaised x, slept)
    end.
Proof.
  cbn [request_loop]. unfold retries.
  destruct (net (attempt + 1)%Z) as [e|resp].
  - intros Hr%Z.leb_le. split; [done|].
    destruct (Z.ltb_spec (max_retries cfg) (attempt + 1)); [lia | done].
  - intros [Hs Hr%Z.leb_le]%andb_true_iff. split; [done|]. rewrite Hs.
    destruct (Z.ltb_spec (max_retries cfg) (attempt + 1)); [lia | done].
Qed.

(** The loop ends, at the first attempt that does not lead to a retry or
    at the first retry whose sleep raises. *)
Lemma request_loop_total (cfg : client_config) (net : Z -> attempt_outcome)
    (fuel : nat) (attempt : Z) (slept : list pyfloat) :
  (Z.to_nat (max_retries cfg - attempt) < fuel)%nat ->
  exists (k : Z) (sleeps : list pyfloat),
    (attempt < k <= Z.max (attempt + 1) (max_retries cfg + 1))%Z /\
    (forall j, (attempt < j < k)%Z -> retries cfg (net j) j = true) /\
    Forall2 (fun j s => backoff cfg j = Returns s)
      (seqZ (attempt + 1) (k - attempt - 1)) sleeps /\
    request_loop fuel cfg net attempt slept
    = Some (if retries cfg (net k) k
            then match backoff cfg k with
                 | Returns _ => Settled (final_result (net k))
                 | Raises x => BackoffRaised x
                 end
            else Settled (final_result (net k)),
            slept ++ sleeps) /\
    (retries cfg (net k) k = true -> exists x, backoff cfg k = Raises x).
Proof.
  revert attempt slept. induction fuel as [|fuel IH]; intros attempt slept Hfuel; [lia|].
  destruct (retries cfg (net (attempt + 1)%Z) (attempt + 1)) eqn:Hr.
  - destruct (request_step_retry cfg net fuel attempt slept Hr) as [Hle ->].
    destruct (backoff cfg (attempt + 1)) as [s|x] eqn:Hs.
    + assert (Z.to_nat (max_retries cfg - (attempt + 1)) < fuel)%nat as Hfuel' by lia.
      destruct (IH (attempt + 1)%Z (slept ++ [s]) Hfuel')
        as (k & sleeps & Hk & Hbefore & Hsleeps & Hrun & Hraise).
      exists k, (s :: sleeps). split; [lia|]. split; [|split; [|split; [|done]]].
      * intros j Hj. destruct (decide (j = attempt + 1)%Z) as [->|]; [done|].
        apply Hbefore. lia.
      * rewrite (seqZ_cons (attempt + 1)) by lia. constructor; [done|].
        replace (Z.succ (attempt + 1)) with (attempt + 1 + 1)%Z by lia.
        replace (Z.pred (k - attempt - 1)) with (k - (attempt + 1) - 1)%Z by lia.
        done.
      * rewrite Hrun. by rewrite <- app_assoc.
    + exists (attempt + 1)%Z, []. split; [lia|]. split; [intros j Hj; lia|].
      replace (attempt + 1 - attempt - 1)%Z with 0%Z by lia.
      split; [constructor|]. rewrite Hr, Hs, app_nil_r. split; [done|].
      intros _. by exists x.
  - exists (attempt + 1)%Z, []. split; [lia|]. split; [intros j Hj; lia|].
    replace (attempt + 1 - attempt - 1)%Z with 0%Z by lia.
    split; [constructor|]. rewrite Hr, app_nil_r.
    split; [by apply request_step_final | done].
Qed.

(** C7, as the code has it. [_request] always ends. Its attempts are
    numbered from 1; an attempt leads to a retry when it met a transport
    failure or a status 429 or 5xx and its number is at most
    [max_retries]. Before the retry the loop computes
    [backoff_factor ** (attempt - 1)], a float power as Python rounds
    it, and calls [time.sleep] on it; if either raises (the power
    overflows, the length is negative or too large), the exception ends
    the call. Otherwise, at the first attempt [k] that leads to no retry,
    which is at most attempt [max_retries + 1], the call ends: with
    [MemoryPluginError] for a transport failure and
    [MemoryPluginRateLimitError] for a 429 or 5xx (both only once the
    attempt number exceeds [max_retries]), at once with
    [MemoryPluginError] for any other status from 400 to 499, and with the
    body of the response for every other status, 1xx and 3xx included.
    The sleeps made are those of the attempts before [k], in order. *)
Theorem request_retries_then_settles (cfg : client_config)
    (net : Z -> attempt_outcome) :
  exists (k : Z) (sleeps : list pyfloat),
    (1 <= k <= Z.max 1 (max_retries cfg + 1))%Z /\
    (forall j, (1 <= j < k)%Z -> retries cfg (net j) j = true) /\
    Forall2 (fun j s =>
               float_pow (backoff_factor cfg) (j - 1) = Returns s /\
               time_sleep s = Returns tt)
      (seqZ 1 (k - 1)) sleeps /\
    ((retries cfg (net k) k = false /\
      _request cfg net = Some (Settled (final_result (net k)), sleeps)) \/
     (retries cfg (net k) k = true /\
      exists x,
        (float_pow (backoff_factor cfg) (k - 1) = Raises x \/
         exists s, float_pow (backoff_factor cfg) (k - 1) = Returns s /\
                   time_sleep s = Raises x) /\
        _request cfg net = Some (BackoffRaised x, sleeps))).
Proof.
  assert (Z.to_nat (max_retries cfg - 0) < S (Z.to_nat (max_retries cfg)))%nat
    as Hfuel by (rewrite Z.sub_0_r; lia).
  destruct (request_loop_total cfg net (S (Z.to_nat (max_retries cfg))) 0 [] Hfuel)
    as (k & sleeps & Hk & Hbefore & Hsleeps & Hrun & Hraise).
  exists k, sleeps. split; [lia|]. split; [intros j Hj; apply Hbefore; lia|].
  split.
  { replace (k - 0 - 1)%Z with (k - 1)%Z in Hsleeps by lia. cbn [Z.add] in Hsleeps.
    eapply Forall2_impl; [exact Hsleeps|]. intros j s. cbv beta.
    unfold backoff, sleep_s. destruct (float_pow _ _) as [s'|]; [|done].
    cbn [py_bind]. destruct (time_sleep s') as [[]|] eqn:Hslept; [|done].
    cbn [py_bind]. intros [= <-]. by split. }
  unfold _request. rewrite Hrun. cbn [app].
  destruct (retries cfg (net k) k) eqn:Hr; [right | by left].
  split; [done|]. destruct (Hraise eq_refl) as (x & Hx). rewrite Hx. exists x.
  split; [|done]. revert Hx. unfold backoff, sleep_s.
  destruct (float_pow _ _) as [s'|x']; cbn [py_bind]; [|intros [= ->]; by left].
  destruct (time_sleep s') as [[]|x''] eqn:Hslept; cbn [py_bind]; [done|].
  intros [= ->]. right. by exists s'.
Qed.
End Request.

(** C7 fails as stated: a response with status 304, which is not a 2xx
    status, raises no error; [_request] returns its body at the first
    attempt. *)
Lemma request_returns_on_304 :
  @_request sample_float (@ClientConfig sample_float 3 (3 # 2)%Q)
    (fun _ => Responded (Response 304 "not modified" None))
  = Some (Settled (ReturnsText "not modified"), []).
Proof. reflexivity. Qed.

(** A backend that times out at every attempt, with the default tuning:
    four attempts, three sleeps of 1, 3/2 and 9/4 seconds, then the
    network error. *)
Example request_gives_up_after_retries :
  @_request sample_float (@ClientConfig sample_float 3 (3 # 2)%Q)
    (fun _ => RequestException "timed out")
  = Some (Settled (MemoryPluginError (NetworkError "timed out")),
          [(1 # 1)%Q; (3 # 2)%Q; (9 # 4)%Q]).
Proof. reflexivity. Qed.

(** A rate-limited backend and a refused request. *)
Example request_rate_limited_then_refused :
  @_request sample_float (@ClientConfig sample_float 1 (2 # 1)%Q)
    (fun _ => Responded (Response 429 "slow down" None))
  = Some (Settled (MemoryPluginRateLimitError 429), [(1 # 1)%Q]) /\
  @_request sample_float (@ClientConfig sample_float 3 (2 # 1)%Q)
    (fun _ => Responded (Response 404 "no" None))
  = Some (Settled (MemoryPluginError (HttpError 404)), []).
Proof. split; reflexivity. Qed.

(** A negative [backoff_factor]: the first retry sleeps 1 second, the
    second computes -3/2 and [time.sleep] raises [ValueError], which ends
    the call at the second attempt. *)
Example request_raises_on_negative_sleep :
  @_request sample_float (@ClientConfig sample_float 3 (- 3 # 2)%Q)
    (fun _ => RequestException "timed out")
  = Some (BackoffRaised (ValueError "sleep length must be non-negative"), [(1 # 1)%Q]).
Proof. reflexivity. Qed.

(** * Further properties *)

(** ** Orchestrator: what every operation leaves behind *)

Section OrchestratorState.
Context `{PyLib}.

(** The fields of the entry an append makes. *)
Lemma create_audit_entry_fields (cid : string) (chain chain' : list pydict)
    (op : append_op) (e : pydict) :
  _create_audit_entry cid chain op = Returns (e, chain') ->
  chain' = chain ++ [e] /\
  dict_get "id" e = Some (VStr (op_uuid op)) /\
  dict_get "case_id" e = Some (VStr cid) /\
  dict_get "operation" e = Some (VStr (op_operation op)) /\
  dict_get "data_hash" e
    = Some (VStr (sha256_hexdigest (json_dumps (op_data op)))) /\
  dict_get "chain_index" e = Some (VInt (Z.of_nat (length chain))) /\
  dict_get "result_status" e
    = Some (VStr (if result_ok (op_result op) then "success" else "pending")).
Proof.
  unfold _create_audit_entry. destruct (previous_hash_of chain) as [prev|exn]; [|done].
  cbn [py_bind]. intros [= <- <-]. repeat split.
Qed.

(** The state [store_memory_unified] leaves, for a content that can be
    encoded, on an orchestrator whose chain is well formed. *)
Lemma store_memory_unified_state (self : orchestrator) (env : store_env)
    (content : string) (md : MemoryMetadata) (provider : MemoryProvider) :
  chain_ok (audit_chain self) ->
  encodable content = true ->
  exists r e op,
    op_uuid op = se_audit_uuid env /\
    op_operation op = "store_memory_unified" /\
    op_result op = ResultNone /\
    _create_audit_entry (case_id self) (audit_chain self) op
      = Returns (e, audit_chain self ++ [e]) /\
    store_memory_unified env content md provider self
      = (Returns r,
         Orchestrator (case_id self) (has_mem0 self) (has_supermemory self)
           (if (0 <? success_count (st_results r))%Z
            then Metrics (total_memories_stored (o_metrics self) + 1)
                   (successful_operations (o_metrics self) + 1)
                   (failed_operations (o_metrics self))
                   (search_queries (o_metrics self))
            else Metrics (total_memories_stored (o_metrics self) + 1)
                   (successful_operations (o_metrics self))
                   (failed_operations (o_metrics self) + 1)
                   (search_queries (o_metrics self)))
           (audit_chain self ++ [e])) /\
    st_audit_chain_index r = VInt (Z.of_nat (length (audit_chain self))) /\
    st_content_hash r = sha256_hexdigest content /\
    st_metadata r
      = asdict (stamp_metadata md (sha256_hexdigest content) (se_now env)) /\
    st_status r
      = (if (0 <? success_count (st_results r))%Z then "success" else "failed").
Proof.
  intros Hok Henc.
  set (md' := stamp_metadata md (sha256_hexdigest content) (se_now env)).
  destruct (store_mem0_returns env content md') as (o1 & Ho1 & _).
  destruct (store_supermemory_returns env content md') as (o2 & Ho2 & _).
  unfold store_memory_unified, store_memory_unified_body, _create_forensic_hash,
    run_try, run_bind, create_audit_entry, run_get, run_lift, run_ret, run_modify.
  rewrite Henc.
  match goal with |- context [_create_audit_entry ?c ?ch ?op] =>
    destruct (create_audit_entry_index c ch op Hok) as (e & He & _ & Hidx);
    set (the_op := op) in * end.
  rewrite He. cbn [set_audit_chain has_mem0 has_supermemory].
  fold md'. rewrite Ho1, Ho2, Hidx.
  destruct ((MemoryProvider_eqb provider ALL || MemoryProvider_eqb provider MEM0)
            && has_mem0 self),
           ((MemoryProvider_eqb provider ALL || MemoryProvider_eqb provider SUPERMEMORY)
            && has_supermemory self);
    cbn [items_set String.eqb Ascii.eqb Bool.eqb app];
    match goal with |- context [(0 <? success_count ?res)%Z] =>
      destruct (0 <? success_count res)%Z eqn:Hcount end;
    eexists _, e, the_op;
    (split; [reflexivity|]); (split; [reflexivity|]); (split; [reflexivity|]);
    (split; [exact He|]);
    (split; [apply (f_equal2 pair); [reflexivity|]; cbn [st_results];
             rewrite Hcount; reflexivity|]);
    cbn [st_results st_audit_chain_index st_content_hash st_metadata st_status];
    rewrite Hcount; by repeat split.
Qed.

(** The orchestrator a search leaves, whether it returns or raises. *)
Lemma search_memory_unified_state (self : orchestrator) (env : search_env)
    (query : string) (cid : option string) (limit : Z) (provider : MemoryProvider) :
  chain_ok (audit_chain self) ->
  exists e op,
    op_uuid op = qe_audit_uuid env /\
    op_operation op = "search_memory_unified" /\
    op_result op = ResultNone /\
    _create_audit_entry (case_id self) (audit_chain self) op
      = Returns (e, audit_chain self ++ [e]) /\
    (search_memory_unified env query cid limit provider self).2 = after_search self e.
Proof.
  intros Hok.
  destruct (search_memory_unified_spec self env query cid limit provider Hok)
    as (e & op & Huuid & Hop & Hres & Hmade & _ & Hrun).
  exists e, op. by rewrite Hrun.
Qed.
End OrchestratorState.

Section OrchestratorExtras.
Context `{PyLib}.

(** The counters and the length of the chain, in every reachable state. *)
Lemma reachable_counters (self : orchestrator) :
  reachable self ->
  (successful_operations (o_metrics self) <= total_memories_stored (o_metrics self)
   <= successful_operations (o_metrics self) + failed_operations (o_metrics self))%Z /\
  Z.of_nat (length (audit_chain self))
  = (total_memories_stored (o_metrics self) + search_queries (o_metrics self))%Z /\
  (0 <= successful_operations (o_metrics self))%Z /\
  (0 <= failed_operations (o_metrics self))%Z /\
  (0 <= search_queries (o_metrics self))%Z.
Proof.
  induction 1 as [cid m s|self env content md provider Hreach IH
                  |self env query cid limit provider Hreach IH].
  - cbn. lia.
  - apply reachable_chain_ok in Hreach. destruct (encodable content) eqn:Henc.
    + destruct (store_memory_unified_state self env content md provider Hreach Henc)
        as (r & e & op & _ & _ & _ & _ & -> & _).
      cbn [snd o_metrics audit_chain]. rewrite length_app. cbn [length].
      destruct (0 <? success_count (st_results r))%Z;
        cbn [total_memories_stored successful_operations failed_operations
             search_queries]; lia.
    + rewrite store_memory_unified_raises by done.
      cbn [snd count_failed set_metrics o_metrics audit_chain total_memories_stored
           successful_operations failed_operations search_queries]. lia.
  - apply reachable_chain_ok in Hreach.
    destruct (search_memory_unified_state self env query cid limit provider Hreach)
      as (e & op & _ & _ & _ & _ & ->).
    cbn [after_search o_metrics audit_chain total_memories_stored successful_operations
         failed_operations search_queries].
    rewrite length_app. cbn [length]. lia.
Qed.

(** X1. In every state the orchestrator can reach, the counters fit
    together. A store that got past the digest of its content was
    counted once as stored and once as either successful or failed; a
    store that raised was counted as failed only. So the stored memories
    are at least the successful operations and at most the successful
    and the failed ones together. The audit chain holds exactly one
    entry per stored memory and per search. *)
Theorem operations_are_all_counted (self : orchestrator) :
  reachable self ->
  (successful_operations (o_metrics self) <= total_memories_stored (o_metrics self)
   <= successful_operations (o_metrics self) + failed_operations (o_metrics self))%Z /\
  Z.of_nat (length (audit_chain self))
  = (total_memories_stored (o_metrics self) + search_queries (o_metrics self))%Z /\
  (0 <= successful_operations (o_metrics self))%Z /\
  (0 <= failed_operations (o_metrics self))%Z /\
  (0 <= search_queries (o_metrics self))%Z.
Proof. apply reachable_counters. Qed.

Lemma case_id_store (self : orchestrator) (env : store_env) (content : string)
    (md : MemoryMetadata) (provider : MemoryProvider) :
  chain_ok (audit_chain self) ->
  case_id (store_memory_unified env content md provider self).2 = case_id self.
Proof.
  intros Hok. destruct (encodable content) eqn:Henc.
  - destruct (store_memory_unified_state self env content md provider Hok Henc)
      as (r & e & op & _ & _ & _ & _ & -> & _). done.
  - by rewrite store_memory_unified_raises.
Qed.

Lemma case_id_search (self : orchestrator) (env : search_env) (query : string)
    (cid : option string) (limit : Z) (provider : MemoryProvider) :
  chain_ok (audit_chain self) ->
  case_id (search_memory_unified env query cid limit provider self).2 = case_id self.
Proof.
  intros Hok.
  destruct (search_memory_unified_state self env query cid limit provider Hok)
    as (e & op & _ & _ & _ & _ & ->). done.
Qed.

Lemma operation_entry_created (cid : string) (chain chain' : list pydict)
    (op : append_op) (e : pydict) :
  _create_audit_entry cid chain op = Returns (e, chain') ->
  op_result op = ResultNone ->
  op_operation op = "store_memory_unified" \/
  op_operation op = "search_memory_unified" ->
  operation_entry cid e.
Proof.
  intros Hmade Hres Hop.
  destruct (create_audit_entry_fields _ _ _ _ _ Hmade)
    as (_ & Hid & Hcase & Hoper & Hhash & _ & Hstatus).
  rewrite Hres in Hstatus. unfold operation_entry.
  split; [done|]. split; [done|]. split.
  - rewrite Hoper. destruct Hop as [->| ->]; [by left | by right].
  - split; eauto.
Qed.

(** The entries of the chain, in every reachable state. *)
Lemma reachable_entries (self : orchestrator) (i : nat) (e : pydict) :
  reachable self ->
  audit_chain self !! i = Some e ->
  operation_entry (case_id self) e /\
  dict_get "chain_index" e = Some (VInt (Z.of_nat i)).
Proof.
  intros Hreach Hi. split.
  2:{ apply reachable_chain_ok in Hreach. by destruct (Hreach _ _ Hi) as (_ & ? & _). }
  revert i e Hi.
  induction Hreach as [cid m s|self env content md provider Hreach IH
                       |self env query cid limit provider Hreach IH]; intros i e Hi.
  - by destruct i.
  - apply reachable_chain_ok in Hreach as Hok.
    rewrite case_id_store by done. destruct (encodable content) eqn:Henc.
    + destruct (store_memory_unified_state self env content md provider Hok Henc)
        as (r & e0 & op & _ & Hop & Hres & Hmade & Hrun & _).
      rewrite Hrun in Hi. cbn [snd audit_chain] in Hi.
      apply lookup_app_Some in Hi as [Hi|[_ Hi]]; [by eapply IH|].
      destruct (i - length (audit_chain self))%nat; [|by destruct n].
      injection Hi as <-. eapply operation_entry_created; eauto.
    + rewrite store_memory_unified_raises in Hi by done. by eapply IH.
  - apply reachable_chain_ok in Hreach as Hok.
    rewrite case_id_search by done.
    destruct (search_memory_unified_state self env query cid limit provider Hok)
      as (e0 & op & _ & Hop & Hres & Hmade & Hrun).
    rewrite Hrun in Hi. cbn [after_search audit_chain] in Hi.
    apply lookup_app_Some in Hi as [Hi|[_ Hi]]; [by eapply IH|].
    destruct (i - length (audit_chain self))%nat; [|by destruct n].
    injection Hi as <-. eapply operation_entry_created; eauto.
Qed.

(** X2. Every entry in the audit chain of a reachable orchestrator was
    written before the backends were called and never touched again: its
    [result_status] is [pending] whatever the outcome of the operation
    was, it names the orchestrator's case and one of the two operations,
    and its [chain_index] is its position. *)
Theorem audit_entries_stay_pending (self : orchestrator) (i : nat) (e : pydict) :
  reachable self ->
  audit_chain self !! i = Some e ->
  operation_entry (case_id self) e /\
  dict_get "chain_index" e = Some (VInt (Z.of_nat i)).
Proof. apply reachable_entries. Qed.

(** X3. A store on a reachable orchestrator of a content that can be
    encoded, whatever the backends do and also when every backend fails
    or none is dispatched, appends exactly one audit entry, at the index
    the result reports: the entry names the operation, has the drawn id
    and the status [pending]. The store is counted as stored, and as
    successful or failed by the status of the result; the search counter,
    the case and the providers stay as they were. The result's
    [content_hash] is the digest of the content and so is the
    [hash_sha256] of the metadata it returns. A store of a content that
    holds a surrogate raises an HTTP 500 before any of this: it appends
    no audit entry and is counted as a failed operation only. *)
Theorem store_appends_one_audit_entry (self : orchestrator) (env : store_env)
    (content : string) (md : MemoryMetadata) (provider : MemoryProvider) :
  reachable self ->
  (encodable content = true ->
   exists r self' e,
     store_memory_unified env content md provider self = (Returns r, self') /\
     audit_chain self' = audit_chain self ++ [e] /\
     st_audit_chain_index r = VInt (Z.of_nat (length (audit_chain self))) /\
     dict_get "operation" e = Some (VStr "store_memory_unified") /\
     dict_get "id" e = Some (VStr (se_audit_uuid env)) /\
     dict_get "result_status" e = Some (VStr "pending") /\
     total_memories_stored (o_metrics self')
       = (total_memories_stored (o_metrics self) + 1)%Z /\
     search_queries (o_metrics self') = search_queries (o_metrics self) /\
     (st_status r = "success" ->
      successful_operations (o_metrics self')
        = (successful_operations (o_metrics self) + 1)%Z /\
      failed_operations (o_metrics self') = failed_operations (o_metrics self)) /\
     (st_status r = "failed" ->
      successful_operations (o_metrics self') = successful_operations (o_metrics self) /\
      failed_operations (o_metrics self')
        = (failed_operations (o_metrics self) + 1)%Z) /\
     case_id self' = case_id self /\
     has_mem0 self' = has_mem0 self /\ has_supermemory self' = has_supermemory self /\
     st_content_hash r = sha256_hexdigest content /\
     dict_get "hash_sha256" (st_metadata r) = Some (VStr (sha256_hexdigest content))) /\
  (encodable content = false ->
   exists self',
     store_memory_unified env content md provider self
     = (Raises (HTTPException 500
          ("Memory storage failed: " ++ encode_error_message content)%string),
        self') /\
     audit_chain self' = audit_chain self /\
     o_metrics self'
     = Metrics (total_memories_stored (o_metrics self))
         (successful_operations (o_metrics self))
         (failed_operations (o_metrics self) + 1)
         (search_queries (o_metrics self)) /\
     case_id self' = case_id self /\
     has_mem0 self' = has_mem0 self /\ has_supermemory self' = has_supermemory self).
Proof.
  intros Hreach. apply reachable_chain_ok in Hreach. split; intros Henc.
  - destruct (store_memory_unified_state self env content md provider Hreach Henc)
      as (r & e & op & Huuid & Hop & Hres & Hmade & Hrun & Hidx & Hhash & Hmd & Hst).
    destruct (create_audit_entry_fields _ _ _ _ _ Hmade)
      as (_ & Hid & _ & Hoper & _ & _ & Hstatus).
    rewrite Hres in Hstatus. rewrite Hop in Hoper. rewrite Huuid in Hid.
    eexists r, _, e. split; [exact Hrun|].
    cbn [audit_chain o_metrics case_id has_mem0 has_supermemory].
    split; [done|]. split; [done|]. split; [done|]. split; [done|]. split; [done|].
    rewrite Hst, Hmd.
    destruct (0 <? success_count (st_results r))%Z;
      cbn [total_memories_stored successful_operations failed_operations search_queries];
      repeat split; done.
  - exists (count_failed self).
    split; [by apply store_memory_unified_raises|]. by repeat split.
Qed.

(** X4. A search on a reachable orchestrator appends exactly one audit
    entry and counts one more search query, whether it returns or raises;
    it leaves the store counters, the case and the providers as they
    were. It returns when the merger can go through the dictionaries of
    the dispatched backends: the result reports the index of the entry,
    echoes the query and names the case searched, the caller's, or the
    orchestrator's own when the caller gave none or an empty one. When
    the merger cannot (a successful backend's [results] that cannot be
    iterated, a result that is no dictionary or whose content holds a
    surrogate), the search raises an HTTP 500. *)
Theorem search_appends_one_audit_entry (self : orchestrator) (env : search_env)
    (query : string) (cid : option string) (limit : Z) (provider : MemoryProvider) :
  reachable self ->
  exists outcome self' e,
    search_memory_unified env query cid limit provider self = (outcome, self') /\
    audit_chain self' = audit_chain self ++ [e] /\
    dict_get "operation" e = Some (VStr "search_memory_unified") /\
    dict_get "id" e = Some (VStr (qe_audit_uuid env)) /\
    dict_get "result_status" e = Some (VStr "pending") /\
    search_queries (o_metrics self') = (search_queries (o_metrics self) + 1)%Z /\
    total_memories_stored (o_metrics self') = total_memories_stored (o_metrics self) /\
    successful_operations (o_metrics self') = successful_operations (o_metrics self) /\
    failed_operations (o_metrics self') = failed_operations (o_metrics self) /\
    case_id self' = case_id self /\
    has_mem0 self' = has_mem0 self /\ has_supermemory self' = has_supermemory self /\
    match outcome with
    | Returns r =>
        forallb mergeable (search_outcomes self env query cid limit provider) = true /\
        sr_audit_chain_index r = VInt (Z.of_nat (length (audit_chain self))) /\
        sr_query r = query /\
        sr_case_id r
        = match cid with
          | Some c => if String.eqb c "" then case_id self else c
          | None => case_id self
          end
    | Raises x =>
        forallb mergeable (search_outcomes self env query cid limit provider) = false /\
        exists y, x = HTTPException 500 ("Memory search failed: " ++ exn_str y)%string
    end.
Proof.
  intros Hreach. apply reachable_chain_ok in Hreach.
  destruct (search_memory_unified_spec self env query cid limit provider Hreach)
    as (e & op & Huuid & Hop & Hres & Hmade & _ & Hrun).
  destruct (create_audit_entry_fields _ _ _ _ _ Hmade)
    as (_ & Hid & _ & Hoper & _ & _ & Hstatus).
  rewrite Hres in Hstatus. rewrite Hop in Hoper. rewrite Huuid in Hid.
  eexists _, _, e. split; [exact Hrun|].
  cbn [after_search audit_chain o_metrics case_id has_mem0 has_supermemory
       total_memories_stored successful_operations failed_operations search_queries].
  do 11 (split; [done|]).
  destruct (forallb mergeable _) eqn:Hok.
  - rewrite (merge_any_is_first_seen _ Hok). by repeat split.
  - destruct (merge_any_raises _ Hok) as (y & ->). split; [done|]. by exists y.
Qed.

(** X5. The forensic report of a reachable orchestrator says that the
    chain is intact, counts one operation per store and search, and
    samples the last ten entries of the chain, or all of them when there
    are fewer. *)
Theorem forensic_report_of_reachable (self : orchestrator) (now : clock) :
  reachable self ->
  exists report,
    get_forensic_report self now = Returns report /\
    fr_audit_chain_integrity report = true /\
    fr_total_operations report
    = (total_memories_stored (o_metrics self) + search_queries (o_metrics self))%Z /\
    fr_audit_chain_sample report
    = drop (length (audit_chain self) - 10) (audit_chain self) /\
    length (fr_audit_chain_sample report) = (length (audit_chain self) `min` 10)%nat /\
    fr_system_metrics report = o_metrics self.
Proof.
  intros Hreach. pose proof (reachable_counters self Hreach) as (_ & Hlen & _).
  apply reachable_chain_ok in Hreach.
  unfold get_forensic_report.
  rewrite verify_is_all_linked, (chain_ok_all_linked _ Hreach). cbn [py_bind].
  eexists. split; [reflexivity|].
  cbn [fr_audit_chain_integrity fr_total_operations fr_audit_chain_sample
       fr_system_metrics].
  split; [done|]. split; [done|]. split; [done|]. split; [|done].
  unfold py_slice_from. cbn [Z.leb Z.compare Z.opp Z.to_nat Pos.to_nat Pos.iter_op
    Init.Nat.add]. rewrite length_drop. lia.
Qed.

(** X6. Looking an audit entry up by id in the chain of a reachable
    orchestrator returns the first entry that carries the id, and answers
    with an HTTP 404 when no entry does. *)
Theorem get_audit_entry_finds_first (self : orchestrator) :
  reachable self ->
  (forall i e uuid,
     audit_chain self !! i = Some e ->
     dict_get "id" e = Some (VStr uuid) ->
     (forall j e', (j < i)%nat -> audit_chain self !! j = Some e' ->
        dict_get "id" e' <> Some (VStr uuid)) ->
     get_audit_entry (audit_chain self) uuid = Returns e) /\
  (forall uuid,
     (forall e, e ∈ audit_chain self -> dict_get "id" e <> Some (VStr uuid)) ->
     get_audit_entry (audit_chain self) uuid
     = Raises (HTTPException 404 "Audit entry not found")).
Proof.
  intros Hreach.
  assert (forall e, e ∈ audit_chain self -> exists u, dict_get "id" e = Some (VStr u))
    as Hids.
  { intros e (i & Hi)%list_elem_of_lookup.
    destruct (reachable_entries self i e Hreach Hi) as [(_ & _ & _ & Hid & _) _].
    exact Hid. }
  revert Hids. generalize (audit_chain self) as chain. clear Hreach.
  intros chain Hids. split.
  - induction chain as [|e0 chain IH]; intros i e uuid Hi Hid Hfirst.
    + by rewrite lookup_nil in Hi.
    + cbn [get_audit_entry]. unfold dict_getitem.
      destruct (Hids e0) as (u0 & Hu0); [left|]. rewrite Hu0. cbn [py_bind].
      rewrite py_eq_str. destruct (String.eqb_spec u0 uuid) as [->|Hne].
      * destruct i as [|i]; [by injection Hi as <-|].
        exfalso. eapply (Hfirst 0%nat e0); [lia|done|done].
      * destruct i as [|i]; [injection Hi as <-; congruence|].
        apply (IH (fun e He => Hids e (list_elem_of_further _ _ _ He)) i e uuid Hi Hid).
        intros j e' Hj He'. apply (Hfirst (S j) e'); [lia | done].
  - intros uuid Hnone. induction chain as [|e0 chain IH]; [done|].
    cbn [get_audit_entry]. unfold dict_getitem.
    destruct (Hids e0) as (u0 & Hu0); [left|]. rewrite Hu0. cbn [py_bind].
    rewrite py_eq_str. destruct (String.eqb_spec u0 uuid) as [->|Hne].
    + exfalso. eapply Hnone; [left|done].
    + apply IH.
      * intros e He. apply Hids. by right.
      * intros e He. apply Hnone. by right.
Qed.
End OrchestratorExtras.

Lemma sample_state_reachable : @reachable sample_lib sample_state.
Proof. apply reachable_search, reachable_store, reachable_init. Qed.

Lemma raised_state_reachable : @reachable sample_lib raised_state.
Proof. apply reachable_store, sample_state_reachable. Qed.

(** [operations_are_all_counted] after a store, a search and a store that
    raised: one memory stored, one successful and one failed operation. *)
Lemma operations_are_all_counted_witness :
  total_memories_stored (o_metrics raised_state) = 1%Z /\
  successful_operations (o_metrics raised_state) = 1%Z /\
  failed_operations (o_metrics raised_state) = 1%Z /\
  search_queries (o_metrics raised_state) = 1%Z /\
  length (audit_chain raised_state) = 2%nat /\
  (successful_operations (o_metrics raised_state)
   <= total_memories_stored (o_metrics raised_state)
   <= successful_operations (o_metrics raised_state)
      + failed_operations (o_metrics raised_state))%Z.
Proof.
  split; [reflexivity|]. split; [reflexivity|]. split; [reflexivity|].
  split; [reflexivity|]. split; [reflexivity|].
  exact (proj1 (@operations_are_all_counted sample_lib raised_state
                  raised_state_reachable)).
Defined.

Lemma audit_entries_stay_pending_witness :
  exists e,
    audit_chain sample_state !! 1%nat = Some e /\
    operation_entry sample_case e /\
    dict_get "chain_index" e = Some (VInt 1).
Proof.
  eexists. split; [vm_compute; reflexivity|].
  refine (@audit_entries_stay_pending sample_lib sample_state 1 _
            sample_state_reachable _).
  vm_compute; reflexivity.
Defined.

(** [store_appends_one_audit_entry] on the sample state: a store of
    [evidence-17], and one of a content that holds a surrogate. *)
Lemma store_appends_one_audit_entry_witness :
  (exists r self' e,
     @store_memory_unified sample_lib sample_store_env "evidence-17" sample_metadata
       ALL sample_state = (Returns r, self') /\
     audit_chain self' = audit_chain sample_state ++ [e] /\
     st_audit_chain_index r = VInt 2) /\
  (exists self',
     @store_memory_unified sample_lib sample_store_env surrogate_content
       sample_metadata ALL sample_state
     = (Raises (HTTPException 500
          "Memory storage failed: 'utf-8' codec can't encode character '\ud800' in position 1: surrogates not allowed"),
        self') /\
     audit_chain self' = audit_chain sample_state).
Proof.
  split.
  - destruct (proj1 (@store_appends_one_audit_entry sample_lib sample_state
                       sample_store_env "evidence-17" sample_metadata ALL
                       sample_state_reachable) eq_refl)
      as (r & self' & e & Hrun & Hchain & Hidx & _).
    exists r, self', e. split; [exact Hrun|]. split; [exact Hchain | exact Hidx].
  - destruct (proj2 (@store_appends_one_audit_entry sample_lib sample_state
                       sample_store_env surrogate_content sample_metadata ALL
                       sample_state_reachable) eq_refl)
      as (self' & Hrun & Hchain & _).
    exists self'. split; [exact Hrun | exact Hchain].
Defined.

(** [search_appends_one_audit_entry] on the sample state. *)
Lemma search_appends_one_audit_entry_witness :
  exists outcome self' e,
    @search_memory_unified sample_lib sample_search_env "evidence" (Some "") 10
      ALL sample_state = (outcome, self') /\
    audit_chain self' = audit_chain sample_state ++ [e] /\
    search_queries (o_metrics self') = 2%Z.
Proof.
  destruct (@search_appends_one_audit_entry sample_lib sample_state sample_search_env
              "evidence" (Some "") 10 ALL sample_state_reachable)
    as (outcome & self' & e & Hrun & Hchain & _ & _ & _ & Hcount & _).
  exists outcome, self', e. split; [exact Hrun|]. split; [exact Hchain | exact Hcount].
Defined.

Lemma forensic_report_of_reachable_witness :
  exists report,
    get_forensic_report sample_state sample_clock = Returns report /\
    fr_audit_chain_integrity report = true /\
    fr_total_operations report = 2%Z.
Proof.
  destruct (@forensic_report_of_reachable sample_lib sample_state sample_clock
              sample_state_reachable)
    as (report & Hrun & Hok & Htotal & _).
  exists report. split; [exact Hrun|]. split; [exact Hok | exact Htotal].
Defined.

Lemma get_audit_entry_finds_first_witness :
  (exists e, get_audit_entry (audit_chain sample_state) "uuid-4" = Returns e /\
             audit_chain sample_state !! 1%nat = Some e) /\
  get_audit_entry (audit_chain sample_state) "uuid-9"
  = Raises (HTTPException 404 "Audit entry not found").
Proof.
  destruct (@get_audit_entry_finds_first sample_lib sample_state
              sample_state_reachable) as [Hfound Hmissing].
  split.
  - eexists. split; [|vm_compute; reflexivity].
    apply (Hfound 1%nat); [reflexivity | reflexivity |].
    intros [|j] e' Hj He'; [|lia].
    vm_compute in He'. injection He' as <-. discriminate.
  - apply Hmissing. intros e He. vm_compute in He.
    apply elem_of_cons in He as [->|He]; [discriminate|].
    apply list_elem_of_singleton in He as ->. discriminate.
Defined.

(** ** Result merger: what is kept *)

Section MergerExtras.
Context `{PyLib}.

Lemma first_seen_sublist (l : list (string * pydict)) : first_seen l `sublist_of` l.
Proof.
  induction l as [|hit l IH]; [constructor|]. cbn [first_seen].
  apply sublist_skip. etrans; [apply sublist_filter | exact IH].
Qed.

Lemma filter_other_hashes (h : string) (l : list (string * pydict)) :
  h ∉ (hit_hash <$> l) -> filter (fun later => hit_hash later <> h) l = l.
Proof.
  induction l as [|x l IH]; [done|]. rewrite fmap_cons, not_elem_of_cons.
  intros [Hne Hnotin]. rewrite filter_cons_True by congruence. by rewrite IH.
Qed.

Lemma first_seen_distinct (l : list (string * pydict)) :
  NoDup (hit_hash <$> l) -> first_seen l = l.
Proof.
  induction l as [|hit l IH]; [done|]. rewrite fmap_cons.
  intros [Hnotin Hnodup]%NoDup_cons. cbn [first_seen]. rewrite IH by done.
  by rewrite filter_other_hashes.
Qed.

End MergerExtras.

(** ** Backend adapters: reading back, updating, deleting *)

Lemma py_eq_str_inv (s : string) (v : pyval) : py_eq (VStr s) v = true -> v = VStr s.
Proof.
  destruct v; cbn; try discriminate.
  intros E. apply String.eqb_eq in E. by subst.
Qed.

Lemma py_eq_str_ne (s t : string) (v : pyval) :
  s <> t -> py_eq (VStr s) v = true -> py_eq (VStr t) v = false.
Proof.
  intros Hne E. apply py_eq_str_inv in E as ->. rewrite py_eq_str.
  apply String.eqb_neq. congruence.
Qed.

Lemma memories_get_set_ne (k k' : string) (v : pydict) (m : memories) :
  k <> k' ->
  memories_get (VStr k') (memories_set (VStr k) v m) = memories_get (VStr k') m.
Proof.
  intros Hne. induction m as [|[k0 v0] m IH]; cbn [memories_set memories_get].
  - rewrite py_eq_str. by destruct (String.eqb_spec k' k); [congruence|].
  - destruct (py_eq (VStr k) k0) eqn:E; cbn [memories_get].
    + by rewrite (py_eq_str_ne k k' k0 Hne E).
    + destruct (py_eq (VStr k') k0); [done | exact IH].
Qed.

Lemma memories_set_same (k : pyval) (v : pydict) (m : memories) :
  memories_get k m = Some v -> memories_set k v m = m.
Proof.
  induction m as [|[k0 v0] m IH]; cbn [memories_set memories_get]; [done|].
  destruct (py_eq k k0); [congruence|]. intros Hg. by rewrite IH.
Qed.

Lemma memories_get_delete_eq (k : string) (m : memories) :
  memories_get (VStr k) (memories_delete (VStr k) m) = None.
Proof.
  induction m as [|[k0 v0] m IH]; cbn [memories_delete memories_get]; [done|].
  destruct (py_eq (VStr k) k0) eqn:E; [exact IH|].
  cbn [memories_get]. by rewrite E.
Qed.

Lemma memories_get_delete_ne (k k' : string) (m : memories) :
  k <> k' ->
  memories_get (VStr k') (memories_delete (VStr k) m) = memories_get (VStr k') m.
Proof.
  intros Hne. induction m as [|[k0 v0] m IH]; cbn [memories_delete memories_get]; [done|].
  destruct (py_eq (VStr k) k0) eqn:E.
  - by rewrite (py_eq_str_ne k k' k0 Hne E).
  - cbn [memories_get]. destruct (py_eq (VStr k') k0); [done | exact IH].
Qed.

(** What [Mem0Adapter.store] leaves behind. *)
Lemma Mem0Adapter_store_inv (self : Mem0Adapter) (env : adapter_env) (content : string)
    (metadata : pydict) (record : MemoryRecord) (self' : Mem0Adapter) :
  Mem0Adapter_store self env content metadata = Returns (record, self') ->
  exists primary,
    m0_is_initialized self = true /\
    m0_client self = Some primary /\
    record = mkMemoryRecord (ae_uuid env) content metadata (ae_now env) "Mem0"
               (dict_get "legal_relevance" metadata) [] /\
    self' = mkMem0Adapter true
              (Some (mock_client_add primary (ae_client_uuid env) (ae_client_now env)
                       content (dict_set "id" (VStr (ae_uuid env)) metadata)).2)
              (match m0_client_secondary self with
               | Some secondary =>
                   Some (mock_client_add secondary (ae_secondary_uuid env)
                           (ae_secondary_now env) content
                           (dict_set "id" (VStr (ae_uuid env)) metadata)).2
               | None => None
               end).
Proof.
  unfold Mem0Adapter_store.
  destruct (m0_is_initialized self); cbn [negb]; [|discriminate].
  destruct (m0_client self) as [primary|]; [|discriminate].
  destruct (mock_client_add primary _ _ _ _) as [reply primary'] eqn:Hadd.
  intros [= <- <-]. exists primary.
  by rewrite Hadd.
Qed.

Lemma mock_client_add_others (m : memories) (fresh now content record_id other : string)
    (metadata : pydict) :
  record_id <> other ->
  memories_get (VStr other)
    (mock_client_add m fresh now content (dict_set "id" (VStr record_id) metadata)).2
  = memories_get (VStr other) m.
Proof.
  intros Hne. unfold mock_client_add. cbn [snd].
  unfold dict_get_default. rewrite dict_get_set_eq.
  by apply memories_get_set_ne.
Qed.

Lemma store_then_get_by_id_aux (self self' : Mem0Adapter) (env : adapter_env)
    (content : string) (metadata : pydict) (record : MemoryRecord) (now : string) :
  Mem0Adapter_store self env content metadata = Returns (record, self') ->
  Mem0Adapter_get_by_id self' now (mr_id record)
  = Some (FetchedRecord (VStr (mr_id record)) (VStr content)
            (VDict (dict_set "id" (VStr (mr_id record)) metadata))
            (VStr (ae_client_now env)) "Mem0" None).
Proof.
  intros Hstore. apply Mem0Adapter_store_inv in Hstore
    as (primary & Hinit & Hclient & -> & ->).
  cbn [mr_id]. unfold Mem0Adapter_get_by_id, adapter_get_by_id.
  cbn [m0_is_initialized m0_client negb].
  by rewrite mock_client_add_stores.
Qed.

(** X8. A memory stored through [Mem0Adapter.store] is read back by
    [get_by_id] under the id of the returned record, with the content
    that was stored; the metadata read back is the caller's with the
    [id] key set to the record id, the timestamp is the one the client
    took (not the one of the returned record), and the legal relevance
    score is the default whatever the metadata said. What [get_by_id]
    answers for every other id is unchanged by the store. *)
Theorem store_then_get_by_id (self self' : Mem0Adapter) (env : adapter_env)
    (content : string) (metadata : pydict) (record : MemoryRecord) (now : string) :
  Mem0Adapter_store self env content metadata = Returns (record, self') ->
  Mem0Adapter_get_by_id self' now (mr_id record)
  = Some (FetchedRecord (VStr (mr_id record)) (VStr content)
            (VDict (dict_set "id" (VStr (mr_id record)) metadata))
            (VStr (ae_client_now env)) "Mem0" None) /\
  forall other : string,
    other <> mr_id record ->
    Mem0Adapter_get_by_id self' now other = Mem0Adapter_get_by_id self now other.
Proof.
  intros Hstore. apply Mem0Adapter_store_inv in Hstore
    as (primary & Hinit & Hclient & -> & ->).
  cbn [mr_id]. unfold Mem0Adapter_get_by_id, adapter_get_by_id.
  cbn [m0_is_initialized m0_client negb]. rewrite Hinit, Hclient. cbn [negb].
  split.
  - by rewrite mock_client_add_stores.
  - intros other Hne. by rewrite mock_client_add_others.
Qed.

Lemma dict_update_nil (d : pydict) : dict_update d [] = d.
Proof. reflexivity. Qed.

(** X9. [Mem0Adapter.delete] on an initialized adapter answers [True]
    for every id, held or not. After a store and the delete of the
    stored id, [get_by_id] finds nothing under that id, [update] raises
    [ValueError] and changes nothing, a second delete still answers
    [True], and the other ids read as before the store; the copy that
    the store wrote to the secondary client is still there, since
    [delete] only asks the primary client. *)
Theorem delete_forgets_primary_only (self self' : Mem0Adapter) (env : adapter_env)
    (content : string) (metadata : pydict) (record : MemoryRecord) (now : string) :
  Mem0Adapter_store self env content metadata = Returns (record, self') ->
  let deleted := Mem0Adapter_delete self' (mr_id record) in
  (forall memory_id : string, (Mem0Adapter_delete self' memory_id).1 = true) /\
  Mem0Adapter_get_by_id deleted.2 now (mr_id record) = None /\
  (forall content' metadata',
     Mem0Adapter_update deleted.2 now (mr_id record) content' metadata'
     = (AdapterValueError (not_found (mr_id record)), deleted.2)) /\
  (Mem0Adapter_delete deleted.2 (mr_id record)).1 = true /\
  (forall other : string,
     other <> mr_id record ->
     Mem0Adapter_get_by_id deleted.2 now other = Mem0Adapter_get_by_id self now other) /\
  (forall secondary : memories,
     m0_client_secondary self = Some secondary ->
     exists secondary',
       m0_client_secondary deleted.2 = Some secondary' /\
       memories_get (VStr (mr_id record)) secondary'
       = Some [ ("id", VStr (mr_id record));
                ("content", VStr content);
                ("metadata", VDict (dict_set "id" (VStr (mr_id record)) metadata));
                ("timestamp", VStr (ae_secondary_now env)) ]).
Proof.
  intros Hstore. apply Mem0Adapter_store_inv in Hstore
    as (primary & Hinit & Hclient & -> & ->).
  cbn [mr_id]. cbv zeta.
  unfold Mem0Adapter_delete. cbn [m0_is_initialized m0_client m0_client_secondary negb fst snd].
  split; [done|].
  assert (Hget : Mem0Adapter_get_by_id
            (mkMem0Adapter true
               (Some (memories_delete (VStr (ae_uuid env))
                  (mock_client_add primary (ae_client_uuid env) (ae_client_now env)
                     content (dict_set "id" (VStr (ae_uuid env)) metadata)).2))
               (match m0_client_secondary self with
                | Some secondary =>
                    Some (mock_client_add secondary (ae_secondary_uuid env)
                            (ae_secondary_now env) content
                            (dict_set "id" (VStr (ae_uuid env)) metadata)).2
                | None => None
                end)) now (ae_uuid env) = None).
  { unfold Mem0Adapter_get_by_id, adapter_get_by_id.
    cbn [m0_is_initialized m0_client negb]. by rewrite memories_get_delete_eq. }
  split; [exact Hget|].
  split.
  { intros content' metadata'. unfold Mem0Adapter_update at 1.
    rewrite Hget. by cbn [m0_is_initialized m0_client negb]. }
  split; [done|].
  split.
  { intros other Hne. unfold Mem0Adapter_get_by_id, adapter_get_by_id.
    cbn [m0_is_initialized m0_client negb]. rewrite Hinit, Hclient. cbn [negb].
    rewrite memories_get_delete_ne by congruence.
    by rewrite mock_client_add_others. }
  intros secondary ->. eexists. split; [reflexivity|].
  apply mock_client_add_stores.
Qed.

(** X10. [Mem0Adapter.update] returns the record with the new content,
    yet stores nothing: after the update of a stored memory [get_by_id]
    still reads the content as first stored. The metadata is different:
    the record's metadata is the dictionary the client holds, so the
    keys of the update are read back from then on. *)
Theorem mem0_update_keeps_stored_content (self self' : Mem0Adapter) (env : adapter_env)
    (content : string) (metadata : pydict) (record : MemoryRecord) (now : string)
    (content' : string) (metadata' : pydict) :
  Mem0Adapter_store self env content metadata = Returns (record, self') ->
  content' <> "" ->
  exists (updated : fetched_record) (self'' : Mem0Adapter),
    Mem0Adapter_update self' now (mr_id record) (Some content') (Some metadata')
    = (AdapterReturns updated, self'') /\
    fetched_content updated = VStr content' /\
    fetched_metadata updated
    = VDict (dict_update (dict_set "id" (VStr (mr_id record)) metadata) metadata') /\
    Mem0Adapter_get_by_id self'' now (mr_id record)
    = Some (FetchedRecord (VStr (mr_id record)) (VStr content)
              (VDict (dict_update (dict_set "id" (VStr (mr_id record)) metadata)
                        metadata'))
              (VStr (ae_client_now env)) "Mem0" None).
Proof.
  intros Hstore Hcontent.
  pose proof (store_then_get_by_id_aux self self' env content metadata record now Hstore)
    as Hget.
  apply Mem0Adapter_store_inv in Hstore as (primary & Hinit & Hclient & -> & ->).
  cbn [mr_id] in *.
  unfold Mem0Adapter_update. cbn [m0_is_initialized m0_client m0_client_secondary negb].
  rewrite Hget. rewrite mock_client_add_stores.
  assert (Hne : String.eqb content' "" = false) by by apply String.eqb_neq.
  destruct metadata' as [|kv more].
  - cbn [update_metadata]. unfold dict_get_default.
    cbn [dict_get String.eqb Ascii.eqb Bool.eqb fetched_id fetched_content
         fetched_timestamp fetched_source_system fetched_legal_relevance updated_content].
    rewrite Hne. do 2 eexists. split; [reflexivity|].
    cbn [fetched_content fetched_metadata]. rewrite dict_update_nil.
    split; [done|]. split; [done|].
    unfold Mem0Adapter_get_by_id, adapter_get_by_id.
    cbn [m0_is_initialized m0_client negb].
    by rewrite memories_get_set_eq.
  - unfold update_metadata, dict_get_default, dict_mem.
    cbn [dict_get dict_set String.eqb Ascii.eqb Bool.eqb fetched_id fetched_content
         fetched_timestamp fetched_source_system fetched_legal_relevance updated_content].
    rewrite Hne. do 2 eexists. split; [reflexivity|].
    cbn [fetched_content fetched_metadata].
    split; [done|]. split; [done|].
    unfold Mem0Adapter_get_by_id, adapter_get_by_id.
    cbn [m0_is_initialized m0_client negb].
    by rewrite memories_get_set_eq.
Qed.

(** What [SuperMemoryAdapter.store] leaves behind. *)
Lemma SuperMemoryAdapter_store_inv (self : SuperMemoryAdapter) (env : adapter_env)
    (content : string) (metadata : pydict) (record : MemoryRecord)
    (self' : SuperMemoryAdapter) :
  SuperMemoryAdapter_store self env content metadata = Returns (record, self') ->
  exists client,
    sm_is_initialized self = true /\
    sm_client self = Some client /\
    record = mkMemoryRecord (ae_uuid env) content metadata (ae_now env) "SuperMemory"
               (dict_get "legal_relevance" metadata) [] /\
    self' = mkSuperMemoryAdapter true
              (Some (mock_client_add client (ae_client_uuid env) (ae_client_now env)
                       content (dict_set "id" (VStr (ae_uuid env)) metadata)).2).
Proof.
  unfold SuperMemoryAdapter_store.
  destruct (sm_is_initialized self); cbn [negb]; [|discriminate].
  destruct (sm_client self) as [client|]; [|discriminate].
  destruct (mock_client_add client _ _ _ _) as [reply client'] eqn:Hadd.
  intros [= <- <-]. exists client.
  by rewrite Hadd.
Qed.

(** X11. [SuperMemoryAdapter.update] of a stored memory writes the
    record back: what it returns is what [get_by_id] reads from then
    on, with the new content when one was given (and not empty) and
    the metadata extended by the keys of the update; the other ids are
    left as they were. *)
Theorem supermemory_update_is_read_back (self self' : SuperMemoryAdapter)
    (env : adapter_env) (content : string) (metadata : pydict) (record : MemoryRecord)
    (now : string) (content' : option string) (metadata' : option pydict) :
  SuperMemoryAdapter_store self env content metadata = Returns (record, self') ->
  exists (updated : fetched_record) (self'' : SuperMemoryAdapter),
    SuperMemoryAdapter_update self' now (mr_id record) content' metadata'
    = (AdapterReturns updated, self'') /\
    SuperMemoryAdapter_get_by_id self'' now (mr_id record) = Some updated /\
    fetched_content updated = updated_content (VStr content) content' /\
    fetched_metadata updated
    = VDict (dict_update (dict_set "id" (VStr (mr_id record)) metadata)
               (default [] metadata')) /\
    forall other : string,
      other <> mr_id record ->
      SuperMemoryAdapter_get_by_id self'' now other
      = SuperMemoryAdapter_get_by_id self' now other.
Proof.
  intros Hstore.
  apply SuperMemoryAdapter_store_inv in Hstore as (client & Hinit & Hclient & -> & ->).
  cbn [mr_id].
  unfold SuperMemoryAdapter_update, SuperMemoryAdapter_get_by_id, adapter_get_by_id.
  cbn [sm_is_initialized sm_client negb].
  rewrite mock_client_add_stores. cbn [py_truthy].
  assert (Hothers : forall stored other,
    other <> ae_uuid env ->
    memories_get (VStr other)
      (memories_set (VStr (ae_uuid env)) stored
         (mock_client_add client (ae_client_uuid env) (ae_client_now env) content
            (dict_set "id" (VStr (ae_uuid env)) metadata)).2)
    = memories_get (VStr other)
        (mock_client_add client (ae_client_uuid env) (ae_client_now env) content
           (dict_set "id" (VStr (ae_uuid env)) metadata)).2).
  { intros stored other Hne. apply memories_get_set_ne. congruence. }
  destruct metadata' as [[|kv more]|];
    unfold update_metadata, mock_client_update, record_of_memory, dict_get_default,
      dict_mem;
    cbn [dict_get dict_set String.eqb Ascii.eqb Bool.eqb fetched_id fetched_content
         fetched_timestamp fetched_source_system fetched_legal_relevance default];
    do 2 eexists; (split; [reflexivity|]);
    cbn [sm_is_initialized sm_client negb];
    rewrite memories_get_set_eq;
    cbn [py_truthy dict_get String.eqb Ascii.eqb Bool.eqb fetched_content
         fetched_metadata];
    (split; [reflexivity|]); (split; [reflexivity|]); (split; [reflexivity|]);
    intros other Hne; by rewrite Hothers.
Qed.

(** ** Backend adapters: search and sync *)

Lemma search_scan_filter (lower : string -> string) (query : string)
    (values : list pydict) :
  Forall holds_text values ->
  search_scan lower (lower query) values
  = Returns (filter (fun memory => matches_query lower query memory = true) values).
Proof.
  induction 1 as [|memory values [c Hc] _ IH]; [done|].
  cbn [search_scan]. unfold dict_getitem. rewrite Hc. cbn [py_bind].
  rewrite IH. cbn [py_bind]. rewrite filter_cons.
  assert (Hm : matches_query lower query memory
               = str_contains (lower query) (lower c)).
  { unfold matches_query. by rewrite Hc. }
  case_decide as Hd; cbn beta in Hd; rewrite Hm in Hd.
  - by rewrite Hd.
  - by destruct (str_contains (lower query) (lower c)).
Qed.

Lemma mock_client_add_holds_text (m : memories) (fresh now content : string)
    (metadata : pydict) :
  Forall holds_text (snd <$> m) ->
  Forall holds_text (snd <$> (mock_client_add m fresh now content metadata).2).
Proof.
  unfold mock_client_add. cbn [snd].
  generalize (dict_get_default "id" (VStr fresh) metadata) as k.
  intros k. induction m as [|[k0 v0] m IH]; cbn [memories_set fmap list_fmap snd].
  - intros _. constructor; [|constructor]. by exists content.
  - intros Hm. apply Forall_cons in Hm as [H0 Hm].
    destruct (py_eq k k0); cbn [fmap list_fmap snd].
    + constructor; [by exists content | exact Hm].
    + constructor; [exact H0 | by apply IH].
Qed.

(** X12. The search of an adapter over its mock client looks at the
    first [limit] memories the client holds, in the order they were
    first stored, and returns those of them whose content contains the
    query, both lower-cased: [limit] bounds the memories scanned, not
    the matches returned, so a matching memory held after the first
    [limit] ones is not found. Holds for [Mem0Adapter.search] and
    [SuperMemoryAdapter.search], which share this body. *)
Theorem search_scans_first_limit (source_system : string) (lower : string -> string)
    (fresh now : nat -> string) (m : memories) (query : string) (limit : Z) :
  (0 <= limit)%Z ->
  Forall holds_text (snd <$> m) ->
  adapter_search true (Some m) source_system lower fresh now query limit
  = imap (record_of_result source_system fresh now)
      (filter (fun memory => matches_query lower query memory = true)
         (take (Z.to_nat limit) (snd <$> m))) /\
  (length (adapter_search true (Some m) source_system lower fresh now query limit)
   <= Z.to_nat limit)%nat.
Proof.
  intros Hlimit Hm.
  assert (Heq : adapter_search true (Some m) source_system lower fresh now query limit
    = imap (record_of_result source_system fresh now)
        (filter (fun memory => matches_query lower query memory = true)
           (take (Z.to_nat limit) (snd <$> m)))).
  { unfold adapter_search, mock_client_search, py_slice_to. cbn [negb].
    destruct (Z.leb_spec 0 limit) as [_|]; [|lia].
    rewrite search_scan_filter; [done|].
    by apply Forall_take. }
  split; [exact Heq|].
  rewrite Heq, length_imap.
  etrans; [apply length_filter|].
  rewrite length_take. lia.
Qed.

Lemma memories_set_keys (k : string) (v : pydict) (m : memories) (id : pyval) :
  id ∈ (memories_set (VStr k) v m).*1 <-> id ∈ m.*1 \/ id = VStr k.
Proof.
  induction m as [|[k0 v0] m IH]; cbn [memories_set fmap list_fmap fst].
  - rewrite list_elem_of_singleton. rewrite elem_of_nil. tauto.
  - destruct (py_eq (VStr k) k0) eqn:E; cbn [fmap list_fmap fst].
    + apply py_eq_str_inv in E as ->. rewrite elem_of_cons. tauto.
    + rewrite !elem_of_cons, IH. tauto.
Qed.

Lemma Mem0Adapter_store_ids (self : Mem0Adapter) (env : adapter_env) (content : string)
    (metadata : pydict) (primary : memories) :
  m0_is_initialized self = true ->
  m0_client self = Some primary ->
  exists record self' primary',
    Mem0Adapter_store self env content metadata = Returns (record, self') /\
    m0_is_initialized self' = true /\
    m0_client self' = Some primary' /\
    forall id, id ∈ primary'.*1 <-> id ∈ primary.*1 \/ id = VStr (ae_uuid env).
Proof.
  intros Hinit Hclient. unfold Mem0Adapter_store. rewrite Hinit, Hclient. cbn [negb].
  unfold mock_client_add at 1, dict_get_default. rewrite dict_get_set_eq.
  do 3 eexists. split; [reflexivity|]. cbn [m0_is_initialized m0_client].
  split; [done|]. split; [done|].
  intros id. apply memories_set_keys.
Qed.

Lemma Mem0Adapter_sync_loop_spec (records : list MemoryRecord) :
  forall (self : Mem0Adapter) (envs : nat -> adapter_env) (i : nat)
         (n_synced n_errors : Z) (primary : memories),
    m0_is_initialized self = true ->
    m0_client self = Some primary ->
    exists self' primary',
      Mem0Adapter_sync_loop self envs i records n_synced n_errors
      = (SyncReport (n_synced + Z.of_nat (length records)) n_errors None, self') /\
      m0_client self' = Some primary' /\
      forall id,
        id ∈ primary'.*1 <->
        id ∈ primary.*1 \/
        exists j, (j < length records)%nat /\ id = VStr (ae_uuid (envs (i + j)%nat)).
Proof.
  induction records as [|record records IH];
    intros self envs i n_synced n_errors primary Hinit Hclient;
    cbn [Mem0Adapter_sync_loop length].
  - exists self, primary. rewrite Z.add_0_r. split; [done|]. split; [done|].
    intros id. split; [tauto|]. intros [H|(j & Hj & _)]; [done | lia].
  - destruct (Mem0Adapter_store_ids self (envs i) (mr_content record)
                (mr_metadata record) primary Hinit Hclient)
      as (stored & self1 & primary1 & -> & Hinit1 & Hclient1 & Hids1).
    destruct (IH self1 envs (S i) (n_synced + 1)%Z n_errors primary1 Hinit1 Hclient1)
      as (self' & primary' & -> & Hclient' & Hids').
    exists self', primary'. split.
    { by replace (n_synced + Z.of_nat (S (length records)))%Z
        with (n_synced + 1 + Z.of_nat (length records))%Z by lia. }
    split; [done|].
    intros id. rewrite Hids', Hids1. split.
    + intros [[H| ->]|(j & Hj & ->)].
      * by left.
      * right. exists 0%nat. split; [lia|]. by rewrite Nat.add_0_r.
      * right. exists (S j). split; [lia|]. by rewrite Nat.add_succ_r.
    + intros [H|(j & Hj & ->)]; [by left; left|].
      destruct j as [|j].
      * left; right. by rewrite Nat.add_0_r.
      * right. exists j. split; [lia|]. by rewrite Nat.add_succ_r.
Qed.

(** X13. [Mem0Adapter.sync_from_source] on an initialized adapter stores
    every source record: it reports all of them as synced and no error,
    and afterwards the client holds, beside the ids it held before,
    exactly the ids drawn by the stores, one fresh draw per record. The
    ids of the source records are not carried over. *)
Theorem sync_stores_under_new_ids (self : Mem0Adapter) (envs : nat -> adapter_env)
    (source_records : list MemoryRecord) (primary : memories) :
  m0_is_initialized self = true ->
  m0_client self = Some primary ->
  exists (self' : Mem0Adapter),
    Mem0Adapter_sync_from_source self envs source_records
    = (SyncReport (Z.of_nat (length source_records)) 0 None, self') /\
    forall id : pyval,
      id ∈ stored_ids (m0_client self') <->
      id ∈ stored_ids (m0_client self) \/
      exists j : nat,
        (j < length source_records)%nat /\ id = VStr (ae_uuid (envs j)).
Proof.
  intros Hinit Hclient. unfold Mem0Adapter_sync_from_source. rewrite Hinit. cbn [negb].
  destruct (Mem0Adapter_sync_loop_spec source_records self envs 0 0%Z 0%Z primary
              Hinit Hclient) as (self' & primary' & -> & Hclient' & Hids).
  exists self'. split; [done|].
  rewrite Hclient, Hclient'. cbn [stored_ids]. exact Hids.
Qed.

(** ** Bulk storage endpoint *)

Lemma count_status_total (results : list bulk_entry) :
  Forall (fun entry => bulk_entry_status entry = "success"
                       \/ bulk_entry_status entry = "failed") results ->
  (count_status "success" results + count_status "failed" results = length results)%nat.
Proof.
  unfold count_status. induction 1 as [|entry results Hentry _ IH]; [done|].
  rewrite !filter_cons. cbn [length].
  destruct Hentry as [-> | ->]; cbn [String.eqb Ascii.eqb Bool.eqb];
    repeat case_decide; try done; cbn [length]; lia.
Qed.

Section BulkStore.
Context `{PyLib}.

Lemma bulk_store_loop_spec (memories : list bulk_item) :
  forall (envs : nat -> store_env) (i : nat) (results : list bulk_entry)
         (self : orchestrator),
    reachable self ->
    exists (entries : list bulk_entry) (self' : orchestrator),
      bulk_store_loop envs i memories results self = (Returns (results ++ entries), self') /\
      length entries = length memories /\
      reachable self' /\
      Forall (fun entry => bulk_entry_status entry = "success"
                           \/ bulk_entry_status entry = "failed") entries /\
      length (audit_chain self')
      = (length (audit_chain self)
         + length (filter (fun m => is_stored m = true) memories))%nat /\
      Forall2 (fun m entry =>
                 match entry with
                 | BulkStored _ => is_stored m = true
                 | BulkFailed e preview =>
                     preview = str_take 100 (default "" (bi_content m)) /\
                     (valid_priority m = false /\
                      e = InvalidPriority (default "medium" (bi_priority m))
                      \/ valid_priority m = true /\
                         encodable (default "" (bi_content m)) = false /\
                         e = StoreFailed (HTTPException 500
                               ("Memory storage failed: "
                                ++ encode_error_message (default "" (bi_content m)))%string))
                 end) memories entries.
Proof.
  induction memories as [|memory_data rest IH]; intros envs i results self Hreach.
  - exists [], self. cbn [bulk_store_loop]. unfold run_ret. rewrite app_nil_r.
    split; [done|]. split; [done|]. split; [done|]. split; [done|].
    split; [cbn; lia | constructor].
  - cbn [bulk_store_loop]. rewrite filter_cons.
    assert (Hv : valid_priority memory_data
                 = match MemoryPriority_of_value
                           (default "medium" (bi_priority memory_data)) with
                   | Some _ => true
                   | None => false
                   end) by reflexivity.
    destruct (MemoryPriority_of_value (default "medium" (bi_priority memory_data)))
      as [p|] eqn:Hp.
    + pose proof (reachable_store self (envs i) (default "" (bi_content memory_data))
                    (bulk_metadata p (default "bulk_import" (bi_source memory_data)))
                    ALL Hreach) as Hreach1.
      destruct (encodable (default "" (bi_content memory_data))) eqn:Henc.
      * destruct (store_memory_unified_state self (envs i)
                    (default "" (bi_content memory_data))
                    (bulk_metadata p (default "bulk_import" (bi_source memory_data)))
                    ALL (reachable_chain_ok self Hreach) Henc)
          as (r & e & op & _ & _ & _ & _ & Hrun & _ & _ & _ & Hstatus).
        rewrite Hrun in Hreach1. cbn [snd] in Hreach1.
        unfold run_bind at 1, run_try, run_bind at 1, run_ret at 1. rewrite Hrun.
        match type of Hreach1 with reachable ?s =>
          destruct (IH envs (S i) (results ++ [BulkStored r]) s Hreach1)
            as (entries & self' & -> & Hlen & Hreach' & Hst & Hchain & Hshape)
        end.
        exists (BulkStored r :: entries), self'.
        split; [by rewrite <- app_assoc|].
        split; [cbn [length]; by rewrite Hlen|].
        split; [done|].
        split.
        { constructor; [|done]. cbn [bulk_entry_status]. rewrite Hstatus.
          destruct (0 <? success_count (st_results r))%Z; [by left | by right]. }
        assert (is_stored memory_data = true) as Hs
          by (unfold is_stored, valid_priority; by rewrite Hp, Henc).
        split.
        { rewrite Hchain. cbn [audit_chain]. rewrite length_app.
          rewrite decide_True by done. cbn [length]. lia. }
        by constructor.
      * pose proof (store_memory_unified_raises self (envs i)
                      (default "" (bi_content memory_data))
                      (bulk_metadata p (default "bulk_import" (bi_source memory_data)))
                      ALL Henc) as Hrun.
        rewrite Hrun in Hreach1. cbn [snd] in Hreach1.
        unfold run_bind at 1, run_try, run_bind at 1, run_ret at 1. rewrite Hrun.
        unfold run_ret at 1.
        match goal with |- context [BulkFailed ?x ?y] =>
          destruct (IH envs (S i) (results ++ [BulkFailed x y]) _ Hreach1)
            as (entries & self' & -> & Hlen & Hreach' & Hst & Hchain & Hshape)
        end.
        eexists (_ :: entries), self'.
        split; [by rewrite <- app_assoc|].
        split; [cbn [length]; by rewrite Hlen|].
        split; [done|].
        split; [constructor; [by right | done]|].
        assert (is_stored memory_data = false) as Hs
          by (unfold is_stored, valid_priority; by rewrite Hp, Henc).
        split.
        { rewrite Hchain. by rewrite decide_False by congruence. }
        constructor; [|done]. split; [done|]. right.
        unfold valid_priority. by rewrite Hp.
    + unfold run_bind at 1, run_ret at 1.
      destruct (IH envs (S i)
                  (results ++ [BulkFailed
                     (InvalidPriority (default "medium" (bi_priority memory_data)))
                     (str_take 100 (default "" (bi_content memory_data)))])
                  self Hreach)
        as (entries & self' & -> & Hlen & Hreach' & Hst & Hchain & Hshape).
      eexists (_ :: entries), self'.
      split; [by rewrite <- app_assoc|].
      split; [cbn [length]; by rewrite Hlen|].
      split; [done|].
      split; [constructor; [by right | done]|].
      assert (is_stored memory_data = false) as Hs
        by (unfold is_stored, valid_priority; by rewrite Hp).
      split.
      { rewrite Hchain. by rewrite decide_False by congruence. }
      constructor; [|done]. split; [done|]. left.
      unfold valid_priority. by rewrite Hp.
Qed.

End BulkStore.

(** ** Pinecone adapter *)

(** [s[:n]] is [s] when [s] has at most [n] characters. *)
Lemma str_take_all (n : nat) (s : string) :
  (py_len s <= n)%nat -> str_take n s = s.
Proof.
  revert n. induction s as [|c s IH]; intros n Hlen; [done|].
  cbn [str_take py_len] in *. destruct (is_continuation c).
  - f_equal. by apply IH.
  - destruct n as [|n]; [lia|]. f_equal. apply IH. lia.
Qed.

(** [len(s[:n])] is [min(n, len(s))]. *)
Lemma str_take_length (n : nat) (s : string) :
  py_len (str_take n s) = Nat.min n (py_len s).
Proof.
  revert n. induction s as [|c s IH]; intros n; cbn [str_take py_len].
  - by destruct n.
  - destruct (is_continuation c) eqn:Hc.
    + cbn [py_len]. rewrite Hc. apply IH.
    + destruct n as [|n]; [done|]. cbn [py_len]. rewrite Hc, IH. done.
Qed.

(** A prefix of a string that can be encoded can be encoded. *)
Lemma str_take_encodable (n : nat) (s : string) :
  encodable s = true -> encodable (str_take n s) = true.
Proof.
  revert n. induction s as [|c s IH]; intros n; [done|].
  cbn [encodable str_take]. intros [Hc Hs]%andb_true_iff.
  assert (forall m, match str_take m s with
                    | String d _ => negb (is_surrogate c d)
                    | EmptyString => true
                    end = true) as Hhead.
  { intros m. destruct s as [|d s']; [done|]. cbn [str_take].
    destruct (is_continuation d); [done|]. by destruct m. }
  destruct (is_continuation c).
  - cbn [encodable]. by rewrite Hhead, IH.
  - destruct n as [|n]; [done|]. cbn [encodable]. by rewrite Hhead, IH.
Qed.

Lemma vectors_get_set_eq (k : string) (v : vector_data) (vs : vectors) :
  vectors_get k (vectors_set k v vs) = Some v.
Proof.
  induction vs as [|[k0 v0] vs IH]; cbn [vectors_set vectors_get].
  - by rewrite String.eqb_refl.
  - destruct (String.eqb k k0) eqn:E; cbn [vectors_get]; rewrite E; [done | exact IH].
Qed.

Lemma vectors_get_set_ne (k k' : string) (v : vector_data) (vs : vectors) :
  k <> k' -> vectors_get k' (vectors_set k v vs) = vectors_get k' vs.
Proof.
  intros Hne. induction vs as [|[k0 v0] vs IH]; cbn [vectors_set vectors_get].
  - destruct (String.eqb_spec k' k); [congruence | done].
  - destruct (String.eqb_spec k k0) as [->|Hk]; cbn [vectors_get].
    + destruct (String.eqb_spec k' k0); [congruence | done].
    + destruct (String.eqb k' k0); [done | exact IH].
Qed.

Lemma vectors_set_set (k : string) (v v' : vector_data) (vs : vectors) :
  vectors_set k v' (vectors_set k v vs) = vectors_set k v' vs.
Proof.
  induction vs as [|[k0 v0] vs IH]; cbn [vectors_set].
  - by rewrite String.eqb_refl.
  - destruct (String.eqb k k0) eqn:E; cbn [vectors_set]; rewrite E; [done | by rewrite IH].
Qed.

Lemma pinecone_metadata_content (content timestamp : string) (metadata : pydict) :
  dict_get "content" (pinecone_metadata content timestamp metadata)
  = Some (VStr (str_take 1000 content)) /\
  dict_get "timestamp" (pinecone_metadata content timestamp metadata)
  = Some (VStr timestamp) /\
  dict_get "source_system" (pinecone_metadata content timestamp metadata)
  = Some (VStr "Pinecone").
Proof.
  unfold pinecone_metadata. split; [|split].
  - rewrite !dict_get_set_ne by done. apply dict_get_set_eq.
  - rewrite dict_get_set_ne by done. apply dict_get_set_eq.
  - apply dict_get_set_eq.
Qed.

Lemma PineconeAdapter_store_inv (self self' : PineconeAdapter) (uuid now content : string)
    (metadata : pydict) (record : MemoryRecord) :
  PineconeAdapter_store self uuid now content metadata = Returns (record, self') ->
  exists vs,
    pc_is_initialized self = true /\
    pc_index self = Some vs /\
    encodable content = true /\
    record = mkMemoryRecord uuid content metadata now "Pinecone"
               (dict_get "legal_relevance" metadata) [] /\
    self' = mkPineconeAdapter true
              (Some (MockPineconeIndex_upsert vs uuid content
                       (pinecone_metadata content now metadata))).
Proof.
  unfold PineconeAdapter_store, _generate_embedding.
  destruct (pc_is_initialized self); cbn [negb]; [|discriminate].
  destruct (encodable content); cbn [py_bind]; [|discriminate].
  destruct (pc_index self) as [vs|]; [|discriminate].
  intros [= <- <-]. by exists vs.
Qed.

(** X15. [PineconeAdapter.store] on an initialized adapter raises
    [UnicodeEncodeError] for a content that holds a surrogate and stores
    nothing. For any other content it returns a record with the whole
    content, and [get_by_id] reads the memory back with its content cut
    to the first 1000 characters: the content read back is the one
    stored only when that has at most 1000 characters. The metadata read
    back is the caller's with the keys [content], [timestamp] and
    [source_system] set by the adapter, over any value the caller gave
    them. The other ids read as before. *)
Theorem pinecone_store_truncates_content (self : PineconeAdapter) (vs : vectors)
    (uuid now content : string) (metadata : pydict) (now' : string) :
  pc_is_initialized self = true ->
  pc_index self = Some vs ->
  (encodable content = false ->
   PineconeAdapter_store self uuid now content metadata
   = Raises (UnicodeEncodeError (encode_error_message content))) /\
  (encodable content = true ->
   exists (record : MemoryRecord) (self' : PineconeAdapter),
     PineconeAdapter_store self uuid now content metadata = Returns (record, self') /\
     mr_id record = uuid /\
     mr_content record = content /\
     PineconeAdapter_get_by_id self' now' (mr_id record)
     = Some (FetchedRecord (VStr (mr_id record)) (VStr (str_take 1000 content))
               (VDict (pinecone_metadata content now metadata)) (VStr now)
               "Pinecone" None) /\
     py_len (str_take 1000 content) = Nat.min 1000 (py_len content) /\
     (str_take 1000 content = content <-> (py_len content <= 1000)%nat) /\
     forall other : string,
       other <> mr_id record ->
       PineconeAdapter_get_by_id self' now' other
       = PineconeAdapter_get_by_id self now' other).
Proof.
  intros Hinit Hindex. unfold PineconeAdapter_store, _generate_embedding.
  rewrite Hinit, Hindex. cbn [negb].
  split; intros ->; cbn [py_bind]; [done|].
  do 2 eexists. split; [reflexivity|].
  cbn [mr_content mr_id]. split; [done|]. split; [done|].
  destruct (pinecone_metadata_content content now metadata) as (Hc & Ht & _).
  unfold PineconeAdapter_get_by_id, MockPineconeIndex_upsert.
  cbn [pc_is_initialized pc_index negb]. rewrite Hinit, Hindex. cbn [negb].
  split.
  { rewrite vectors_get_set_eq. cbn [vd_metadata]. unfold record_of_vector, dict_get_default.
    by rewrite Hc, Ht. }
  split; [apply str_take_length|].
  split.
  { split; [|apply str_take_all].
    intros Heq. rewrite <- Heq at 1. rewrite str_take_length. lia. }
  intros other Hne. by rewrite vectors_get_set_ne by congruence.
Qed.

Lemma fmap_imap_const {A B C : Type} (g : B -> C) (f : nat -> A -> B) (h : A -> C)
    (l : list A) :
  (forall i x, g (f i x) = h x) -> g <$> imap f l = h <$> l.
Proof.
  revert f. induction l as [|x l IH]; intros f Hf; [done|].
  cbn. f_equal; [apply Hf|]. apply IH. intros i y. apply Hf.
Qed.

Lemma py_slice_to_fmap {A B : Type} (f : A -> B) (limit : Z) (l : list A) :
  py_slice_to limit (f <$> l) = f <$> py_slice_to limit l.
Proof.
  unfold py_slice_to. rewrite length_fmap.
  destruct (0 <=? limit)%Z; by rewrite fmap_take.
Qed.

(** X16. [PineconeAdapter.search] looks at the query only to compute its
    embedding. For a query that holds a surrogate that raises inside the
    [try] block and the search answers with the empty list. For every
    other query an initialized adapter returns the first [limit] vectors
    of the index, in the order they were first stored, whatever is
    asked: two such queries get the same answer. *)
Theorem pinecone_search_ignores_query (self : PineconeAdapter) (vs : vectors)
    (now : nat -> string) (query : string) (limit : Z) :
  pc_is_initialized self = true ->
  pc_index self = Some vs ->
  (encodable query = false -> PineconeAdapter_search self now query limit = []) /\
  (encodable query = true ->
   fetched_id <$> PineconeAdapter_search self now query limit
   = (fun kv : string * vector_data => VStr (vd_id kv.2)) <$> py_slice_to limit vs /\
   ((0 <= limit)%Z ->
    length (PineconeAdapter_search self now query limit)
    = Nat.min (Z.to_nat limit) (length vs)) /\
   forall query' : string,
     encodable query' = true ->
     PineconeAdapter_search self now query' limit
     = PineconeAdapter_search self now query limit).
Proof.
  intros Hinit Hindex.
  unfold PineconeAdapter_search, _generate_embedding, MockPineconeIndex_query.
  rewrite Hinit, Hindex. cbn [negb].
  split; intros ->; [done|].
  split; [|split].
  - rewrite (fmap_imap_const fetched_id _ (fun m => VStr (vd_id m))) by done.
    by rewrite py_slice_to_fmap, <- list_fmap_compose.
  - intros Hlimit. rewrite length_imap. unfold py_slice_to.
    destruct (Z.leb_spec 0 limit) as [_|]; [|lia].
    by rewrite length_take, length_fmap.
  - by intros query' ->.
Qed.

(** X17. [PineconeAdapter.update] of a stored memory with a new content
    that can be encoded returns a record with the whole new content, the
    metadata extended by the keys of the update and the timestamp of the
    first store. What it stores, and [get_by_id] reads from then on,
    differs from that record: the content is cut to its first 1000
    characters, the timestamp is the time of the update, and the metadata
    carries both under the keys [content] and [timestamp], over any value
    the update gave to those keys. With a new content that holds a
    surrogate the update raises [UnicodeEncodeError], after it has
    written the keys of the update into the stored metadata: the memory
    keeps its stored content and timestamp unless the update gave those
    keys, and the rest of the update stays. *)
Theorem pinecone_update_stores_truncated (self self' : PineconeAdapter)
    (uuid now content : string) (metadata : pydict) (record : MemoryRecord)
    (now1 now2 now3 content' : string) (metadata' : option pydict) :
  PineconeAdapter_store self uuid now content metadata = Returns (record, self') ->
  content' <> "" ->
  let merged := dict_update (pinecone_metadata content now metadata) (default [] metadata') in
  (encodable content' = true ->
   exists (updated stored : fetched_record) (self'' : PineconeAdapter),
     PineconeAdapter_update self' now1 now2 (mr_id record) (Some content') metadata'
     = (AdapterReturns updated, self'') /\
     fetched_content updated = VStr content' /\
     fetched_metadata updated = VDict merged /\
     fetched_timestamp updated = VStr now /\
     PineconeAdapter_get_by_id self'' now3 (mr_id record) = Some stored /\
     fetched_content stored = VStr (str_take 1000 content') /\
     fetched_timestamp stored = VStr now2 /\
     fetched_metadata stored
     = VDict (dict_set "timestamp" (VStr now2)
                (dict_set "content" (VStr (str_take 1000 content')) merged))) /\
  (encodable content' = false ->
   exists (stored : fetched_record) (self'' : PineconeAdapter),
     PineconeAdapter_update self' now1 now2 (mr_id record) (Some content') metadata'
     = (AdapterRaises
          (UnicodeEncodeError (encode_error_message content')),
        self'') /\
     PineconeAdapter_get_by_id self'' now3 (mr_id record) = Some stored /\
     fetched_metadata stored = VDict merged /\
     fetched_content stored = dict_get_default "content" (VStr "") merged /\
     fetched_timestamp stored = dict_get_default "timestamp" (VStr now3) merged).
Proof.
  intros Hstore Hcontent merged.
  apply PineconeAdapter_store_inv in Hstore as (vs & Hinit & Hindex & _ & -> & ->).
  cbn [mr_id].
  destruct (pinecone_metadata_content content now metadata) as (Hc & Ht & _).
  assert (Hne : String.eqb content' "" = false) by by apply String.eqb_neq.
  assert (Hmerged : match metadata' with
                    | Some (kv :: more) =>
                        dict_update (pinecone_metadata content now metadata) (kv :: more)
                    | _ => pinecone_metadata content now metadata
                    end = merged).
  { subst merged. by destruct metadata' as [[|kv more]|]. }
  unfold PineconeAdapter_update, PineconeAdapter_get_by_id, MockPineconeIndex_upsert,
    _generate_embedding.
  cbn [pc_is_initialized pc_index negb].
  rewrite vectors_get_set_eq. cbn [vd_metadata vd_id vd_embedded_text].
  rewrite Hmerged.
  unfold record_of_vector, dict_get_default. rewrite Hc, Ht.
  cbn [fetched_id fetched_content fetched_timestamp fetched_source_system
       fetched_legal_relevance updated_content].
  rewrite Hne. split; intros ->.
  - do 3 eexists. split; [reflexivity|].
    cbn [fetched_content fetched_metadata fetched_timestamp pc_is_initialized pc_index negb].
    split; [done|]. split; [done|]. split; [done|].
    rewrite vectors_get_set_eq. cbn [vd_metadata].
    split; [reflexivity|].
    cbn [fetched_content fetched_metadata fetched_timestamp].
    rewrite dict_get_set_eq.
    rewrite dict_get_set_ne by done. rewrite dict_get_set_eq.
    done.
  - do 2 eexists. split; [reflexivity|].
    cbn [pc_is_initialized pc_index negb].
    rewrite vectors_set_set, vectors_get_set_eq. cbn [vd_metadata].
    split; [reflexivity|]. done.
Qed.

(** ** Adapter factory *)

Lemma initialize_all_adapters_eq (env : environ) :
  initialize_all_adapters env
  = ( [ ("mem0",
          if is_set env "MEM0_API_KEY"
          then [ ("status", VStr "initialized");
                 ("config_keys",
                   VList [VStr "api_key"; VStr "api_key_secondary"; VStr "base_url"]) ]
          else [ ("status", VStr "missing_config") ]);
        ("pinecone",
          if is_set env "PINECONE_API_KEY"
          then [ ("status", VStr "initialized");
                 ("config_keys",
                   VList [VStr "api_key"; VStr "environment"; VStr "index_name"]) ]
          else [ ("status", VStr "missing_config") ]);
        ("supermemory",
          if is_set env "SUPERMEMORY_API_KEY"
          then [ ("status", VStr "initialized");
                 ("config_keys", VList [VStr "api_key"; VStr "base_url"]) ]
          else [ ("status", VStr "missing_config") ]) ],
      (if is_set env "MEM0_API_KEY"
       then [ ("mem0",
                AdapterMem0
                  (Mem0Adapter_initialize (is_set env "MEM0_API_KEY_SECONDARY"))) ]
       else [])
      ++ (if is_set env "PINECONE_API_KEY"
          then [ ("pinecone", AdapterPinecone PineconeAdapter_initialize) ] else [])
      ++ (if is_set env "SUPERMEMORY_API_KEY"
          then [ ("supermemory", AdapterSuperMemory SuperMemoryAdapter_initialize) ]
          else []) ).
Proof.
  unfold initialize_all_adapters, ADAPTER_CLASSES, initialize_one, _get_adapter_config,
    _check_required_config, getenv, is_set.
  destruct (env "MEM0_API_KEY") as [[|c1 k1]|],
           (env "PINECONE_API_KEY") as [[|c2 k2]|],
           (env "SUPERMEMORY_API_KEY") as [[|c3 k3]|],
           (env "MEM0_API_KEY_SECONDARY") as [[|c4 k4]|];
    reflexivity.
Qed.

(** X18. [initialize_all_adapters] reports on the three adapters, in the
    order mem0, pinecone, supermemory, and what it does with each
    depends on one environment variable alone: when the adapter's
    [..._API_KEY] is set and not empty the adapter is created,
    initialized, registered and reported as [initialized] with the keys
    of its configuration; otherwise it is reported as [missing_config]
    and not registered. No adapter is ever reported as
    [failed_initialization]. The Mem0 adapter gets a secondary client
    exactly when [MEM0_API_KEY_SECONDARY] is set and not empty. Every
    registered adapter is initialized and [get_adapter_health] reports
    it as [healthy]. *)
Theorem factory_registers_configured_adapters (env : environ) :
  let results := (initialize_all_adapters env).1 in
  let registered := (initialize_all_adapters env).2 in
  results.*1 = ["mem0"; "pinecone"; "supermemory"] /\
  assoc_get "mem0" results
  = Some (if is_set env "MEM0_API_KEY"
          then [ ("status", VStr "initialized");
                 ("config_keys",
                   VList [VStr "api_key"; VStr "api_key_secondary"; VStr "base_url"]) ]
          else [ ("status", VStr "missing_config") ]) /\
  assoc_get "pinecone" results
  = Some (if is_set env "PINECONE_API_KEY"
          then [ ("status", VStr "initialized");
                 ("config_keys",
                   VList [VStr "api_key"; VStr "environment"; VStr "index_name"]) ]
          else [ ("status", VStr "missing_config") ]) /\
  assoc_get "supermemory" results
  = Some (if is_set env "SUPERMEMORY_API_KEY"
          then [ ("status", VStr "initialized");
                 ("config_keys", VList [VStr "api_key"; VStr "base_url"]) ]
          else [ ("status", VStr "missing_config") ]) /\
  assoc_get "mem0" registered
  = (if is_set env "MEM0_API_KEY"
     then Some (AdapterMem0 (Mem0Adapter_initialize (is_set env "MEM0_API_KEY_SECONDARY")))
     else None) /\
  assoc_get "pinecone" registered
  = (if is_set env "PINECONE_API_KEY"
     then Some (AdapterPinecone PineconeAdapter_initialize) else None) /\
  assoc_get "supermemory" registered
  = (if is_set env "SUPERMEMORY_API_KEY"
     then Some (AdapterSuperMemory SuperMemoryAdapter_initialize) else None) /\
  forall (name : string) (a : adapter),
    assoc_get name registered = Some a ->
    adapter_is_initialized a = true /\
    assoc_get name (get_adapter_health registered)
    = Some [ ("system", VStr (adapter_system_name a));
             ("initialized", VBool true);
             ("status", VStr "healthy") ].
Proof.
  cbv zeta. rewrite initialize_all_adapters_eq. cbn [fst snd].
  split; [reflexivity|]. split; [reflexivity|]. split; [reflexivity|].
  split; [reflexivity|].
  destruct (is_set env "MEM0_API_KEY"), (is_set env "PINECONE_API_KEY"),
           (is_set env "SUPERMEMORY_API_KEY");
    cbn [app assoc_get String.eqb Ascii.eqb Bool.eqb];
    (split; [reflexivity|]); (split; [reflexivity|]); (split; [reflexivity|]);
    intros name a;
    repeat match goal with
           | |- context [String.eqb name ?s] =>
               destruct (String.eqb_spec name s) as [->|_];
               [intros [= <-]; split; reflexivity|]
           end;
    discriminate.
Qed.

(** ** The adapter and bulk store properties on sample data *)

Lemma store_then_get_by_id_witness :
  exists record self',
    Mem0Adapter_store (Mem0Adapter_initialize true) (sample_adapter_env "uuid-a")
      "evidence-17" sample_adapter_metadata = Returns (record, self') /\
    Mem0Adapter_get_by_id self' "2025-10-19T00:00:00" "uuid-a"
    = Some (FetchedRecord (VStr "uuid-a") (VStr "evidence-17")
              (VDict [ ("legal_relevance", VInt 1); ("id", VStr "uuid-a") ])
              (VStr "2025-10-18T02:00:01") "Mem0" None).
Proof.
  do 2 eexists. split; [reflexivity|].
  exact (proj1 (store_then_get_by_id (Mem0Adapter_initialize true) _
                  (sample_adapter_env "uuid-a") "evidence-17" sample_adapter_metadata _
                  "2025-10-19T00:00:00" eq_refl)).
Defined.

Lemma delete_forgets_primary_only_witness :
  exists record self',
    Mem0Adapter_store (Mem0Adapter_initialize true) (sample_adapter_env "uuid-a")
      "evidence-17" sample_adapter_metadata = Returns (record, self') /\
    Mem0Adapter_get_by_id (Mem0Adapter_delete self' "uuid-a").2 "2025-10-19T00:00:00"
      "uuid-a" = None /\
    stored_ids (m0_client_secondary (Mem0Adapter_delete self' "uuid-a").2)
    = [VStr "uuid-a"].
Proof.
  do 2 eexists. split; [reflexivity|].
  split; [|reflexivity].
  exact (proj1 (proj2 (delete_forgets_primary_only (Mem0Adapter_initialize true) _
                         (sample_adapter_env "uuid-a") "evidence-17"
                         sample_adapter_metadata _ "2025-10-19T00:00:00" eq_refl))).
Defined.

Lemma mem0_update_keeps_stored_content_witness :
  exists record self' updated self'',
    Mem0Adapter_store (Mem0Adapter_initialize true) (sample_adapter_env "uuid-a")
      "evidence-17" sample_adapter_metadata = Returns (record, self') /\
    Mem0Adapter_update self' "2025-10-19T00:00:00" "uuid-a" (Some "evidence-18")
      (Some [ ("reviewed", VBool true) ]) = (AdapterReturns updated, self'') /\
    fetched_content updated = VStr "evidence-18" /\
    Mem0Adapter_get_by_id self'' "2025-10-19T00:00:00" "uuid-a"
    = Some (FetchedRecord (VStr "uuid-a") (VStr "evidence-17")
              (VDict [ ("legal_relevance", VInt 1); ("id", VStr "uuid-a");
                       ("reviewed", VBool true) ])
              (VStr "2025-10-18T02:00:01") "Mem0" None).
Proof.
  assert ("evidence-18" <> "") as Hcontent by discriminate.
  destruct (mem0_update_keeps_stored_content (Mem0Adapter_initialize true) _
              (sample_adapter_env "uuid-a") "evidence-17" sample_adapter_metadata _
              "2025-10-19T00:00:00" "evidence-18" [ ("reviewed", VBool true) ]
              eq_refl Hcontent)
    as (updated & self'' & Hrun & Hc & _ & Hget).
  do 2 eexists. exists updated, self''.
  split; [reflexivity|]. split; [exact Hrun|]. split; [exact Hc | exact Hget].
Defined.

Lemma supermemory_update_is_read_back_witness :
  exists record self' updated self'',
    SuperMemoryAdapter_store SuperMemoryAdapter_initialize (sample_adapter_env "uuid-b")
      "evidence-17" sample_adapter_metadata = Returns (record, self') /\
    SuperMemoryAdapter_update self' "2025-10-19T00:00:00" "uuid-b" (Some "evidence-18")
      None = (AdapterReturns updated, self'') /\
    SuperMemoryAdapter_get_by_id self'' "2025-10-19T00:00:00" "uuid-b" = Some updated /\
    fetched_content updated = VStr "evidence-18".
Proof.
  destruct (supermemory_update_is_read_back SuperMemoryAdapter_initialize _
              (sample_adapter_env "uuid-b") "evidence-17" sample_adapter_metadata _
              "2025-10-19T00:00:00" (Some "evidence-18") None eq_refl)
    as (updated & self'' & Hrun & Hget & Hc & _).
  do 2 eexists. exists updated, self''.
  split; [reflexivity|]. split; [exact Hrun|]. split; [exact Hget | exact Hc].
Defined.

Lemma sample_memories_hold_text : Forall holds_text (snd <$> sample_memories).
Proof. repeat constructor; eexists; reflexivity. Qed.

(** The third memory contains the query and is not found with limit 2. *)
Lemma search_scans_first_limit_witness :
  fetched_id <$> adapter_search true (Some sample_memories) "Mem0" (fun s => s)
                   (fun _ => "fresh") (fun _ => "2025-10-19T00:00:00") "evidence" 2
  = [VStr "m1"] /\
  (length (adapter_search true (Some sample_memories) "Mem0" (fun s => s)
             (fun _ => "fresh") (fun _ => "2025-10-19T00:00:00") "evidence" 2)
   <= 2)%nat.
Proof.
  assert (0 <= 2)%Z as Hlimit by lia.
  destruct (search_scans_first_limit "Mem0" (fun s => s) (fun _ => "fresh")
              (fun _ => "2025-10-19T00:00:00") sample_memories "evidence" 2 Hlimit
              sample_memories_hold_text) as [Heq Hlen].
  split; [|exact Hlen]. rewrite Heq. reflexivity.
Defined.

Lemma sync_stores_under_new_ids_witness :
  exists self',
    Mem0Adapter_sync_from_source (Mem0Adapter_initialize false) sample_sync_envs
      sample_source_records = (SyncReport 2 0 None, self') /\
    VStr "sync-1" ∈ stored_ids (m0_client self') /\
    VStr "source-a" ∉ stored_ids (m0_client self').
Proof.
  destruct (sync_stores_under_new_ids (Mem0Adapter_initialize false) sample_sync_envs
              sample_source_records [] eq_refl eq_refl) as (self' & Hrun & Hids).
  exists self'. split; [exact Hrun|]. split.
  - apply Hids. right. exists 1%nat. split; [cbn; lia | reflexivity].
  - intros Hin. apply Hids in Hin as [Hin|(j & Hj & Heq)].
    + by apply elem_of_nil in Hin.
    + destruct j as [|[|j]]; cbn in Hj; [discriminate Heq | discriminate Heq | lia].
Defined.


(** The sample bulk store, run: the first item is stored, the second is
    refused for its priority and the third for its content. *)
Example bulk_store_sample_run :
  (bulk_entry_status <$>
     match (@bulk_store_memories sample_lib (fun _ => sample_store_env)
              sample_bulk_items sample_state).1 with
     | Returns report => br_results report
     | Raises _ => []
     end) = ["success"; "failed"; "failed"] /\
  failed_operations
    (o_metrics (@bulk_store_memories sample_lib (fun _ => sample_store_env)
                  sample_bulk_items sample_state).2) = 1%Z.
Proof. split; vm_compute; reflexivity. Qed.

Lemma pinecone_store_truncates_content_witness :
  (exists record self',
     PineconeAdapter_store PineconeAdapter_initialize "uuid-c" "2025-10-18T02:00:00"
       "evidence-17" [ ("content", VStr "mine") ] = Returns (record, self') /\
     PineconeAdapter_get_by_id self' "2025-10-19T00:00:00" (mr_id record)
     = Some (FetchedRecord (VStr (mr_id record)) (VStr "evidence-17")
               (VDict [ ("content", VStr "evidence-17");
                        ("timestamp", VStr "2025-10-18T02:00:00");
                        ("source_system", VStr "Pinecone") ])
               (VStr "2025-10-18T02:00:00") "Pinecone" None)) /\
  PineconeAdapter_store PineconeAdapter_initialize "uuid-c" "2025-10-18T02:00:00"
    surrogate_content []
  = Raises (UnicodeEncodeError "'utf-8' codec can't encode character '\ud800' in position 1: surrogates not allowed").
Proof.
  split.
  - destruct (proj2 (pinecone_store_truncates_content PineconeAdapter_initialize []
                       "uuid-c" "2025-10-18T02:00:00" "evidence-17"
                       [ ("content", VStr "mine") ] "2025-10-19T00:00:00"
                       eq_refl eq_refl) eq_refl)
      as (record & self' & Hrun & _ & _ & Hget & _).
    exists record, self'. split; [exact Hrun | exact Hget].
  - exact (proj1 (pinecone_store_truncates_content PineconeAdapter_initialize []
                    "uuid-c" "2025-10-18T02:00:00" surrogate_content []
                    "2025-10-19T00:00:00" eq_refl eq_refl) eq_refl).
Defined.

(** [pinecone_search_ignores_query] on the adapter after the sample
    store: every query that can be encoded gets the answer of [weather],
    and one that holds a surrogate gets nothing. *)
Lemma pinecone_search_ignores_query_witness :
  (forall query', encodable query' = true ->
     PineconeAdapter_search
       (mkPineconeAdapter true
          (Some (MockPineconeIndex_upsert [] "uuid-c" "evidence-17"
                   (pinecone_metadata "evidence-17" "2025-10-18T02:00:00" []))))
       (fun _ => "2025-10-19T00:00:00") query' 5
     = PineconeAdapter_search
         (mkPineconeAdapter true
            (Some (MockPineconeIndex_upsert [] "uuid-c" "evidence-17"
                     (pinecone_metadata "evidence-17" "2025-10-18T02:00:00" []))))
         (fun _ => "2025-10-19T00:00:00") "weather" 5) /\
  length (PineconeAdapter_search
            (mkPineconeAdapter true
               (Some (MockPineconeIndex_upsert [] "uuid-c" "evidence-17"
                        (pinecone_metadata "evidence-17" "2025-10-18T02:00:00" []))))
            (fun _ => "2025-10-19T00:00:00") "weather" 5) = 1%nat /\
  PineconeAdapter_search
    (mkPineconeAdapter true
       (Some (MockPineconeIndex_upsert [] "uuid-c" "evidence-17"
                (pinecone_metadata "evidence-17" "2025-10-18T02:00:00" []))))
    (fun _ => "2025-10-19T00:00:00") surrogate_content 5 = [].
Proof.
  assert (0 <= 5)%Z as Hlimit by lia.
  pose proof (pinecone_search_ignores_query
                (mkPineconeAdapter true
                   (Some (MockPineconeIndex_upsert [] "uuid-c" "evidence-17"
                            (pinecone_metadata "evidence-17" "2025-10-18T02:00:00" []))))
                _ (fun _ => "2025-10-19T00:00:00") "weather" 5 eq_refl eq_refl)
    as [_ Hsame].
  destruct (Hsame eq_refl) as (_ & Hlen & Heq).
  split; [exact Heq|]. split; [exact (Hlen Hlimit)|].
  exact (proj1 (pinecone_search_ignores_query
                  (mkPineconeAdapter true
                     (Some (MockPineconeIndex_upsert [] "uuid-c" "evidence-17"
                              (pinecone_metadata "evidence-17" "2025-10-18T02:00:00" []))))
                  _ (fun _ => "2025-10-19T00:00:00") surrogate_content 5
                  eq_refl eq_refl) eq_refl).
Defined.

Lemma pinecone_update_stores_truncated_witness :
  exists record self',
    PineconeAdapter_store PineconeAdapter_initialize "uuid-c" "2025-10-18T02:00:00"
      "evidence-17" [] = Returns (record, self') /\
    (exists updated stored self'',
       PineconeAdapter_update self' "2025-10-19T00:00:00" "2025-10-19T00:00:01"
         (mr_id record) (Some "evidence-18") None = (AdapterReturns updated, self'') /\
       fetched_timestamp updated = VStr "2025-10-18T02:00:00" /\
       PineconeAdapter_get_by_id self'' "2025-10-20T00:00:00" (mr_id record)
       = Some stored /\
       fetched_content stored = VStr "evidence-18" /\
       fetched_timestamp stored = VStr "2025-10-19T00:00:01") /\
    (exists stored self'',
       PineconeAdapter_update self' "2025-10-19T00:00:00" "2025-10-19T00:00:01"
         (mr_id record) (Some surrogate_content) (Some [("reviewed", VBool true)])
       = (AdapterRaises
            (UnicodeEncodeError "'utf-8' codec can't encode character '\ud800' in position 1: surrogates not allowed"),
          self'') /\
       PineconeAdapter_get_by_id self'' "2025-10-20T00:00:00" (mr_id record)
       = Some stored /\
       fetched_content stored = VStr "evidence-17" /\
       dict_get "reviewed" match fetched_metadata stored with
                           | VDict d => d
                           | _ => []
                           end = Some (VBool true)).
Proof.
  assert ("evidence-18" <> "") as Hcontent by discriminate.
  assert (surrogate_content <> "") as Hcontent' by discriminate.
  do 2 eexists. split; [reflexivity|]. split.
  - destruct (proj1 (pinecone_update_stores_truncated PineconeAdapter_initialize _
                "uuid-c" "2025-10-18T02:00:00" "evidence-17" [] _ "2025-10-19T00:00:00"
                "2025-10-19T00:00:01" "2025-10-20T00:00:00" "evidence-18" None
                eq_refl Hcontent) eq_refl)
      as (updated & stored & self'' & Hrun & _ & _ & Ht & Hget & Hc & Ht' & _).
    exists updated, stored, self''.
    split; [exact Hrun|]. split; [exact Ht|].
    split; [exact Hget|]. split; [exact Hc | exact Ht'].
  - destruct (proj2 (pinecone_update_stores_truncated PineconeAdapter_initialize _
                "uuid-c" "2025-10-18T02:00:00" "evidence-17" [] _ "2025-10-19T00:00:00"
                "2025-10-19T00:00:01" "2025-10-20T00:00:00" surrogate_content
                (Some [("reviewed", VBool true)]) eq_refl Hcontent') eq_refl)
      as (stored & self'' & Hrun & Hget & Hmd & Hc & _).
    exists stored, self''.
    split; [exact Hrun|]. split; [exact Hget|].
    split; [exact Hc|]. rewrite Hmd. reflexivity.
Defined.

(** ** Smart memory orchestrator *)

Lemma bucket_matches_ok (namespace : string) (b : pydict) :
  bucket_ok b -> bucket_matches namespace (VDict b) = Done (names_namespace namespace b).
Proof.
  unfold bucket_ok, bucket_matches, names_namespace, dict_get_default.
  destruct (py_eq _ (VStr namespace)); [done|]. cbn [orb].
  destruct (dict_get "metadata" b) as [[]|]; done.
Qed.

Lemma find_bucket_spec (namespace : string) (buckets : list pydict) :
  Forall bucket_ok buckets ->
  find_bucket namespace (VDict <$> buckets)
  = match list_find (fun b => names_namespace namespace b = true) buckets with
    | Some (_, b) =>
        match getitem_id (VDict b) with
        | Done id => Done (Some id)
        | Failed e => Failed e
        end
    | None => Done None
    end.
Proof.
  induction 1 as [|b buckets Hb _ IH]; [done|].
  cbn [fmap list_fmap find_bucket list_find]. rewrite (bucket_matches_ok namespace b Hb).
  destruct (names_namespace namespace b) eqn:Hm.
  - by rewrite decide_True by done.
  - rewrite decide_False by done. rewrite IH.
    by destruct (list_find _ buckets) as [[i b']|].
Qed.

Lemma dict_set_nonempty (k : string) (v : pyval) (d : pydict) : dict_set k v d <> [].
Proof. destruct d as [|[k' v'] d]; cbn; [done | by destruct (String.eqb k k')]. Qed.

Lemma bucket_metadata_namespace (namespace : string) (metadata : option pydict) :
  (exists v, dict_get "namespace" (bucket_metadata namespace metadata) = Some v) /\
  bucket_metadata namespace metadata <> [] /\
  (match metadata with
   | Some md => dict_get "namespace" md = None
   | None => True
   end ->
   dict_get "namespace" (bucket_metadata namespace metadata) = Some (VStr namespace)).
Proof.
  unfold bucket_metadata, dict_mem.
  set (md := match metadata with Some (kv :: more) => kv :: more | _ => [] end).
  assert (Hmd : match metadata with
                | Some md0 => dict_get "namespace" md0 = None
                | None => True
                end -> dict_get "namespace" md = None).
  { subst md. by destruct metadata as [[|kv more]|]. }
  destruct (dict_get "namespace" md) as [v|] eqn:Hv.
  - split; [by exists v|]. split; [by destruct md|].
    intros Hnone. apply Hmd in Hnone. congruence.
  - split; [exists (VStr namespace); apply dict_get_set_eq|].
    split; [apply dict_set_nonempty|].
    intros _. apply dict_get_set_eq.
Qed.

Lemma bucket_description_nonempty (namespace : string) (description : option string) :
  String.eqb (bucket_description namespace description) "" = false.
Proof.
  unfold bucket_description.
  destruct description as [d|]; [destruct (String.eqb d "") eqn:E; [|done]|]; done.
Qed.


Lemma create_memory_payload_keys (content : string) (bucket_id : pyval)
    (tags : option (list string)) (metadata : option pydict) (source : option string) :
  dict_get "content" (create_memory_payload content bucket_id tags metadata source)
  = Some (VStr content) /\
  dict_get "bucket_id" (create_memory_payload content bucket_id tags metadata source)
  = (if py_truthy bucket_id then Some bucket_id else None).
Proof.
  unfold create_memory_payload.
  destruct source as [s|]; [destruct (String.eqb s "")|];
    destruct metadata as [[|kv more]|]; destruct tags as [[|t ts]|];
    destruct (py_truthy bucket_id);
    rewrite ?dict_get_set_ne by done; by rewrite ?dict_get_set_eq.
Qed.


(** ** Health check *)

Section Health.
Context `{PyLib}.

(** X21. The [overall_status] of [get_system_health] reflects Mem0
    alone: it is [degraded] exactly when Mem0 is configured and its
    probe raised, and [operational] otherwise. A SuperMemory probe that
    raised is reported as an [error] entry under [providers] and leaves
    [overall_status] as it is. The report lists the configured
    providers, Mem0 first; on an orchestrator reached by the operations
    its [audit_chain_length] is the sum of the reported counters
    [total_memories_stored] and [search_queries]. *)
Theorem health_reflects_mem0_only (self : orchestrator) (env : health_env) :
  let report := get_system_health self env in
  (hs_overall_status report = "degraded" <->
   has_mem0 self = true /\ exists e, he_mem0_search env (case_id self) = Raises e) /\
  (hs_overall_status report = "degraded" \/ hs_overall_status report = "operational") /\
  (hs_providers report).*1
  = (if has_mem0 self then ["mem0"] else [])
    ++ (if has_supermemory self then ["supermemory"] else []) /\
  (forall e,
     has_supermemory self = true ->
     (do _client <- he_sm_enter env in he_sm_get env) = Raises e ->
     assoc_get "supermemory" (hs_providers report) = Some (provider_error e (he_now_iso env))) /\
  (reachable self ->
   hs_audit_chain_length report
   = (total_memories_stored (hs_metrics report) + search_queries (hs_metrics report))%Z).
Proof.
  cbv zeta. unfold get_system_health.
  split; [|split; [|split; [|split]]].
  - destruct (has_mem0 self); [destruct (he_mem0_search env (case_id self)) as [[]|e]|];
      cbn [hs_overall_status]; split; try done.
    + by intros (_ & e & ?).
    + intros _. split; [done | by exists e].
    + by intros [? _].
  - destruct (has_mem0 self); [destruct (he_mem0_search env (case_id self)) as [[]|e]|];
      cbn [hs_overall_status]; first [by left | by right].
  - destruct (has_mem0 self); [destruct (he_mem0_search env (case_id self)) as [[]|e]|];
      (destruct (has_supermemory self);
       [destruct (do _client <- he_sm_enter env in he_sm_get env) as [[]|e']|]);
      reflexivity.
  - intros e Hsm Hraise. rewrite Hsm, Hraise.
    destruct (has_mem0 self); [destruct (he_mem0_search env (case_id self)) as [[]|e']|];
      reflexivity.
  - intros Hreach. destruct (reachable_counters self Hreach) as (_ & Hlen & _).
    destruct (has_mem0 self); [destruct (he_mem0_search env (case_id self)) as [[]|e]|];
      cbn [hs_audit_chain_length hs_metrics]; exact Hlen.
Qed.
End Health.

(** ** The MemoryPlugin orchestrator and the health check on sample data *)

Lemma sample_buckets_ok : Forall bucket_ok sample_buckets.
Proof. repeat (constructor; [exact I|]). constructor. Qed.



Lemma health_reflects_mem0_only_witness :
  hs_overall_status (get_system_health sample_state sample_health_env) = "operational" /\
  assoc_get "supermemory" (hs_providers (get_system_health sample_state sample_health_env))
  = Some (provider_error (BackendError "connection refused") "2025-10-19T00:00:00+00:00") /\
  hs_audit_chain_length (get_system_health sample_state sample_health_env) = 2%Z.
Proof.
  destruct (@health_reflects_mem0_only sample_lib sample_state sample_health_env)
    as (_ & _ & _ & Hsm & Hlen).
  split; [reflexivity|].
  split; [exact (Hsm _ eq_refl eq_refl)|].
  exact (Hlen sample_state_reachable).
Defined.

(** ** The memory_plugin provider *)

Section MemoryPluginProvider.
Context `{PyLib}.

(** X22. The provider [memory_plugin], which the API accepts, reaches no
    backend. A store through it, on an orchestrator reached by the
    operations and of a content that can be encoded, returns with the
    status [failed], no provider used and no per-backend record, yet it
    appends its audit entry and is counted as a stored memory and as a
    failed operation; a content that holds a surrogate makes it raise an
    HTTP 500 like any store. A search through it returns no result and a
    total of 0, whatever the backends hold, and is counted and audited
    like any search. *)
Theorem memory_plugin_reaches_no_backend (self : orchestrator) (senv : store_env)
    (qenv : search_env) (content : string) (md : MemoryMetadata) (query : string)
    (cid : option string) (limit : Z) :
  reachable self ->
  (encodable content = true ->
   exists (r : store_result) (self' : orchestrator),
     store_memory_unified senv content md MEMORY_PLUGIN self = (Returns r, self') /\
     st_status r = "failed" /\
     st_providers_used r = [] /\
     st_results r = [] /\
     o_metrics self'
     = Metrics (total_memories_stored (o_metrics self) + 1)
         (successful_operations (o_metrics self))
         (failed_operations (o_metrics self) + 1)
         (search_queries (o_metrics self)) /\
     length (audit_chain self') = S (length (audit_chain self))) /\
  (encodable content = false ->
   store_memory_unified senv content md MEMORY_PLUGIN self
   = (Raises (HTTPException 500
        ("Memory storage failed: " ++ encode_error_message content)%string),
      count_failed self)) /\
  (exists (r : search_result) (self' : orchestrator),
     search_memory_unified qenv query cid limit MEMORY_PLUGIN self = (Returns r, self') /\
     sr_providers_searched r = [] /\
     sr_merged_results r = [] /\
     sr_total_found r = 0%Z /\
     search_queries (o_metrics self') = (search_queries (o_metrics self) + 1)%Z /\
     length (audit_chain self') = S (length (audit_chain self))).
Proof.
  intros Hreach. pose proof (reachable_chain_ok self Hreach) as Hok.
  split; [|split].
  - intros Henc.
    destruct (store_memory_unified_spec self senv content md MEMORY_PLUGIN Hok Henc)
      as (r & self' & o1 & o2 & Hrun & _ & _ & Hres & Hstatus & Hused & _).
    destruct (store_memory_unified_state self senv content md MEMORY_PLUGIN Hok Henc)
      as (r2 & e & op & _ & _ & _ & _ & Hrun2 & _).
    rewrite Hrun in Hrun2. injection Hrun2 as <- ->.
    assert (Hnil : st_results r = []) by (rewrite Hres; reflexivity).
    do 2 eexists. split; [exact Hrun|].
    rewrite Hused, Hstatus, Hnil. cbn [o_metrics audit_chain].
    split; [done|]. split; [done|]. split; [done|]. split; [done|].
    rewrite length_app. cbn [length]. lia.
  - apply store_memory_unified_raises.
  - destruct (search_memory_unified_spec self qenv query cid limit MEMORY_PLUGIN Hok)
      as (e & op & _ & _ & _ & _ & _ & Hrun).
    assert (Hnil : search_outcomes self qenv query cid limit MEMORY_PLUGIN = [])
      by reflexivity.
    rewrite Hnil in Hrun. cbn in Hrun.
    do 2 eexists. split; [exact Hrun|].
    cbn [sr_providers_searched sr_merged_results sr_total_found after_search o_metrics
         audit_chain search_queries].
    split; [done|].
    split; [unfold py_slice_to; destruct (0 <=? limit)%Z; apply take_nil|].
    split; [done|]. split; [done|].
    rewrite length_app. cbn [length]. lia.
Qed.
End MemoryPluginProvider.

Lemma memory_plugin_reaches_no_backend_witness :
  (exists r self',
     @store_memory_unified sample_lib sample_store_env "evidence-17" sample_metadata
       MEMORY_PLUGIN sample_state = (Returns r, self') /\
     st_status r = "failed" /\
     length (audit_chain self') = 3%nat) /\
  (exists r self',
     @search_memory_unified sample_lib sample_search_env "evidence" None 10
       MEMORY_PLUGIN sample_state = (Returns r, self') /\
     sr_merged_results r = [] /\
     sr_total_found r = 0%Z).
Proof.
  destruct (@memory_plugin_reaches_no_backend sample_lib sample_state sample_store_env
              sample_search_env "evidence-17" sample_metadata "evidence" None 10
              sample_state_reachable)
    as (Hstore & _ & (r' & self'' & Hrun' & _ & Hmerged & Htotal & _)).
  destruct (Hstore eq_refl) as (r & self' & Hrun & Hstatus & _ & _ & _ & Hlen).
  split.
  - exists r, self'. split; [exact Hrun|]. split; [exact Hstatus | exact Hlen].
  - exists r', self''. split; [exact Hrun'|]. split; [exact Hmerged | exact Htotal].
Defined.
